(** * Preferences: validation and scope resolution

    Shallow embedding of [pkg/query-service/app/preferences/model.go]:
    the typed preference definitions, the validator [IsValidValue], the
    read-time coercion [SanitizeValue] and the org/user getters, setters
    and bulk listings over the two preference tables. *)

From Stdlib Require Import ZArith Bool SpecFloat DecimalString.
From stdpp Require Import base option list gmap strings.

Local Open Scope string_scope.
Local Open Scope Z_scope.

(** ** Go values *)

(** [float64] values are the binary64 numbers of IEEE 754, in the
    sign / mantissa / exponent form of the standard library;
    [S754_finite s m e] denotes [(-1)^s * m * 2^e]. *)
Definition float64 : Type := spec_float.

Definition is_binary64 (f : float64) : bool := valid_binary 53 1024 f.

Definition int64_min : Z := - 2 ^ 63.
Definition int64_max : Z := 2 ^ 63 - 1.

(** The "integer indefinite" value of the amd64 conversion instruction. *)
Definition int64_indefinite : Z := int64_min.

(** Magnitude of [m * 2^e] with the fraction discarded. *)
Definition fin_trunc (m : positive) (e : Z) : Z :=
  if 0 <=? e then Z.pos m * 2 ^ e else Z.pos m / 2 ^ (- e).

(** The integer part of a float, toward zero ([None] for NaN and the
    infinities). *)
Definition float_trunc (f : float64) : option Z :=
  match f with
  | S754_zero _ => Some 0
  | S754_finite s m e => Some (if s then - fin_trunc m e else fin_trunc m e)
  | _ => None
  end.

(** What [int64(f)] gives on the platform at hand when [f] does not fit
    (a float beyond the [int64] range, an infinity, NaN): Go leaves the
    result of such a conversion to the implementation. *)
Class Platform : Type := { int64_overflow : float64 -> Z }.

(** An [int64], whatever integer it is read from. *)
Definition wrap64 (z : Z) : Z := (z + 2 ^ 63) mod 2 ^ 64 - 2 ^ 63.

(** amd64: the conversion instruction answers with the "integer
    indefinite" value for every operand that does not fit. *)
#[global] Instance amd64 : Platform :=
  {| int64_overflow := fun _ => int64_indefinite |}.

(** A platform whose conversion saturates (arm64): the nearer bound of
    [int64], and zero for NaN. *)
Definition saturating : Platform :=
  {| int64_overflow := fun f =>
       match f with
       | S754_nan => 0
       | S754_infinity true | S754_finite true _ _ => int64_min
       | _ => int64_max
       end |}.

(** Go conversion [int64(f)]. *)
Definition int64_of_float64 {arch : Platform} (f : float64) : Z :=
  match float_trunc f with
  | Some z =>
      if (int64_min <=? z) && (z <=? int64_max) then z
      else wrap64 (int64_overflow f)
  | None => wrap64 (int64_overflow f)
  end.

(** Go conversion [float64(z)]: the nearest binary64 number, ties to the
    even mantissa.  No [int64] is large enough to overflow. *)
Definition float64_of_int64 (z : Z) : float64 :=
  if z =? 0 then S754_zero false
  else
    let a := Z.abs z in
    let s := z <? 0 in
    if a <? 2 ^ 53 then S754_finite s (Z.to_pos a) 0
    else
      let k := Z.log2 a - 52 in
      let q := a / 2 ^ k in
      let r := a mod 2 ^ k in
      let h := 2 ^ (k - 1) in
      let q' := if r <? h then q
                else if h <? r then q + 1
                else if Z.even q then q else q + 1 in
      S754_finite s (Z.to_pos q') k.

(** Go comparison [x == y] on [float64]: numeric equality, so the two
    zeros are equal and NaN differs from everything. *)
Definition float64_eqb (x y : float64) : bool :=
  match x, y with
  | S754_zero _, S754_zero _ => true
  | S754_infinity s1, S754_infinity s2 => Bool.eqb s1 s2
  | S754_finite s1 m1 e1, S754_finite s2 m2 e2 =>
      Bool.eqb s1 s2 &&
      (Z.pos m1 * 2 ^ (e1 - Z.min e1 e2) =? Z.pos m2 * 2 ^ (e2 - Z.min e1 e2))
  | _, _ => false
  end.

#[local] Set Warnings "-register-all".

(** A value of type [interface{}], by dynamic type: the types a decoded
    JSON document or a fetched row can hold, and [int64].  An [int64] is
    carried as the integer it denotes; the code only compares them. *)
Inductive value : Type :=
  | VNil
  | VBool (b : bool)
  | VInt64 (z : Z)
  | VFloat64 (f : float64)
  | VString (s : string)
  | VSlice (elems : list value)
  | VMap (fields : list (string * value)).

(** Go comparison [x == y] of two interface values: equal when the
    dynamic types are identical and the dynamic values are equal; [None]
    is the run-time panic raised when the shared dynamic type is not
    comparable. *)
Definition go_eq (x y : value) : option bool :=
  match x, y with
  | VNil, VNil => Some true
  | VBool a, VBool b => Some (Bool.eqb a b)
  | VInt64 a, VInt64 b => Some (a =? b)
  | VFloat64 a, VFloat64 b => Some (float64_eqb a b)
  | VString a, VString b => Some (String.eqb a b)
  | VSlice _, VSlice _ => None
  | VMap _, VMap _ => None
  | _, _ => Some false
  end.

(** Comparison of an interface value with a string constant. *)
Definition go_eq_string (x : value) (s : string) : bool :=
  match x with
  | VString a => String.eqb a s
  | _ => false
  end.

Definition comparable (x : value) : bool :=
  match x with
  | VSlice _ | VMap _ => false
  | _ => true
  end.

(** A slice is either [nil] or a sequence of elements; the two are told
    apart by [!= nil] even when the sequence is empty. *)
Inductive slice (A : Type) : Type :=
  | SliceNil
  | SliceOf (elems : list A).
Arguments SliceNil {A}.
Arguments SliceOf {A} elems.

Definition is_nil {A} (s : slice A) : bool :=
  match s with SliceNil => true | SliceOf _ => false end.

(** The elements a [range] loop visits. *)
Definition elems_of {A} (s : slice A) : list A :=
  match s with SliceNil => [] | SliceOf l => l end.

(** Outcome of a call that may panic. *)
Inductive outcome (A : Type) : Type :=
  | Returns (a : A)
  | Panics.
Arguments Returns {A} a.
Arguments Panics {A}.

(** ** Definitions and errors *)

Record Range : Type := mkRange { Min : Z; Max : Z }.

Record Preference : Type := mkPreference {
  Key : string;
  Name : string;
  Description : string;
  ValueType : string;
  DefaultValue : value;
  AllowedValues : slice value;
  IsDescreteValues : bool;
  PRange : Range;
  AllowedScopes : slice string
}.

Inductive ErrorType : Type := ErrorBadData | ErrorForbidden | ErrorExec.

(** An argument handed to [fmt.Errorf]. *)
Inductive fmt_arg : Type :=
  | ArgString (s : string)
  | ArgInt64 (z : Z)
  | ArgValues (vs : slice value).

(** The error built by [fmt.Errorf format args...], kept unrendered. *)
Record error : Type := Errorf { err_format : string; err_args : list fmt_arg }.

Record ApiError : Type := mkApiError { Typ : ErrorType; Err : error }.

Definition ErrorValueTypeMismatch (p : Preference) : ApiError :=
  mkApiError ErrorBadData
    (Errorf "the preference value is not of expected type: %s" [ArgString (ValueType p)]).

Definition ErrorNotInRange (p : Preference) : ApiError :=
  mkApiError ErrorBadData
    (Errorf "the preference value is not in the range specified, min: %v , max:%v"
       [ArgInt64 (Min (PRange p)); ArgInt64 (Max (PRange p))]).

Definition ErrorNotInAllowedValues (p : Preference) : ApiError :=
  mkApiError ErrorBadData
    (Errorf "the preference value is not in the list of allowedValues: %v"
       [ArgValues (AllowedValues p)]).

Definition PreferenceValueTypeInteger : string := "integer".
Definition PreferenceValueTypeFloat : string := "float".
Definition PreferenceValueTypeString : string := "string".
Definition PreferenceValueTypeBoolean : string := "boolean".

Definition OrgAllowedScope : string := "org".
Definition UserAllowedScope : string := "user".

(** ** Validator *)

(** One turn of the loop of [checkIfInAllowedValues]. *)
Definition allowed_step (preferenceValue : value) (acc : outcome bool) (v : value)
  : outcome bool :=
  match acc with
  | Panics => Panics
  | Returns isInAllowedValues =>
      match go_eq v preferenceValue with
      | None => Panics
      | Some true => Returns true
      | Some false => Returns isInAllowedValues
      end
  end.

Definition checkIfInAllowedValues (preferenceValue : value) (p : Preference)
  : outcome bool :=
  foldl (allowed_step preferenceValue) (Returns false) (elems_of (AllowedValues p)).

(** The integer a candidate stands for in an integer-typed preference
    (the assertion to [int64], else the exact-float fallback); [None] is
    the type mismatch. *)
Definition integer_of_value {arch : Platform} (preferenceValue : value) : option Z :=
  match preferenceValue with
  | VInt64 val => Some val
  | VFloat64 floatVal =>
      if negb (float64_eqb floatVal (float64_of_int64 (int64_of_float64 floatVal)))
      then None
      else Some (int64_of_float64 floatVal)
  | _ => None
  end.

(** The [switch p.ValueType] statement of [IsValidValue]: [Some e] when
    it returns the error [e], [None] when control falls out of it. *)
Definition type_switch {arch : Platform} (p : Preference) (preferenceValue : value)
  : option ApiError :=
  if String.eqb (ValueType p) PreferenceValueTypeInteger then
    match integer_of_value preferenceValue with
    | None => Some (ErrorValueTypeMismatch p)
    | Some val =>
        if negb (IsDescreteValues p) then
          if (val <? Min (PRange p)) || (val >? Max (PRange p))
          then Some (ErrorNotInRange p)
          else None
        else None
    end
  else if String.eqb (ValueType p) PreferenceValueTypeString then
    match preferenceValue with
    | VString _ => None
    | _ => Some (ErrorValueTypeMismatch p)
    end
  else if String.eqb (ValueType p) PreferenceValueTypeFloat then
    match preferenceValue with
    | VFloat64 _ => None
    | _ => Some (ErrorValueTypeMismatch p)
    end
  else if String.eqb (ValueType p) PreferenceValueTypeBoolean then
    match preferenceValue with
    | VBool _ => None
    | _ => Some (ErrorValueTypeMismatch p)
    end
  else None.

(** The allowed-values block that follows the switch. *)
Definition allowed_check (p : Preference) (preferenceValue : value)
  : outcome (option ApiError) :=
  if IsDescreteValues p then
    if negb (is_nil (AllowedValues p)) then
      match checkIfInAllowedValues preferenceValue p with
      | Panics => Panics
      | Returns isInAllowedValues =>
          if negb isInAllowedValues
          then Returns (Some (ErrorNotInAllowedValues p))
          else Returns None
      end
    else Returns None
  else Returns None.

(** [IsValidValue]: [Returns None] is the [nil] error. *)
Definition IsValidValue {arch : Platform} (p : Preference) (preferenceValue : value)
  : outcome (option ApiError) :=
  match type_switch p preferenceValue with
  | Some e => Returns (Some e)
  | None => allowed_check p preferenceValue
  end.

(** ** Scopes and sanitisation *)

Definition IsEnabledForScope (p : Preference) (scope : string) : bool :=
  if negb (is_nil (AllowedScopes p)) then
    foldl (fun isPreferenceEnabledForGivenScope allowedScope =>
             if String.eqb allowedScope scope then true
             else isPreferenceEnabledForGivenScope)
      false (elems_of (AllowedScopes p))
  else false.

Definition SanitizeValue (p : Preference) (preferenceValue : value) : value :=
  if String.eqb (ValueType p) PreferenceValueTypeBoolean then
    if go_eq_string preferenceValue "1" then VBool true else VBool false
  else preferenceValue.

(** ** Registry *)

(** The package variables [preferences] and [preferenceMap]. *)
Record Registry : Type := mkRegistry {
  preferences : list Preference;
  preferenceMap : gmap string Preference
}.

(** The loop of [InitDB] that fills [preferenceMap]; [inl] is the
    duplicate-key error. *)
Fixpoint fill_preferenceMap (prefs : list Preference) (m : gmap string Preference)
  : error + gmap string Preference :=
  match prefs with
  | [] => inr m
  | preference :: rest =>
      match m !! Key preference with
      | Some _ =>
          inl (Errorf "duplicate preference key in the preferences: %s"
                 [ArgString (Key preference)])
      | None => fill_preferenceMap rest (<[Key preference := preference]> m)
      end
  end.

(** [InitDB], from the point where [preference.json] has been decoded
    into [decoded]; creating the tables and reading the file are left to
    the environment. *)
Definition InitDB (decoded : list Preference) : error + Registry :=
  match fill_preferenceMap decoded ∅ with
  | inl e => inl e
  | inr m => inr (mkRegistry decoded m)
  end.

(** ** The preference store *)

Record PreferenceKV : Type := mkKV {
  PreferenceId : string;
  PreferenceValue : value
}.

(** The two tables, keyed by their primary keys [(preference_id, org_id)]
    and [(preference_id, user_id)]; a row holds what a read of its
    [preference_value] column fetches.  [db_fault], when set, is the
    error every statement fails with.  [db_bind] is what becomes of a Go
    value bound as the [preference_value] of an upsert: the error
    [database/sql] answers with when it has no form for the value, or
    else the value the TEXT column then holds.  The rows of [users] and
    [organizations] that the foreign keys refer to are left out. *)
Record DB : Type := mkDB {
  org_preference : gmap (string * string) value;
  user_preference : gmap (string * string) value;
  db_fault : option string;
  db_bind : value -> string + value
}.

(** Outcome of [db.Get]. *)
Inductive get_result : Type :=
  | GotRow (row : PreferenceKV)
  | ErrNoRows
  | GetFailed (msg : string).

Definition db_get (fault : option string) (table : gmap (string * string) value)
    (preferenceId owner : string) : get_result :=
  match fault with
  | Some msg => GetFailed msg
  | None =>
      match table !! (preferenceId, owner) with
      | Some v => GotRow (mkKV preferenceId v)
      | None => ErrNoRows
      end
  end.

(** Outcome of [db.Select]: the rows of one owner, in the order the
    table yields them. *)
Definition db_select (fault : option string) (table : gmap (string * string) value)
    (owner : string) : string + list PreferenceKV :=
  match fault with
  | Some msg => inl msg
  | None =>
      inr (omap (fun '((preferenceId, o, v) : string * string * value) =>
                   if String.eqb o owner then Some (mkKV preferenceId v) else None)
             (map_to_list table))
  end.

(** The upsert statement of the setters on one table: the row of the
    primary key is inserted, or its [preference_value] replaced, by what
    the column holds of the bound value. *)
Definition db_upsert (table : gmap (string * string) value)
    (preferenceId : string) (column : value) (owner : string)
  : gmap (string * string) value :=
  <[(preferenceId, owner) := column]> table.

(** What the request context carries: the identifier of the calling
    user ([user.User.Id]). *)
Record Context : Type := mkContext { UserId : string }.

(** A Go result pair [(value, *ApiError)] with exactly one side set. *)
Inductive result (A : Type) : Type :=
  | Ok (a : A)
  | Failed (e : ApiError).
Arguments Ok {A} a.
Arguments Failed {A} e.

Definition ErrNoSuchPreference (preferenceId : string) : ApiError :=
  mkApiError ErrorBadData (Errorf "no such preferenceId exists: %s" [ArgString preferenceId]).

Definition ErrNotEnabledAtOrg (preferenceId : string) : ApiError :=
  mkApiError ErrorForbidden
    (Errorf "preference is not enabled at org scope: %s" [ArgString preferenceId]).

Definition ErrNotEnabledAtUser (preferenceId : string) : ApiError :=
  mkApiError ErrorForbidden
    (Errorf "preference is not enabled at user scope: %s" [ArgString preferenceId]).

Definition ErrExec (format msg : string) : ApiError :=
  mkApiError ErrorExec (Errorf format [ArgString msg]).

(** ** Org preference functions *)

Definition GetOrgPreference (reg : Registry) (db : DB) (ctx : Context)
    (preferenceId orgId : string) : result PreferenceKV :=
  match preferenceMap reg !! preferenceId with
  | None => Failed (ErrNoSuchPreference preferenceId)
  | Some preference =>
      if negb (IsEnabledForScope preference OrgAllowedScope) then
        Failed (ErrNotEnabledAtOrg preferenceId)
      else
        match db_get (db_fault db) (org_preference db) preferenceId orgId with
        | ErrNoRows => Ok (mkKV preferenceId (DefaultValue preference))
        | GetFailed msg => Failed (ErrExec "error in fetching the org preference: %s" msg)
        | GotRow orgPreference =>
            Ok (mkKV preferenceId
                  (SanitizeValue preference (PreferenceValue orgPreference)))
        end
  end.

Definition UpdateOrgPreference {arch : Platform} (reg : Registry) (db : DB)
    (ctx : Context)
    (preferenceId : string) (preferenceValue : value) (orgId : string)
  : outcome (result PreferenceKV) * DB :=
  match preferenceMap reg !! preferenceId with
  | None => (Returns (Failed (ErrNoSuchPreference preferenceId)), db)
  | Some preference =>
      if negb (IsEnabledForScope preference OrgAllowedScope) then
        (Returns (Failed (ErrNotEnabledAtOrg preferenceId)), db)
      else
        match IsValidValue preference preferenceValue with
        | Panics => (Panics, db)
        | Returns (Some err) => (Returns (Failed err), db)
        | Returns None =>
            match db_fault db with
            | Some dberr =>
                (Returns (Failed (ErrExec "error in setting the preference value: %s" dberr)),
                 db)
            | None =>
                match db_bind db preferenceValue with
                | inl dberr =>
                    (Returns (Failed (ErrExec "error in setting the preference value: %s"
                                        dberr)), db)
                | inr column =>
                    (Returns (Ok (mkKV preferenceId preferenceValue)),
                     mkDB (db_upsert (org_preference db) preferenceId column orgId)
                          (user_preference db) (db_fault db) (db_bind db))
                end
            end
        end
  end.

(** The row type of the bulk listings. *)
Module View.
Record AllPreferences : Type := mk {
  Key : string;
  Name : string;
  Description : string;
  ValueType : string;
  DefaultValue : value;
  Value : value;
  IsDescreteValues : bool;
  AllowedValues : slice value;
  PRange : Range;
  AllowedScopes : slice string
}.
End View.

(** The row a listing starts from: the definition's fields copied over,
    [Value] still the zero value. *)
Definition view_of (preference : Preference) (v : value) : View.AllPreferences :=
  View.mk (Key preference) (Name preference) (Description preference)
    (ValueType preference) (DefaultValue preference) v
    (IsDescreteValues preference) (AllowedValues preference)
    (PRange preference) (AllowedScopes preference).

(** The key-to-value map a listing builds from the fetched rows. *)
Definition value_map (rows : list PreferenceKV) : gmap string value :=
  foldl (fun m preferenceValue =>
           <[PreferenceId preferenceValue := PreferenceValue preferenceValue]> m)
    ∅ rows.

(** Body of the loop of [GetAllOrgPreferences] over [preferences]. *)
Definition org_list_step (preferenceValueMap : gmap string value)
    (allOrgPreferences : list View.AllPreferences) (preference : Preference)
  : list View.AllPreferences :=
  if IsEnabledForScope preference OrgAllowedScope then
    let v := match preferenceValueMap !! Key preference with
             | Some ok => ok
             | None => DefaultValue preference
             end in
    allOrgPreferences ++ [view_of preference (SanitizeValue preference v)]
  else allOrgPreferences.

Definition GetAllOrgPreferences (reg : Registry) (db : DB) (ctx : Context)
    (orgId : string) : result (list View.AllPreferences) :=
  match db_select (db_fault db) (org_preference db) orgId with
  | inl err => Failed (ErrExec "error in getting all org preference values: %s" err)
  | inr orgPreferenceValues =>
      let preferenceValueMap := value_map orgPreferenceValues in
      Ok (foldl (org_list_step preferenceValueMap) [] (preferences reg))
  end.

(** ** User preference functions *)

Definition GetUserPreference (reg : Registry) (db : DB) (ctx : Context)
    (preferenceId orgId : string) : result PreferenceKV :=
  match preferenceMap reg !! preferenceId with
  | None => Failed (ErrNoSuchPreference preferenceId)
  | Some preference =>
      let preferenceValue := mkKV preferenceId (DefaultValue preference) in
      let isPreferenceEnabledAtUserScope := IsEnabledForScope preference UserAllowedScope in
      let isPreferenceEnabledAtOrgScope := IsEnabledForScope preference OrgAllowedScope in
      if negb isPreferenceEnabledAtUserScope then
        Failed (ErrNotEnabledAtUser preferenceId)
      else
        let afterOrg : result PreferenceKV :=
          if isPreferenceEnabledAtOrgScope then
            match db_get (db_fault db) (org_preference db) preferenceId orgId with
            | GetFailed msg =>
                Failed (ErrExec "error in getting org preference values: %s" msg)
            | GotRow orgPreference =>
                Ok (mkKV (PreferenceId preferenceValue) (PreferenceValue orgPreference))
            | ErrNoRows => Ok preferenceValue
            end
          else Ok preferenceValue in
        match afterOrg with
        | Failed e => Failed e
        | Ok preferenceValue =>
            match db_get (db_fault db) (user_preference db) preferenceId (UserId ctx) with
            | GetFailed msg =>
                Failed (ErrExec "error in getting user preference values: %s" msg)
            | GotRow userPreference =>
                Ok (mkKV (PreferenceId preferenceValue)
                      (SanitizeValue preference (PreferenceValue userPreference)))
            | ErrNoRows =>
                Ok (mkKV (PreferenceId preferenceValue)
                      (SanitizeValue preference (PreferenceValue preferenceValue)))
            end
        end
  end.

Definition UpdateUserPreference {arch : Platform} (reg : Registry) (db : DB)
    (ctx : Context)
    (preferenceId : string) (preferenceValue : value)
  : outcome (result PreferenceKV) * DB :=
  match preferenceMap reg !! preferenceId with
  | None => (Returns (Failed (ErrNoSuchPreference preferenceId)), db)
  | Some preference =>
      if negb (IsEnabledForScope preference UserAllowedScope) then
        (Returns (Failed (ErrNotEnabledAtUser preferenceId)), db)
      else
        match IsValidValue preference preferenceValue with
        | Panics => (Panics, db)
        | Returns (Some err) => (Returns (Failed err), db)
        | Returns None =>
            match db_fault db with
            | Some dberr =>
                (Returns (Failed (ErrExec "error in setting the preference value: %s" dberr)),
                 db)
            | None =>
                match db_bind db preferenceValue with
                | inl dberr =>
                    (Returns (Failed (ErrExec "error in setting the preference value: %s"
                                        dberr)), db)
                | inr column =>
                    (Returns (Ok (mkKV preferenceId preferenceValue)),
                     mkDB (org_preference db)
                          (db_upsert (user_preference db) preferenceId column
                             (UserId ctx))
                          (db_fault db) (db_bind db))
                end
            end
        end
  end.

(** Body of the loop of [GetAllUserPreferences] over [preferences]. *)
Definition user_list_step (preferenceOrgValueMap preferenceUserValueMap : gmap string value)
    (allUserPreferences : list View.AllPreferences) (preference : Preference)
  : list View.AllPreferences :=
  let isEnabledForOrgScope := IsEnabledForScope preference OrgAllowedScope in
  let isEnabledForUserScope := IsEnabledForScope preference UserAllowedScope in
  if isEnabledForUserScope then
    let v0 := DefaultValue preference in
    let v1 := if isEnabledForOrgScope then
                match preferenceOrgValueMap !! Key preference with
                | Some ok => ok
                | None => v0
                end
              else v0 in
    let v2 := match preferenceUserValueMap !! Key preference with
              | Some ok => ok
              | None => v1
              end in
    allUserPreferences ++ [view_of preference (SanitizeValue preference v2)]
  else allUserPreferences.

Definition GetAllUserPreferences (reg : Registry) (db : DB) (ctx : Context)
    (orgId : string) : result (list View.AllPreferences) :=
  match db_select (db_fault db) (org_preference db) orgId with
  | inl err => Failed (ErrExec "error in getting all org preference values: %s" err)
  | inr orgPreferenceValues =>
      let preferenceOrgValueMap := value_map orgPreferenceValues in
      match db_select (db_fault db) (user_preference db) (UserId ctx) with
      | inl err => Failed (ErrExec "error in getting all user preference values: %s" err)
      | inr userPreferenceValues =>
          let preferenceUserValueMap := value_map userPreferenceValues in
          Ok (foldl (user_list_step preferenceOrgValueMap preferenceUserValueMap)
                [] (preferences reg))
      end
  end.

(** ** Vocabulary of the statements *)

(** A float with no fractional part, in the words of the
    specification. *)
Definition is_integral (f : float64) : bool :=
  match f with
  | S754_zero _ => true
  | S754_finite _ m e => (0 <=? e) || (Z.pos m mod 2 ^ (- e) =? 0)
  | _ => false
  end.

Definition in_int64 (z : Z) : bool := (int64_min <=? z) && (z <=? int64_max).

(** The integer a float stands for exactly: defined when the float has
    no fractional part and fits [int64]. *)
Definition exact_int64 (f : float64) : option Z :=
  if is_integral f then
    match float_trunc f with
    | Some z => if in_int64 z then Some z else None
    | None => None
    end
  else None.

(** Dynamic type of an interface value. *)
Inductive dyn_type : Type :=
  | TNil | TBool | TInt64 | TFloat64 | TString | TSlice | TMap.

Definition type_of (x : value) : dyn_type :=
  match x with
  | VNil => TNil
  | VBool _ => TBool
  | VInt64 _ => TInt64
  | VFloat64 _ => TFloat64
  | VString _ => TString
  | VSlice _ => TSlice
  | VMap _ => TMap
  end.

(** The effective value of a user-scope read: user row, else org row,
    else default. *)
Definition precedence (p : Preference) (orgRow userRow : option value) : value :=
  match userRow with
  | Some u => u
  | None =>
      match orgRow with
      | Some o => o
      | None => DefaultValue p
      end
  end.

(** The row a listing emits for one definition, if any. *)
Definition org_row (db : DB) (orgId : string) (p : Preference)
  : option View.AllPreferences :=
  if IsEnabledForScope p OrgAllowedScope then
    Some (view_of p
            (SanitizeValue p
               (default (DefaultValue p) (org_preference db !! (Key p, orgId)))))
  else None.

Definition user_row (db : DB) (ctx : Context) (orgId : string) (p : Preference)
  : option View.AllPreferences :=
  if IsEnabledForScope p UserAllowedScope then
    Some (view_of p
            (SanitizeValue p
               (precedence p
                  (if IsEnabledForScope p OrgAllowedScope
                   then org_preference db !! (Key p, orgId) else None)
                  (user_preference db !! (Key p, UserId ctx)))))
  else None.

(** ** Sample definitions and stores *)

Definition float_4 : float64 := S754_finite false 4503599627370496 (-50).
Definition float_4_5 : float64 := S754_finite false 5066549580791808 (-50).
Definition float_2p64 : float64 := S754_finite false 4503599627370496 12.
Definition float_2p63 : float64 := S754_finite false 4503599627370496 11.

Definition maxAlerts : Preference :=
  mkPreference "MAX_ALERTS" "Max alerts" "Upper bound on alerts" "integer"
    (VFloat64 (S754_finite false 5629499534213120 (-49))) SliceNil false
    (mkRange 1 100) (SliceOf ["org"]).

Definition retryCount : Preference :=
  mkPreference "RETRY_COUNT" "Retries" "Allowed retry counts" "integer"
    (VInt64 4) (SliceOf [VInt64 2; VInt64 4]) true
    (mkRange 0 0) (SliceOf ["org"; "user"]).

Definition darkMode : Preference :=
  mkPreference "DARK_MODE" "Dark mode" "Use the dark theme" "boolean"
    (VBool true) SliceNil false (mkRange 0 0) (SliceOf ["org"; "user"]).

Definition theme : Preference :=
  mkPreference "THEME" "Theme" "Colour theme" "string"
    (VString "light") (SliceOf []) true (mkRange 0 0) (SliceOf ["user"]).

Definition layout : Preference :=
  mkPreference "LAYOUT" "Layout" "Panel layout" "json"
    VNil (SliceOf [VSlice []]) false (mkRange 0 0) (SliceOf ["org"; "user"]).

Definition sample_registry : Registry :=
  mkRegistry [maxAlerts; retryCount; darkMode; theme; layout]
    (<["MAX_ALERTS" := maxAlerts]>
       (<["RETRY_COUNT" := retryCount]>
          (<["DARK_MODE" := darkMode]>
             (<["THEME" := theme]> (<["LAYOUT" := layout]> ∅))))).

(** *** A TEXT column

    What the store of the package makes of a bound value: [database/sql]
    hands [nil], [bool], [int64], [float64] and [string] to the driver
    and refuses a slice or a map; SQLite keeps a number bound to a
    column of TEXT affinity as its text form ([true] is bound as the
    integer 1), and a read fetches that text as a [string]. *)

Definition decimal (z : Z) : string := NilZero.string_of_int (Z.to_int z).

Definition zeros (n : Z) : string := String.concat "" (replicate (Z.to_nat n) "0").

Definition digits (z : Z) : Z := Z.of_nat (String.length (decimal z)).

Fixpoint strip_zeros (fuel : nat) (n : Z) : Z :=
  match fuel with
  | O => n
  | S k => if n mod 10 =? 0 then strip_zeros k (n / 10) else n
  end.

(** The least [k], from the given one up, with [num * 10^k >= den]. *)
Fixpoint first_digit_at (fuel : nat) (num den k : Z) : Z :=
  match fuel with
  | O => k
  | S j => if den <=? num * 10 ^ k then k else first_digit_at j num den (k + 1)
  end.

Definition round_half_even (a b : Z) : Z :=
  let q := a / b in
  let r := a mod b in
  if 2 * r <? b then q
  else if b <? 2 * r then q + 1
  else if Z.even q then q else q + 1.

(** The text SQLite gives the positive real [num / den]: fifteen
    significant digits, trailing zeros dropped, at least one digit after
    the point, and an exponent when the first digit is past the
    fifteenth place or more than four places behind the point.  The
    last digit is rounded exactly here; SQLite's own arithmetic decides
    it when the real lies half-way between two candidates. *)
Definition real_text_pos (num den : Z) : string :=
  let d0 := if den <=? num then digits (num / den) - 1
            else - first_digit_at 400 num den 1 in
  let s := 14 - d0 in
  let n0 := if 0 <=? s then round_half_even (num * 10 ^ s) den
            else round_half_even num (den * 10 ^ (- s)) in
  let '(n1, d) := if 10 ^ 15 <=? n0 then (n0 / 10, d0 + 1) else (n0, d0) in
  let n := strip_zeros 15 n1 in
  let sig := decimal n in
  let len := digits n in
  if (d <? -4) || (14 <? d) then
    String.substring 0 1 sig +:+ "." +:+
    (if len =? 1 then "0" else String.substring 1 (Z.to_nat (len - 1)) sig) +:+
    "e" +:+ (if d <? 0 then "-" else "+") +:+
    (if Z.abs d <? 10 then "0" else "") +:+ decimal (Z.abs d)
  else if 0 <=? d then
    if len <=? d + 1 then sig +:+ zeros (d + 1 - len) +:+ ".0"
    else String.substring 0 (Z.to_nat (d + 1)) sig +:+ "." +:+
         String.substring (Z.to_nat (d + 1)) (Z.to_nat (len - d - 1)) sig
  else "0." +:+ zeros (- d - 1) +:+ sig.

(** The column value of a bound [float64]; NaN is stored as NULL. *)
Definition real_column (f : float64) : value :=
  match f with
  | S754_zero _ => VString "0.0"
  | S754_infinity s => VString (if s then "-Inf" else "Inf")
  | S754_nan => VNil
  | S754_finite s m e =>
      VString ((if s then "-" else "") +:+
               (if 0 <=? e then real_text_pos (Z.pos m * 2 ^ e) 1
                else real_text_pos (Z.pos m) (2 ^ (- e))))
  end.

Definition text_column (v : value) : string + value :=
  match v with
  | VNil => inr VNil
  | VBool b => inr (VString (if b then "1" else "0"))
  | VInt64 z => inr (VString (decimal z))
  | VFloat64 f => inr (real_column f)
  | VString s => inr (VString s)
  | VSlice _ =>
      inl "sql: converting argument $2 type: unsupported type []interface {}, a slice of interface"
  | VMap _ =>
      inl "sql: converting argument $2 type: unsupported type map[string]interface {}, a map"
  end.

Definition empty_db : DB := mkDB ∅ ∅ None text_column.

Definition sample_db : DB :=
  mkDB (<[("DARK_MODE", "org-1") := VString "0"]> ∅)
       (<[("DARK_MODE", "user-1") := VString "1"]> ∅)
       None text_column.

Definition sample_ctx : Context := mkContext "user-1".

(** A definition with another range, everything else as it was. *)
Definition with_range (p : Preference) (r : Range) : Preference :=
  mkPreference (Key p) (Name p) (Description p) (ValueType p) (DefaultValue p)
    (AllowedValues p) (IsDescreteValues p) r (AllowedScopes p).

(** A store with another org table, or another user table. *)
Definition with_org_table (db : DB) (t : gmap (string * string) value) : DB :=
  mkDB t (user_preference db) (db_fault db) (db_bind db).

Definition with_user_table (db : DB) (t : gmap (string * string) value) : DB :=
  mkDB (org_preference db) t (db_fault db) (db_bind db).

Definition float_8 : float64 := S754_finite false 4503599627370496 (-49).

(** An integer-typed preference with its allowed values as a JSON
    document decodes them: every number a [float64]. *)
Definition batchSize : Preference :=
  mkPreference "BATCH_SIZE" "Batch size" "Rows per batch" "integer"
    (VFloat64 float_4) (SliceOf [VFloat64 float_4; VFloat64 float_8]) true
    (mkRange 0 0) (SliceOf ["org"]).

Definition density : Preference :=
  mkPreference "DENSITY" "Density" "Table density" "string"
    (VString "compact") (SliceOf [VString "compact"; VString "comfortable"]) true
    (mkRange 0 0) (SliceOf ["user"]).

Definition widgets : Preference :=
  mkPreference "WIDGETS" "Widgets" "Pinned widgets" "json"
    (VSlice []) (SliceOf [VString "none"; VSlice [VString "cpu"]]) true
    (mkRange 0 0) (SliceOf ["org"; "user"]).

Definition widgets_registry : Registry :=
  mkRegistry [widgets] (<["WIDGETS" := widgets]> ∅).

Definition faulty_db : DB :=
  mkDB (<[("DARK_MODE", "org-1") := VString "1"]> ∅) ∅ (Some "database is locked")
       text_column.

(** ** The earlier revision of the org functions

    The revision of the package kept beside [model.go]: no
    [IsDescreteValues] flag, an [int] range, the type of a candidate
    read off a type switch over the machine number types, and the range
    test done through the assertion [preferenceValue.(int)]. *)
Module Legacy.

Inductive int_type : Type :=
  | Tuint8 | Tuint16 | Tuint32 | Tuint64
  | Tint | Tint8 | Tint16 | Tint32 | Tint64.

#[export] Instance int_type_eq_dec : EqDecision int_type.
Proof. solve_decision. Defined.

(** A value of type [interface{}], by dynamic type, with the number
    types the type switch of this revision tells apart. *)
Inductive value : Type :=
  | VNil
  | VBool (b : bool)
  | VInteger (t : int_type) (z : Z)
  | VFloat32 (f : float64)
  | VFloat64 (f : float64)
  | VString (s : string)
  | VSlice (elems : list value)
  | VMap (fields : list (string * value)).

Definition go_eq (x y : value) : option bool :=
  match x, y with
  | VNil, VNil => Some true
  | VBool a, VBool b => Some (Bool.eqb a b)
  | VInteger t a, VInteger u b => Some (bool_decide (t = u) && (a =? b))
  | VFloat32 a, VFloat32 b => Some (float64_eqb a b)
  | VFloat64 a, VFloat64 b => Some (float64_eqb a b)
  | VString a, VString b => Some (String.eqb a b)
  | VSlice _, VSlice _ => None
  | VMap _, VMap _ => None
  | _, _ => Some false
  end.

Record Range : Type := mkRange { Min : Z; Max : Z }.

Record Preference : Type := mkPreference {
  Key : string;
  Name : string;
  Description : string;
  ValueType : string;
  DefaultValue : value;
  AllowedValues : slice value;
  PRange : Range;
  AllowedScopes : slice string
}.

Inductive fmt_arg : Type :=
  | ArgString (s : string)
  | ArgInt (z : Z)
  | ArgValue (v : value).

Record error : Type := Errorf { err_format : string; err_args : list fmt_arg }.

Record ApiError : Type := mkApiError { Typ : ErrorType; Err : error }.

Inductive result (A : Type) : Type :=
  | Ok (a : A)
  | Failed (e : ApiError).
Arguments Ok {A} a.
Arguments Failed {A} e.

Record PreferenceKV : Type := mkKV {
  PreferenceId : string;
  PreferenceValue : value
}.

(** The org table, and the error every statement fails with when set. *)
Record DB : Type := mkDB {
  org_preference : gmap (string * string) value;
  db_fault : option string
}.

(** What the request context carries here: the caller's organisation
    ([user.OrgId]). *)
Record Context : Type := mkContext { OrgId : string }.

Definition ErrNoSuchPreference (preferenceId : string) : ApiError :=
  mkApiError ErrorBadData (Errorf "no such preferenceId exists: %s" [ArgString preferenceId]).

Definition ErrNotEnabledAtOrg (preferenceId : string) : ApiError :=
  mkApiError ErrorForbidden
    (Errorf "preference is not enabled at org scope: %s" [ArgString preferenceId]).

Definition ErrTypeMismatch (preference : Preference) : ApiError :=
  mkApiError ErrorBadData
    (Errorf "the preference value is not of expected type: %s"
       [ArgString (ValueType preference)]).

Definition ErrNotInAllowedValues (preference : Preference) : ApiError :=
  mkApiError ErrorBadData
    (Errorf "the preference value is not in the list of allowedValues: %s"
       (ArgValue <$> elems_of (AllowedValues preference))).

Definition ErrNotInRange (preference : Preference) : ApiError :=
  mkApiError ErrorBadData
    (Errorf "the preference value is not in the range specified, min: %v , max:%v"
       [ArgInt (Min (PRange preference)); ArgInt (Max (PRange preference))]).

Definition ErrExec (format msg : string) : ApiError :=
  mkApiError ErrorExec (Errorf format [ArgString msg]).

(** The loop over [AllowedScopes] both functions start with. *)
Definition enabled_at_org (preference : Preference) : bool :=
  foldl (fun isPreferenceEnabled scope =>
           if String.eqb scope "org" then true else isPreferenceEnabled)
    false (elems_of (AllowedScopes preference)).

(** The type switch of [UpdateOrgPreference]. *)
Definition typeOfValue (preferenceValue : value) : string :=
  match preferenceValue with
  | VInteger _ _ => "integer"
  | VFloat32 _ | VFloat64 _ => "float"
  | VString _ => "string"
  | VBool _ => "boolean"
  | _ => "unknown"
  end.

Definition allowed_step (preferenceValue : value) (acc : outcome bool) (v : value)
  : outcome bool :=
  match acc with
  | Panics => Panics
  | Returns isInAllowedValues =>
      match go_eq v preferenceValue with
      | None => Panics
      | Some true => Returns true
      | Some false => Returns isInAllowedValues
      end
  end.

(** The domain block of [UpdateOrgPreference]: membership when
    [AllowedValues] is not [nil], else the range test on the candidate
    asserted to [int], which panics for any other dynamic type. *)
Definition domain_check (preference : Preference) (preferenceValue : value)
  : outcome (option ApiError) :=
  match AllowedValues preference with
  | SliceOf l =>
      match foldl (allowed_step preferenceValue) (Returns false) l with
      | Panics => Panics
      | Returns isInAllowedValues =>
          if negb isInAllowedValues
          then Returns (Some (ErrNotInAllowedValues preference))
          else Returns None
      end
  | SliceNil =>
      match preferenceValue with
      | VInteger Tint z =>
          if (z <? Min (PRange preference)) || (z >? Max (PRange preference))
          then Returns (Some (ErrNotInRange preference))
          else Returns None
      | _ => Panics
      end
  end.

Definition GetOrgPreference (preferenceMap : gmap string Preference) (db : DB)
    (ctx : Context) (preferenceId : string) : result PreferenceKV :=
  match preferenceMap !! preferenceId with
  | None => Failed (ErrNoSuchPreference preferenceId)
  | Some preference =>
      if negb (enabled_at_org preference) then
        Failed (ErrNotEnabledAtOrg preferenceId)
      else
        match db_fault db with
        | Some msg => Failed (ErrExec "error in fetching the org preference: %s" msg)
        | None =>
            match org_preference db !! (preferenceId, OrgId ctx) with
            | None => Ok (mkKV preferenceId (DefaultValue preference))
            | Some stored => Ok (mkKV preferenceId stored)
            end
        end
  end.

(** The setter of this revision (its [fmt.Println] of the user is left
    out). *)
Definition UpdateOrgPreference (preferenceMap : gmap string Preference) (db : DB)
    (ctx : Context) (preferenceId : string) (preferenceValue : value)
  : outcome (result PreferenceKV) * DB :=
  match preferenceMap !! preferenceId with
  | None => (Returns (Failed (ErrNoSuchPreference preferenceId)), db)
  | Some preference =>
      if negb (enabled_at_org preference) then
        (Returns (Failed (ErrNotEnabledAtOrg preferenceId)), db)
      else if negb (String.eqb (typeOfValue preferenceValue) (ValueType preference)) then
        (Returns (Failed (ErrTypeMismatch preference)), db)
      else
        match domain_check preference preferenceValue with
        | Panics => (Panics, db)
        | Returns (Some err) => (Returns (Failed err), db)
        | Returns None =>
            match db_fault db with
            | Some msg =>
                (Returns (Failed (ErrExec "error in setting the preference value: %s" msg)),
                 db)
            | None =>
                (Returns (Ok (mkKV preferenceId preferenceValue)),
                 mkDB (<[(preferenceId, OrgId ctx) := preferenceValue]> (org_preference db))
                      (db_fault db))
            end
        end
  end.

Definition pageSize : Preference :=
  mkPreference "PAGE_SIZE" "Page size" "Rows per page" "integer"
    (VFloat64 (S754_finite false 5629499534213120 (-49))) SliceNil
    (mkRange 1 100) (SliceOf ["org"]).

Definition banner : Preference :=
  mkPreference "BANNER" "Banner" "Banner text" "string"
    (VString "") SliceNil (mkRange 0 0) (SliceOf ["org"]).

Definition pageChoice : Preference :=
  mkPreference "PAGE_CHOICE" "Page choice" "Rows per page, from a list" "integer"
    VNil (SliceOf [VInteger Tint 500]) (mkRange 1 100) (SliceOf ["org"]).

Definition sample_map : gmap string Preference :=
  <["PAGE_SIZE" := pageSize]> (<["BANNER" := banner]> (<["PAGE_CHOICE" := pageChoice]> ∅)).

Definition sample_db : DB :=
  mkDB (<[("BANNER", "org-1") := VString "1"]> ∅) None.

End Legacy.

(** * Properties *)

(** ** Floats and the integer they stand for *)

Example float_samples :
  is_binary64 float_4 = true /\ int64_of_float64 float_4 = 4 /\
  float64_eqb float_4 (float64_of_int64 4) = true /\
  is_binary64 float_4_5 = true /\ is_integral float_4_5 = false /\
  is_binary64 float_2p64 = true /\ float_trunc float_2p64 = Some (2 ^ 64).
Proof. vm_compute. repeat split; reflexivity. Qed.

(** [float64_of_int64] rounds as the standard library's binary64
    normalisation does. *)
Example float64_of_int64_agrees :
  forallb (fun z => float64_eqb (float64_of_int64 z) (binary_normalize 53 1024 z 0 false))
    [1; -1; 3; 4; 2 ^ 53; 2 ^ 53 + 1; 2 ^ 53 + 2; 2 ^ 53 + 3; 2 ^ 54 + 2; 2 ^ 54 + 6;
     2 ^ 63 - 1; - 2 ^ 63; 2 ^ 62 + 2 ^ 9; 2 ^ 62 + 2 ^ 9 + 1; 2 ^ 62 + 3 * 2 ^ 9;
     - (2 ^ 60 + 2 ^ 7); 123456789012345678] = true.
Proof. vm_compute. reflexivity. Qed.

Lemma digits2_pos_bound (m : positive) : Z.pos m < 2 ^ Z.pos (digits2_pos m).
Proof.
  induction m as [m IH | m IH |]; cbn [digits2_pos].
  - rewrite Pos2Z.inj_succ, Z.pow_succ_r by lia. lia.
  - rewrite Pos2Z.inj_succ, Z.pow_succ_r by lia. lia.
  - reflexivity.
Qed.

Lemma binary64_mantissa s m e :
  is_binary64 (S754_finite s m e) = true -> Z.pos m < 2 ^ 53.
Proof.
  unfold is_binary64, valid_binary, bounded, canonical_mantissa, fexp, emin.
  intros H. apply andb_true_iff in H as [H _]. apply Z.eqb_eq in H.
  pose proof (digits2_pos_bound m) as Hd.
  assert (Z.pos (digits2_pos m) <= 53) as Hle by lia.
  eapply Z.lt_le_trans; [exact Hd |].
  apply Z.pow_le_mono_r; lia.
Qed.

(** Below [2^53] the conversion is exact. *)
Lemma float64_of_int64_small (s : bool) (a : Z) :
  0 < a < 2 ^ 53 ->
  float64_of_int64 (if s then - a else a) = S754_finite s (Z.to_pos a) 0.
Proof.
  intros Ha. unfold float64_of_int64.
  assert (((if s then - a else a) =? 0) = false) as -> by (destruct s; lia).
  assert (Z.abs (if s then - a else a) = a) as -> by (destruct s; lia).
  assert (((if s then - a else a) <? 0) = s) as -> by (destruct s; lia).
  assert ((a <? 2 ^ 53) = true) as -> by lia.
  reflexivity.
Qed.

(** Above it, an integer with a 53-bit mantissa loses nothing. *)
Lemma float64_of_int64_large (s : bool) (m e : Z) :
  0 < m < 2 ^ 53 -> 0 <= e -> 2 ^ 53 <= m * 2 ^ e ->
  exists k, 0 <= k <= e /\
    float64_of_int64 (if s then - (m * 2 ^ e) else m * 2 ^ e)
    = S754_finite s (Z.to_pos (m * 2 ^ (e - k))) k.
Proof.
  intros Hm He Ha. set (a := m * 2 ^ e) in *.
  assert (0 < a) as Hpos by lia.
  set (k := Z.log2 a - 52).
  assert (Z.log2 a = Z.log2 m + e) as Hlog.
  { unfold a. rewrite <- Z.shiftl_mul_pow2 by lia. apply Z.log2_shiftl; lia. }
  assert (Z.log2 m < 53) as Hlm by (apply Z.log2_lt_pow2; lia).
  assert (53 <= Z.log2 a) as Hla by (apply Z.log2_le_pow2; lia).
  assert (0 <= k <= e) as Hk by lia.
  exists k. split; [exact Hk |].
  assert (a = (m * 2 ^ (e - k)) * 2 ^ k) as Hsplit.
  { unfold a. rewrite <- Z.mul_assoc, <- Z.pow_add_r by lia. do 2 f_equal. lia. }
  assert (0 < 2 ^ k) as Hpk by (apply Z.pow_pos_nonneg; lia).
  unfold float64_of_int64.
  assert (((if s then - a else a) =? 0) = false) as -> by (destruct s; lia).
  assert (Z.abs (if s then - a else a) = a) as -> by (destruct s; lia).
  assert (((if s then - a else a) <? 0) = s) as -> by (destruct s; lia).
  assert ((a <? 2 ^ 53) = false) as -> by lia.
  fold k. cbv zeta.
  assert (a mod 2 ^ k = 0) as -> by (rewrite Hsplit; apply Z.mod_mul; lia).
  assert (a / 2 ^ k = m * 2 ^ (e - k)) as -> by (rewrite Hsplit; apply Z.div_mul; lia).
  assert (0 < 2 ^ (k - 1)) as Hh by (apply Z.pow_pos_nonneg; lia).
  assert ((0 <? 2 ^ (k - 1)) = true) as -> by lia.
  reflexivity.
Qed.

Lemma float64_of_int64_min :
  float64_of_int64 int64_min = S754_finite true 4503599627370496 11.
Proof. vm_compute. reflexivity. Qed.

Lemma wrap64_range (z : Z) : int64_min <= wrap64 z <= int64_max.
Proof.
  unfold wrap64, int64_min, int64_max.
  pose proof (Z.mod_pos_bound (z + 2 ^ 63) (2 ^ 64) ltac:(lia)). lia.
Qed.

(** An [int64] converts to zero or to a float of magnitude at most
    [2^63]. *)
Lemma float64_of_int64_shape (r : Z) :
  r <> 0 -> int64_min <= r <= int64_max ->
  exists q k, float64_of_int64 r = S754_finite (r <? 0) (Z.to_pos q) k /\
    0 < q /\ 0 <= k /\ q * 2 ^ k <= 2 ^ 63.
Proof.
  intros Hr0 Hr. unfold int64_min, int64_max in Hr. unfold float64_of_int64.
  assert ((r =? 0) = false) as -> by lia.
  set (a := Z.abs r). assert (0 < a <= 2 ^ 63) as Ha by (unfold a; lia).
  destruct (Z.ltb_spec a (2 ^ 53)) as [Hs | Hl].
  - exists a, 0. split; [reflexivity |]. rewrite Z.mul_1_r. lia.
  - cbv zeta. set (k := Z.log2 a - 52).
    destruct (Z.log2_spec a ltac:(lia)) as [Hlo Hhi].
    assert (53 <= Z.log2 a) as Hla by (apply Z.log2_le_pow2; lia).
    assert (Z.log2 a <= 63) as Hlb.
    { change 63 with (Z.log2 (2 ^ 63)). apply Z.log2_le_mono. lia. }
    assert (0 < k) as Hk by (unfold k; lia).
    assert (0 < 2 ^ k) as Hpk by (apply Z.pow_pos_nonneg; lia).
    set (q := a / 2 ^ k). set (r' := a mod 2 ^ k).
    pose proof (Z.div_mod a (2 ^ k) ltac:(lia)) as Hdm. fold q r' in Hdm.
    pose proof (Z.mod_pos_bound a (2 ^ k) Hpk) as Hrb. fold r' in Hrb.
    assert (2 ^ (Z.log2 a) = 2 ^ 52 * 2 ^ k) as Hsplit.
    { rewrite <- Z.pow_add_r by lia. f_equal. unfold k. lia. }
    assert (2 ^ 52 <= q) as Hqlo.
    { unfold q. apply Z.div_le_lower_bound; [lia |]. rewrite Z.mul_comm. lia. }
    assert (q < 2 ^ 53) as Hqhi.
    { unfold q. apply Z.div_lt_upper_bound; [lia |].
      rewrite Z.pow_succ_r in Hhi by lia. rewrite Hsplit in Hhi.
      change (2 ^ 53) with (2 * 2 ^ 52). lia. }
    set (q' := if r' <? 2 ^ (k - 1) then q
               else if 2 ^ (k - 1) <? r' then q + 1
               else if Z.even q then q else q + 1).
    assert (q <= q' <= q + 1) as Hq'.
    { unfold q'. destruct (r' <? 2 ^ (k - 1)); [lia |].
      destruct (2 ^ (k - 1) <? r'); [lia |]. destruct (Z.even q); lia. }
    exists q', k. split; [reflexivity |]. split; [lia |]. split; [lia |].
    destruct (Z.eq_dec (Z.log2 a) 63) as [E63 | N63].
    + assert (a = 2 ^ 63) as Ea.
      { rewrite E63 in Hlo. lia. }
      unfold q', r', q, k. rewrite Ea. vm_compute. discriminate.
    + assert (2 ^ k <= 2 ^ 10) as Hk10 by (apply Z.pow_le_mono_r; unfold k; lia).
      change (2 ^ 63) with (2 ^ 53 * 2 ^ 10). nia.
Qed.

(** The only float beyond [int64] that an [int64] converts back to is
    [2^63]. *)
Lemma overflow_round_trip (s : bool) (m : positive) (e : Z) (r : Z) :
  Z.pos m < 2 ^ 53 -> 0 <= e ->
  in_int64 (if s then - (Z.pos m * 2 ^ e) else Z.pos m * 2 ^ e) = false ->
  int64_min <= r <= int64_max ->
  float64_eqb (S754_finite s m e) (float64_of_int64 r) = true ->
  float64_eqb (S754_finite s m e) float_2p63 = true.
Proof.
  intros Hm He Hout Hr Heq.
  assert (0 < 2 ^ e) as Hpe by (apply Z.pow_pos_nonneg; lia).
  destruct (Z.eq_dec r 0) as [-> | Hr0]; [discriminate |].
  destruct (float64_of_int64_shape r Hr0 Hr) as (q & k & Hf & Hq & Hk & Hb).
  rewrite Hf in Heq. unfold float64_eqb in Heq.
  apply andb_true_iff in Heq as [Hs Hv]. apply Z.eqb_eq in Hv.
  rewrite Z2Pos.id in Hv by lia.
  assert (Z.pos m * 2 ^ e = q * 2 ^ k) as Hval.
  { assert (2 ^ e = 2 ^ (e - Z.min e k) * 2 ^ Z.min e k) as ->
      by (rewrite <- Z.pow_add_r by lia; f_equal; lia).
    assert (2 ^ k = 2 ^ (k - Z.min e k) * 2 ^ Z.min e k) as ->
      by (rewrite <- Z.pow_add_r by lia; f_equal; lia).
    by rewrite !Z.mul_assoc, Hv. }
  unfold in_int64, int64_min, int64_max in Hout.
  assert (s = false /\ Z.pos m * 2 ^ e = 2 ^ 63) as [-> H63].
  { destruct s; [exfalso; lia | split; [reflexivity | lia]]. }
  unfold float_2p63, float64_eqb. cbn [Bool.eqb andb]. apply Z.eqb_eq.
  change (Z.pos 4503599627370496) with (2 ^ 52).
  assert (0 < 2 ^ Z.min e 11) as Hpm by (apply Z.pow_pos_nonneg; lia).
  apply (Z.mul_reg_r _ _ (2 ^ Z.min e 11)); [lia |].
  rewrite <- !Z.mul_assoc, <- !Z.pow_add_r by lia.
  replace (e - Z.min e 11 + Z.min e 11) with e by lia.
  replace (11 - Z.min e 11 + Z.min e 11) with 11 by lia.
  rewrite H63. reflexivity.
Qed.

(** Where [int64(f)] is defined, the float fallback of the integer case
    yields the integer [f] denotes when [f] has no fractional part, and
    nothing otherwise. *)
Lemma integer_of_float64_in_range {arch : Platform} (f : float64) (z : Z) :
  is_binary64 f = true -> float_trunc f = Some z -> in_int64 z = true ->
  integer_of_value (VFloat64 f) = if is_integral f then Some z else None.
Proof.
  intros Hv Htr Hin. unfold integer_of_value, int64_of_float64. rewrite Htr.
  unfold in_int64 in Hin. rewrite Hin.
  destruct f as [s | s | | s m e]; try discriminate.
  - injection Htr as <-. destruct s; reflexivity.
  - apply binary64_mantissa in Hv. cbn in Htr. injection Htr as Hz.
    unfold is_integral. set (a := fin_trunc m e) in *.
    destruct (Z.leb_spec 0 e) as [He | He]; cbn [orb].
    + assert (a = Z.pos m * 2 ^ e) as Ha by (unfold a, fin_trunc; case Z.leb_spec; lia).
      assert (0 < 2 ^ e) as Hpe by (apply Z.pow_pos_nonneg; lia).
      assert (0 < a) as Hpos by lia.
      destruct (Z.lt_ge_cases a (2 ^ 53)) as [Hs | Hl].
      * rewrite <- Hz, float64_of_int64_small by lia.
        unfold float64_eqb. rewrite eqb_reflx, Z.min_r by lia.
        rewrite Z2Pos.id, Z.sub_0_r, Z.sub_diag, Z.mul_1_r by lia.
        rewrite <- Ha, Z.eqb_refl. reflexivity.
      * rewrite <- Hz, Ha.
        destruct (float64_of_int64_large s (Z.pos m) e) as (k & Hk & ->); [lia .. |].
        assert (0 < 2 ^ (e - k)) by (apply Z.pow_pos_nonneg; lia).
        unfold float64_eqb. rewrite eqb_reflx, Z.min_r by lia.
        rewrite Z2Pos.id, Z.sub_diag, Z.mul_1_r by lia.
        rewrite Z.eqb_refl. reflexivity.
    + assert (0 < 2 ^ (- e)) as Hpe by (apply Z.pow_pos_nonneg; lia).
      assert (a = Z.pos m / 2 ^ (- e)) as Ha
        by (unfold a, fin_trunc; case Z.leb_spec; lia).
      assert (2 <= 2 ^ (- e)) as H2.
      { change 2 with (2 ^ 1) at 1. apply Z.pow_le_mono_r; lia. }
      assert (0 <= a < 2 ^ 53) as Hab.
      { rewrite Ha. split; [apply Z.div_pos; lia |].
        apply Z.div_lt_upper_bound; [lia |]. nia. }
      pose proof (Z.div_mod (Z.pos m) (2 ^ (- e)) ltac:(lia)) as Hdm. rewrite <- Ha in Hdm.
      destruct (Z.eqb_spec (Z.pos m mod 2 ^ (- e)) 0) as [H0 | H0].
      * assert (0 < a) by nia.
        rewrite <- Hz, float64_of_int64_small by lia.
        unfold float64_eqb. rewrite eqb_reflx, Z.min_l by lia.
        rewrite Z2Pos.id, Z.sub_diag, Z.mul_1_r, Z.sub_0_l by lia.
        assert ((Z.pos m =? a * 2 ^ (- e)) = true) as -> by lia.
        reflexivity.
      * destruct (Z.eq_dec a 0) as [Ez | Ez].
        -- rewrite <- Hz, Ez. destruct s; reflexivity.
        -- rewrite <- Hz, float64_of_int64_small by lia.
           unfold float64_eqb. rewrite eqb_reflx, Z.min_l by lia.
           rewrite Z2Pos.id, Z.sub_diag, Z.mul_1_r, Z.sub_0_l by lia.
           assert ((Z.pos m =? a * 2 ^ (- e)) = false) as -> by lia.
           reflexivity.
Qed.

Lemma float64_of_int64_never_special (r : Z) (f : float64) :
  float_trunc f = None -> float64_eqb f (float64_of_int64 r) = false.
Proof.
  intros Htr. unfold float64_of_int64. destruct (r =? 0), (Z.abs r <? 2 ^ 53);
    destruct f as [s | s | | s m e]; try discriminate; reflexivity.
Qed.

(** Where [int64(f)] is left to the platform, the fallback yields
    nothing on any platform, unless [f] is [2^63]. *)
Lemma integer_of_float64_overflow {arch : Platform} (f : float64) :
  is_binary64 f = true ->
  (forall z, float_trunc f = Some z -> in_int64 z = false) ->
  float64_eqb f float_2p63 = false ->
  integer_of_value (VFloat64 f) = None.
Proof.
  intros Hv Hout H63. unfold integer_of_value, int64_of_float64.
  set (r := wrap64 (int64_overflow f)).
  pose proof (wrap64_range (int64_overflow f)) as Hr. fold r in Hr.
  destruct (float_trunc f) as [z |] eqn:Htr.
  - specialize (Hout z eq_refl). unfold in_int64 in Hout. rewrite Hout.
    destruct (float64_eqb f (float64_of_int64 r)) eqn:Heq; [| reflexivity].
    exfalso. destruct f as [s | s | | s m e]; try discriminate.
    + injection Htr as <-. discriminate.
    + apply binary64_mantissa in Hv. cbn in Htr. injection Htr as Hz.
      destruct (Z.leb_spec 0 e) as [He | He].
      * assert (fin_trunc m e = Z.pos m * 2 ^ e) as Ha
          by (unfold fin_trunc; case Z.leb_spec; lia).
        rewrite Ha in Hz.
        assert (float64_eqb (S754_finite s m e) float_2p63 = true) as Hx.
        { apply (overflow_round_trip s m e r Hv He); [| exact Hr | exact Heq].
          unfold in_int64. by rewrite Hz. }
        congruence.
      * assert (0 < 2 ^ (- e)) as Hpe by (apply Z.pow_pos_nonneg; lia).
        assert (fin_trunc m e = Z.pos m / 2 ^ (- e)) as Ha
          by (unfold fin_trunc; case Z.leb_spec; lia).
        assert (0 <= fin_trunc m e < 2 ^ 53) as Hab.
        { rewrite Ha. split; [apply Z.div_pos; lia |].
          apply Z.div_lt_upper_bound; [lia |].
          assert (2 <= 2 ^ (- e)).
          { change 2 with (2 ^ 1) at 1. apply Z.pow_le_mono_r; lia. }
          nia. }
        unfold int64_min, int64_max in Hout. destruct s; lia.
  - by rewrite (float64_of_int64_never_special r f Htr).
Qed.

Lemma float_2p63_facts :
  is_binary64 float_2p63 = true /\ is_integral float_2p63 = true /\
  float_trunc float_2p63 = Some (2 ^ 63) /\ exact_int64 float_2p63 = None.
Proof. vm_compute. repeat split; reflexivity. Qed.

(** On amd64 the float fallback of the integer case yields exactly the
    integral floats that fit [int64], each as the integer it denotes. *)
Lemma integer_of_float64 (f : float64) :
  is_binary64 f = true -> integer_of_value (VFloat64 f) = exact_int64 f.
Proof.
  intros Hv. unfold exact_int64.
  destruct (float_trunc f) as [z |] eqn:Htr.
  - destruct (in_int64 z) eqn:Hin.
    + by apply integer_of_float64_in_range.
    + assert (integer_of_value (VFloat64 f) = None) as ->;
        [| by destruct (is_integral f)].
      destruct (float64_eqb f float_2p63) eqn:H63.
      * unfold integer_of_value, int64_of_float64. rewrite Htr.
        unfold in_int64 in Hin. rewrite Hin. cbn [int64_overflow amd64].
        change (wrap64 int64_indefinite) with int64_min.
        rewrite float64_of_int64_min.
        destruct f as [s | s | | s m e]; try discriminate.
        unfold float_2p63, float64_eqb in H63.
        apply andb_true_iff in H63 as [Hs _]. apply eqb_prop in Hs. subst s.
        reflexivity.
      * apply integer_of_float64_overflow; [exact Hv | | exact H63].
        intros z' Hz'. rewrite Htr in Hz'. injection Hz' as <-. exact Hin.
  - assert (integer_of_value (VFloat64 f) = None) as ->;
      [| by destruct (is_integral f)].
    apply integer_of_float64_overflow; [exact Hv | |].
    + intros z' Hz'. rewrite Htr in Hz'. discriminate.
    + by destruct f.
Qed.

(** ** The validator, case by case *)

Lemma type_switch_integer {arch : Platform} (p : Preference) (v : value) :
  ValueType p = PreferenceValueTypeInteger ->
  type_switch p v =
    match integer_of_value v with
    | None => Some (ErrorValueTypeMismatch p)
    | Some val =>
        if negb (IsDescreteValues p) then
          if (val <? Min (PRange p)) || (val >? Max (PRange p))
          then Some (ErrorNotInRange p) else None
        else None
    end.
Proof. intros H. unfold type_switch. rewrite H. reflexivity. Qed.

Lemma type_switch_string {arch : Platform} (p : Preference) (v : value) :
  ValueType p = PreferenceValueTypeString ->
  type_switch p v =
    match v with VString _ => None | _ => Some (ErrorValueTypeMismatch p) end.
Proof. intros H. unfold type_switch. rewrite H. reflexivity. Qed.

Lemma type_switch_float {arch : Platform} (p : Preference) (v : value) :
  ValueType p = PreferenceValueTypeFloat ->
  type_switch p v =
    match v with VFloat64 _ => None | _ => Some (ErrorValueTypeMismatch p) end.
Proof. intros H. unfold type_switch. rewrite H. reflexivity. Qed.

Lemma type_switch_boolean {arch : Platform} (p : Preference) (v : value) :
  ValueType p = PreferenceValueTypeBoolean ->
  type_switch p v =
    match v with VBool _ => None | _ => Some (ErrorValueTypeMismatch p) end.
Proof. intros H. unfold type_switch. rewrite H. reflexivity. Qed.

Lemma type_switch_other {arch : Platform} (p : Preference) (v : value) :
  ValueType p <> PreferenceValueTypeInteger ->
  ValueType p <> PreferenceValueTypeFloat ->
  ValueType p <> PreferenceValueTypeString ->
  ValueType p <> PreferenceValueTypeBoolean ->
  type_switch p v = None.
Proof.
  intros Hi Hf Hs Hb. unfold type_switch.
  apply String.eqb_neq in Hi, Hf, Hs, Hb. rewrite Hi, Hs, Hf, Hb. reflexivity.
Qed.

Lemma allowed_check_off (p : Preference) (v : value) :
  IsDescreteValues p = false -> allowed_check p v = Returns None.
Proof. intros H. unfold allowed_check. rewrite H. reflexivity. Qed.

Lemma IsValidValue_passed {arch : Platform} (p : Preference) (v : value) :
  type_switch p v = None -> IsValidValue p v = allowed_check p v.
Proof. intros H. unfold IsValidValue. rewrite H. reflexivity. Qed.

Lemma IsValidValue_rejected {arch : Platform} (p : Preference) (v : value) (e : ApiError) :
  type_switch p v = Some e -> IsValidValue p v = Returns (Some e).
Proof. intros H. unfold IsValidValue. rewrite H. reflexivity. Qed.

(** Comparison with a comparable candidate never panics. *)
Lemma go_eq_comparable (a v : value) : comparable v = true -> go_eq a v <> None.
Proof. destruct a, v; cbn; congruence. Qed.

Lemma foldl_allowed_step_panics (v : value) (l : list value) :
  foldl (allowed_step v) Panics l = Panics.
Proof. induction l as [| a l IH]; [reflexivity | exact IH]. Qed.

Lemma foldl_allowed_step_returns (v : value) (l : list value) (b : bool) :
  (forall a, a ∈ l -> go_eq a v <> None) ->
  exists b', foldl (allowed_step v) (Returns b) l = Returns b' /\
    (b' = true <-> b = true \/ exists a, a ∈ l /\ go_eq a v = Some true).
Proof.
  revert b. induction l as [| a l IH]; intros b Hl.
  - exists b. split; [reflexivity |]. split; [auto |].
    intros [H | (a & Ha & _)]; [exact H | inversion Ha].
  - cbn [foldl]. unfold allowed_step at 2.
    destruct (go_eq a v) as [[|] |] eqn:Ha.
    + destruct (IH true) as (b' & Hb' & Hiff); [intros; apply Hl; by right |].
      exists b'. split; [exact Hb' |]. split.
      * intros _. right. exists a. split; [by left | exact Ha].
      * intros _. apply Hiff. by left.
    + destruct (IH b) as (b' & Hb' & Hiff); [intros; apply Hl; by right |].
      exists b'. split; [exact Hb' |]. rewrite Hiff. split.
      * intros [H | (x & Hx & Hxv)]; [by left |].
        right. exists x. split; [by right | exact Hxv].
      * intros [H | (x & Hx & Hxv)]; [by left |].
        apply elem_of_cons in Hx as [-> | Hx]; [congruence |].
        right. by exists x.
    + exfalso. apply (Hl a); [by left | exact Ha].
Qed.

Lemma foldl_allowed_step_exists_panic (v : value) (l : list value) (acc : outcome bool) :
  (exists a, a ∈ l /\ go_eq a v = None) ->
  foldl (allowed_step v) acc l = Panics.
Proof.
  revert acc. induction l as [| a l IH]; intros acc (x & Hx & Hxv).
  - inversion Hx.
  - cbn [foldl]. apply elem_of_cons in Hx as [-> | Hx].
    + unfold allowed_step at 2. rewrite Hxv.
      destruct acc; apply foldl_allowed_step_panics.
    + apply IH. by exists x.
Qed.

(** [checkIfInAllowedValues] reports membership up to Go equality. *)
Lemma checkIfInAllowedValues_spec (v : value) (p : Preference) :
  (forall a, a ∈ elems_of (AllowedValues p) -> go_eq a v <> None) ->
  exists b, checkIfInAllowedValues v p = Returns b /\
    (b = true <-> exists a, a ∈ elems_of (AllowedValues p) /\ go_eq a v = Some true).
Proof.
  intros Hl. destruct (foldl_allowed_step_returns v _ false Hl) as (b & Hb & Hiff).
  exists b. split; [exact Hb |]. rewrite Hiff. split.
  - intros [H | H]; [discriminate | exact H].
  - intros H. by right.
Qed.

Lemma go_eq_None (a v : value) :
  go_eq a v = None <-> type_of a = type_of v /\ comparable v = false.
Proof. destruct a, v; cbn; split; try tauto; try congruence; intros [? ?]; congruence. Qed.

Lemma allowed_values_panic_dec (v : value) (l : list value) :
  (exists a, a ∈ l /\ go_eq a v = None) \/ (forall a, a ∈ l -> go_eq a v <> None).
Proof.
  destruct (decide (Exists (fun a => go_eq a v = None) l)) as [H | H].
  - left. by apply Exists_exists.
  - right. intros a Ha Hav. apply H, Exists_exists. by exists a.
Qed.

Lemma go_eq_true_comparable (a v : value) :
  go_eq a v = Some true -> comparable v = true.
Proof. destruct a, v; cbn; congruence. Qed.

(** With one of the four known value types, whatever passes the switch
    is comparable, so the allowed-values loop cannot panic. *)
Lemma type_switch_comparable {arch : Platform} (p : Preference) (v : value) :
  ValueType p = PreferenceValueTypeInteger \/ ValueType p = PreferenceValueTypeFloat \/
  ValueType p = PreferenceValueTypeString \/ ValueType p = PreferenceValueTypeBoolean ->
  type_switch p v = None -> comparable v = true.
Proof.
  intros [H | [H | [H | H]]].
  - rewrite (type_switch_integer _ _ H). destruct v; cbn; congruence.
  - rewrite (type_switch_float _ _ H). destruct v; cbn; congruence.
  - rewrite (type_switch_string _ _ H). destruct v; cbn; congruence.
  - rewrite (type_switch_boolean _ _ H). destruct v; cbn; congruence.
Qed.

Lemma IsEnabledForScope_foldl (scope : string) (l : list string) (b : bool) :
  foldl (fun acc allowedScope => if String.eqb allowedScope scope then true else acc) b l
  = b || bool_decide (scope ∈ l).
Proof.
  revert b. induction l as [| a l IH]; intros b.
  - cbn. rewrite bool_decide_eq_false_2 by (intros H; inversion H).
    by rewrite orb_false_r.
  - cbn [foldl]. rewrite IH. destruct (String.eqb_spec a scope) as [-> | Hne].
    + rewrite (bool_decide_eq_true_2 (scope ∈ scope :: l)) by (by left).
      by rewrite orb_true_r.
    + destruct b; [reflexivity |]. cbn. apply bool_decide_ext.
      rewrite elem_of_cons. split; [tauto | intros [E | E]; [congruence | exact E]].
Qed.

(** A preference is enabled for a scope exactly when the scope appears
    in its [AllowedScopes]. *)
Lemma IsEnabledForScope_spec (p : Preference) (scope : string) :
  IsEnabledForScope p scope = true <-> scope ∈ elems_of (AllowedScopes p).
Proof.
  unfold IsEnabledForScope. destruct (AllowedScopes p) as [| l]; cbn.
  - split; [discriminate | intros H; inversion H].
  - rewrite IsEnabledForScope_foldl. cbn. apply bool_decide_eq_true.
Qed.

Lemma IsEnabledForScope_false (p : Preference) (scope : string) :
  scope ∉ elems_of (AllowedScopes p) -> IsEnabledForScope p scope = false.
Proof.
  intros H. destruct (IsEnabledForScope p scope) eqn:E; [| reflexivity].
  apply IsEnabledForScope_spec in E. contradiction.
Qed.

(** ** Sanitisation *)

Lemma SanitizeValue_boolean (p : Preference) (v : value) :
  ValueType p = PreferenceValueTypeBoolean ->
  SanitizeValue p v = VBool (go_eq_string v "1").
Proof.
  intros H. unfold SanitizeValue. rewrite H. cbn.
  destruct (go_eq_string v "1"); reflexivity.
Qed.

Lemma SanitizeValue_other (p : Preference) (v : value) :
  ValueType p <> PreferenceValueTypeBoolean -> SanitizeValue p v = v.
Proof.
  intros H. unfold SanitizeValue. apply String.eqb_neq in H. rewrite H. reflexivity.
Qed.

Lemma go_eq_string_1 (v : value) : go_eq_string v "1" = true <-> v = VString "1".
Proof.
  destruct v; cbn; try (split; [discriminate | congruence]).
  rewrite String.eqb_eq. split; congruence.
Qed.

(** C9 (as stated, refuted): for the boolean-typed [darkMode], sanitising
    the stored string "1" gives [true], and sanitising that result again
    gives [false]; [SanitizeValue] is not idempotent there. *)
Lemma SanitizeValue_not_idempotent :
  ValueType darkMode = PreferenceValueTypeBoolean /\
  SanitizeValue darkMode (VString "1") = VBool true /\
  SanitizeValue darkMode (SanitizeValue darkMode (VString "1")) = VBool false /\
  SanitizeValue darkMode (SanitizeValue darkMode (VString "1"))
    <> SanitizeValue darkMode (VString "1").
Proof. repeat split; try reflexivity. cbn. discriminate. Qed.

(** C9 (amended): for a boolean-typed preference [SanitizeValue] maps the
    string "1" to [true] and every other value, the boolean [true]
    included, to [false]; applied twice it is constantly [false], so it
    is idempotent exactly on the values other than the string "1".  For
    every other value type it returns its argument unchanged. *)
Theorem SanitizeValue_mapping (p : Preference) (v : value) :
  (ValueType p = PreferenceValueTypeBoolean ->
     (v = VString "1" -> SanitizeValue p v = VBool true) /\
     (v <> VString "1" -> SanitizeValue p v = VBool false) /\
     SanitizeValue p (SanitizeValue p v) = VBool false /\
     (SanitizeValue p (SanitizeValue p v) = SanitizeValue p v <-> v <> VString "1")) /\
  (ValueType p <> PreferenceValueTypeBoolean -> SanitizeValue p v = v).
Proof.
  split; [intros Hb | apply SanitizeValue_other].
  rewrite !(SanitizeValue_boolean p) by exact Hb. cbn [go_eq_string].
  pose proof (go_eq_string_1 v) as H1.
  destruct (go_eq_string v "1").
  - assert (v = VString "1") as -> by (by apply H1).
    repeat split; try reflexivity; congruence.
  - assert (v <> VString "1") as Hne by (intros E; apply H1 in E; discriminate).
    repeat split; try reflexivity; try congruence; tauto.
Qed.

Lemma SanitizeValue_mapping_witness :
  ValueType darkMode = PreferenceValueTypeBoolean /\
  VString "0" <> VString "1" /\
  SanitizeValue darkMode (VString "0") = VBool false /\
  ValueType theme <> PreferenceValueTypeBoolean /\
  SanitizeValue theme (VString "1") = VString "1".
Proof.
  split; [reflexivity |]. split; [discriminate |]. split.
  - apply (proj1 (SanitizeValue_mapping darkMode (VString "0"))); [reflexivity | discriminate].
  - split; [discriminate |].
    apply (proj2 (SanitizeValue_mapping theme (VString "1"))). discriminate.
Defined.

(** ** Claims on the validator *)

(** C10: a definition whose value type is none of "integer", "float",
    "string", "boolean" gets no type check: every candidate falls out of
    the switch, validation is the allowed-values block alone, and with
    [IsDescreteValues] off every candidate is accepted. *)
Theorem unknown_value_type_is_unchecked {arch : Platform} (p : Preference) (v : value) :
  ValueType p <> PreferenceValueTypeInteger ->
  ValueType p <> PreferenceValueTypeFloat ->
  ValueType p <> PreferenceValueTypeString ->
  ValueType p <> PreferenceValueTypeBoolean ->
  type_switch p v = None /\
  IsValidValue p v = allowed_check p v /\
  (IsDescreteValues p = false -> IsValidValue p v = Returns None).
Proof.
  intros Hi Hf Hs Hb.
  pose proof (type_switch_other p v Hi Hf Hs Hb) as Hsw.
  split; [exact Hsw |]. split; [by apply IsValidValue_passed |].
  intros Hd. rewrite IsValidValue_passed by exact Hsw. by apply allowed_check_off.
Qed.

Lemma unknown_value_type_is_unchecked_witness :
  ValueType layout <> PreferenceValueTypeInteger /\
  IsDescreteValues layout = false /\
  IsValidValue layout (VMap [("columns", VInt64 3)]) = Returns None.
Proof.
  split; [discriminate |]. split; [reflexivity |].
  apply (unknown_value_type_is_unchecked layout (VMap [("columns", VInt64 3)]));
    first [discriminate | reflexivity].
Defined.

(** C6: with [IsDescreteValues] off, a string-, boolean- or float-typed
    preference accepts every candidate of the matching dynamic type,
    whatever its [PRange]: no range or domain check applies. *)
Theorem no_check_beyond_type {arch : Platform} (p : Preference) (v : value) :
  IsDescreteValues p = false ->
  (ValueType p = PreferenceValueTypeString /\ type_of v = TString) \/
  (ValueType p = PreferenceValueTypeBoolean /\ type_of v = TBool) \/
  (ValueType p = PreferenceValueTypeFloat /\ type_of v = TFloat64) ->
  IsValidValue p v = Returns None.
Proof.
  intros Hd Hty.
  assert (type_switch p v = None) as Hsw.
  { destruct Hty as [[Ht Hv] | [[Ht Hv] | [Ht Hv]]].
    - rewrite (type_switch_string _ _ Ht). destruct v; try discriminate; reflexivity.
    - rewrite (type_switch_boolean _ _ Ht). destruct v; try discriminate; reflexivity.
    - rewrite (type_switch_float _ _ Ht). destruct v; try discriminate; reflexivity. }
  rewrite IsValidValue_passed by exact Hsw. by apply allowed_check_off.
Qed.

Lemma no_check_beyond_type_witness :
  IsDescreteValues darkMode = false /\
  ValueType darkMode = PreferenceValueTypeBoolean /\ type_of (VBool false) = TBool /\
  IsValidValue darkMode (VBool false) = Returns None.
Proof.
  split; [reflexivity |]. split; [reflexivity |]. split; [reflexivity |].
  apply (no_check_beyond_type darkMode (VBool false)); [reflexivity |].
  right. left. split; reflexivity.
Defined.

(** C5 (as stated, refuted): [theme] has [IsDescreteValues] on and an
    allowed-values slice that is empty but not [nil]; the domain check is
    applied all the same, and it rejects a well-typed candidate. *)
Lemma empty_allowed_values_are_checked :
  IsDescreteValues theme = true /\
  elems_of (AllowedValues theme) = [] /\
  type_switch theme (VString "dark") = None /\
  IsValidValue theme (VString "dark") = Returns (Some (ErrorNotInAllowedValues theme)).
Proof. repeat split; reflexivity. Qed.

(** C5 (amended): for a candidate that passes the type switch, the
    domain check is applied exactly when [IsDescreteValues] is on and
    [AllowedValues] is not [nil].  The candidate is then compared with
    every allowed value by Go's [==]: it is accepted iff it is Go-equal
    to one of them; the comparison panics iff the candidate is a slice or
    a map and some allowed value has that same dynamic type, which no
    definition of one of the four known value types allows; in every
    other case it is rejected with the error that lists [AllowedValues].
    An allowed-values slice that is empty but not [nil] therefore rejects
    every candidate.  With [IsDescreteValues] off, or [AllowedValues]
    [nil], nothing is checked. *)
Theorem discrete_check_when_allowed_values_not_nil {arch : Platform} (p : Preference) (v : value) :
  type_switch p v = None ->
  (IsDescreteValues p = false -> IsValidValue p v = Returns None) /\
  (AllowedValues p = SliceNil -> IsValidValue p v = Returns None) /\
  (forall l, IsDescreteValues p = true -> AllowedValues p = SliceOf l ->
     (IsValidValue p v = Returns None <->
        exists a, a ∈ l /\ go_eq a v = Some true) /\
     (IsValidValue p v = Panics <->
        exists a, a ∈ l /\ type_of a = type_of v /\ comparable v = false) /\
     (IsValidValue p v = Returns (Some (ErrorNotInAllowedValues p)) <->
        ~ (exists a, a ∈ l /\ go_eq a v = Some true) /\
        ~ (exists a, a ∈ l /\ type_of a = type_of v /\ comparable v = false)) /\
     err_args (Err (ErrorNotInAllowedValues p)) = [ArgValues (SliceOf l)] /\
     (ValueType p = PreferenceValueTypeInteger \/ ValueType p = PreferenceValueTypeFloat \/
      ValueType p = PreferenceValueTypeString \/ ValueType p = PreferenceValueTypeBoolean ->
      ~ (exists a, a ∈ l /\ type_of a = type_of v /\ comparable v = false)) /\
     (l = [] -> IsValidValue p v = Returns (Some (ErrorNotInAllowedValues p)))).
Proof.
  intros Hsw. rewrite (IsValidValue_passed _ _ Hsw).
  split; [apply allowed_check_off |]. split.
  { intros Hnil. unfold allowed_check. rewrite Hnil. by destruct (IsDescreteValues p). }
  intros l Hd Hl.
  assert (allowed_check p v =
            match checkIfInAllowedValues v p with
            | Panics => Panics
            | Returns b =>
                if negb b then Returns (Some (ErrorNotInAllowedValues p)) else Returns None
            end) as ->.
  { unfold allowed_check. rewrite Hd, Hl. reflexivity. }
  assert ((exists a, a ∈ l /\ type_of a = type_of v /\ comparable v = false)
          <-> exists a, a ∈ l /\ go_eq a v = None) as Hclash.
  { split; intros (a & Ha & H); exists a; (split; [exact Ha |]); by apply go_eq_None. }
  assert ((exists a, a ∈ l /\ go_eq a v = Some true) ->
          ~ (exists a, a ∈ l /\ type_of a = type_of v /\ comparable v = false)) as Hexcl.
  { intros (a & _ & Ha) (a' & _ & _ & Hc).
    apply go_eq_true_comparable in Ha. congruence. }
  assert (err_args (Err (ErrorNotInAllowedValues p)) = [ArgValues (SliceOf l)]) as Hargs
    by (by cbn; rewrite Hl).
  assert (ValueType p = PreferenceValueTypeInteger \/ ValueType p = PreferenceValueTypeFloat \/
          ValueType p = PreferenceValueTypeString \/ ValueType p = PreferenceValueTypeBoolean ->
          ~ (exists a, a ∈ l /\ type_of a = type_of v /\ comparable v = false)) as Hknown.
  { intros Hty (a & _ & _ & Hc).
    pose proof (type_switch_comparable p v Hty Hsw). congruence. }
  assert (l = [] ->
          match checkIfInAllowedValues v p with
          | Panics => Panics
          | Returns b =>
              if negb b then Returns (Some (ErrorNotInAllowedValues p)) else Returns None
          end = Returns (Some (ErrorNotInAllowedValues p))) as Hempty.
  { intros ->. unfold checkIfInAllowedValues. rewrite Hl. reflexivity. }
  destruct (allowed_values_panic_dec v l) as [Hex | Hnp].
  - assert (checkIfInAllowedValues v p = Panics) as Hck.
    { unfold checkIfInAllowedValues. rewrite Hl. cbn [elems_of].
      by rewrite foldl_allowed_step_exists_panic. }
    rewrite Hck in Hempty |- *. apply Hclash in Hex.
    split; [| split; [| split; [| split; [| split]]]]; try assumption.
    + split; [discriminate |]. intros Hm. by destruct (Hexcl Hm).
    + split; [by intros _ | reflexivity].
    + split; [discriminate |]. intros [_ Hno]. by destruct Hno.
  - destruct (checkIfInAllowedValues_spec v p) as (b & Hck & Hb).
    { rewrite Hl. exact Hnp. }
    rewrite Hck in Hempty |- *. rewrite Hl in Hb. cbn [elems_of] in Hb.
    assert (~ (exists a, a ∈ l /\ type_of a = type_of v /\ comparable v = false)) as Hnc.
    { intros Hc. apply Hclash in Hc as (a & Ha & Hav). by apply (Hnp a Ha). }
    split; [| split; [| split; [| split; [| split]]]]; try assumption.
    + rewrite <- Hb. destruct b; cbn; split; congruence.
    + split; [destruct b; discriminate | intros Hc; by destruct Hnc].
    + rewrite <- Hb. destruct b; cbn.
      * split; [discriminate |]. intros [Hno _]. by destruct Hno.
      * split; [| reflexivity]. intros _. split; [discriminate | exact Hnc].
Qed.

Lemma discrete_check_when_allowed_values_not_nil_witness :
  type_switch density (VString "compact") = None /\
  IsDescreteValues density = true /\
  AllowedValues density = SliceOf [VString "compact"; VString "comfortable"] /\
  (exists a, a ∈ [VString "compact"; VString "comfortable"] /\
             go_eq a (VString "compact") = Some true) /\
  IsValidValue density (VString "compact") = Returns None.
Proof.
  assert (exists a, a ∈ [VString "compact"; VString "comfortable"] /\
                    go_eq a (VString "compact") = Some true) as Hex.
  { exists (VString "compact"). split; [by left | reflexivity]. }
  split; [reflexivity |]. split; [reflexivity |]. split; [reflexivity |].
  split; [exact Hex |].
  pose proof (discrete_check_when_allowed_values_not_nil density (VString "compact") eq_refl)
    as (_ & _ & H).
  destruct (H [VString "compact"; VString "comfortable"] eq_refl eq_refl) as (Hin & _).
  apply (proj2 Hin). exact Hex.
Defined.

(** The comparison of the candidate with an allowed value of its own
    slice type panics, and only a definition outside the four known value
    types lets such a candidate through the switch. *)
Example slice_candidate_panics :
  ValueType widgets = "json" /\
  type_switch widgets (VSlice [VString "cpu"]) = None /\
  IsValidValue widgets (VSlice [VString "cpu"]) = Panics.
Proof. repeat split; reflexivity. Qed.

(** ** Setters *)

Lemma UpdateOrgPreference_rejected {arch : Platform} reg db ctx preferenceId v orgId p e :
  preferenceMap reg !! preferenceId = Some p ->
  IsEnabledForScope p OrgAllowedScope = true ->
  IsValidValue p v = Returns (Some e) ->
  UpdateOrgPreference reg db ctx preferenceId v orgId = (Returns (Failed e), db).
Proof.
  intros Hp He Hv. unfold UpdateOrgPreference. rewrite Hp, He, Hv. reflexivity.
Qed.

Lemma UpdateUserPreference_rejected {arch : Platform} reg db ctx preferenceId v p e :
  preferenceMap reg !! preferenceId = Some p ->
  IsEnabledForScope p UserAllowedScope = true ->
  IsValidValue p v = Returns (Some e) ->
  UpdateUserPreference reg db ctx preferenceId v = (Returns (Failed e), db).
Proof.
  intros Hp He Hv. unfold UpdateUserPreference. rewrite Hp, He, Hv. reflexivity.
Qed.

(** A setter changes the store only when it returns its key/value pair,
    and then it has written what the column holds of the candidate as
    submitted. *)
Lemma UpdateOrgPreference_store {arch : Platform} reg db ctx preferenceId v orgId :
  let r := UpdateOrgPreference reg db ctx preferenceId v orgId in
  (exists column, db_bind db v = inr column /\
     fst r = Returns (Ok (mkKV preferenceId v)) /\
     snd r = with_org_table db (<[(preferenceId, orgId) := column]> (org_preference db)))
  \/ ((forall kv, fst r <> Returns (Ok kv)) /\ snd r = db).
Proof.
  unfold UpdateOrgPreference.
  destruct (preferenceMap reg !! preferenceId) as [p |]; [| right; by split].
  destruct (IsEnabledForScope p OrgAllowedScope); cbn [negb]; [| right; by split].
  destruct (IsValidValue p v) as [[e |] |]; [right; by split | | right; by split].
  destruct (db_fault db) eqn:Hf; [right; by split |].
  destruct (db_bind db v) as [e | column] eqn:Hb; [right; by split |].
  left. exists column. split; [reflexivity |]. split; [reflexivity |].
  cbn. unfold with_org_table, with_user_table, db_upsert. by rewrite Hf.
Qed.

Lemma UpdateUserPreference_store {arch : Platform} reg db ctx preferenceId v :
  let r := UpdateUserPreference reg db ctx preferenceId v in
  (exists column, db_bind db v = inr column /\
     fst r = Returns (Ok (mkKV preferenceId v)) /\
     snd r = with_user_table db
               (<[(preferenceId, UserId ctx) := column]> (user_preference db)))
  \/ ((forall kv, fst r <> Returns (Ok kv)) /\ snd r = db).
Proof.
  unfold UpdateUserPreference.
  destruct (preferenceMap reg !! preferenceId) as [p |]; [| right; by split].
  destruct (IsEnabledForScope p UserAllowedScope); cbn [negb]; [| right; by split].
  destruct (IsValidValue p v) as [[e |] |]; [right; by split | | right; by split].
  destruct (db_fault db) eqn:Hf; [right; by split |].
  destruct (db_bind db v) as [e | column] eqn:Hb; [right; by split |].
  left. exists column. split; [reflexivity |]. split; [reflexivity |].
  cbn. unfold with_org_table, with_user_table, db_upsert. by rewrite Hf.
Qed.

(** C7: when the scope of the request is not among the definition's
    [AllowedScopes], the setter of that scope fails with the Forbidden
    error and hands the store back unchanged. *)
Theorem update_outside_allowed_scopes {arch : Platform} (reg : Registry) (db : DB) (ctx : Context)
    (preferenceId : string) (v : value) (orgId : string) (p : Preference) :
  preferenceMap reg !! preferenceId = Some p ->
  (UserAllowedScope ∉ elems_of (AllowedScopes p) ->
     UpdateUserPreference reg db ctx preferenceId v
     = (Returns (Failed (ErrNotEnabledAtUser preferenceId)), db) /\
     Typ (ErrNotEnabledAtUser preferenceId) = ErrorForbidden) /\
  (OrgAllowedScope ∉ elems_of (AllowedScopes p) ->
     UpdateOrgPreference reg db ctx preferenceId v orgId
     = (Returns (Failed (ErrNotEnabledAtOrg preferenceId)), db) /\
     Typ (ErrNotEnabledAtOrg preferenceId) = ErrorForbidden).
Proof.
  intros Hp. split; intros Hs; (split; [| reflexivity]).
  - unfold UpdateUserPreference. rewrite Hp, (IsEnabledForScope_false _ _ Hs). reflexivity.
  - unfold UpdateOrgPreference. rewrite Hp, (IsEnabledForScope_false _ _ Hs). reflexivity.
Qed.

Lemma update_outside_allowed_scopes_witness :
  (preferenceMap sample_registry !! "MAX_ALERTS") = Some maxAlerts /\
  (UserAllowedScope ∉ elems_of (AllowedScopes maxAlerts)) /\
  UpdateUserPreference sample_registry sample_db sample_ctx "MAX_ALERTS" (VInt64 50)
  = (Returns (Failed (ErrNotEnabledAtUser "MAX_ALERTS")), sample_db).
Proof.
  assert (UserAllowedScope ∉ elems_of (AllowedScopes maxAlerts)) as Hs.
  { cbn. rewrite list_elem_of_singleton. discriminate. }
  split; [vm_compute; reflexivity |]. split; [exact Hs |].
  apply (proj1 (update_outside_allowed_scopes sample_registry sample_db sample_ctx
                  "MAX_ALERTS" (VInt64 50) "org-1" maxAlerts
                  ltac:(vm_compute; reflexivity))).
  exact Hs.
Defined.

Lemma IsValidValue_integer_range {arch : Platform} (p : Preference) (v : value) (z : Z) :
  ValueType p = PreferenceValueTypeInteger ->
  IsDescreteValues p = false ->
  integer_of_value v = Some z ->
  IsValidValue p v =
    if (z <? Min (PRange p)) || (z >? Max (PRange p))
    then Returns (Some (ErrorNotInRange p)) else Returns None.
Proof.
  intros Ht Hd Hz. unfold IsValidValue.
  rewrite (type_switch_integer _ _ Ht), Hz, Hd. cbn [negb].
  destruct ((z <? Min (PRange p)) || (z >? Max (PRange p))); [reflexivity |].
  by apply allowed_check_off.
Qed.

(** C4: for an integer-typed preference with [IsDescreteValues] off, a
    candidate standing for the integer [z] is accepted iff
    [Min <= z <= Max]; outside the range validation returns the range
    error, which carries [Min] and [Max], and both setters return that
    error (when their scope is enabled) and leave the store as it was. *)
Theorem integer_range_is_inclusive {arch : Platform} (p : Preference) (v : value) (z : Z) :
  ValueType p = PreferenceValueTypeInteger ->
  IsDescreteValues p = false ->
  integer_of_value v = Some z ->
  (IsValidValue p v = Returns None <-> Min (PRange p) <= z <= Max (PRange p)) /\
  (~ (Min (PRange p) <= z <= Max (PRange p)) ->
     IsValidValue p v = Returns (Some (ErrorNotInRange p)) /\
     err_args (Err (ErrorNotInRange p))
     = [ArgInt64 (Min (PRange p)); ArgInt64 (Max (PRange p))] /\
     forall reg db ctx preferenceId orgId,
       preferenceMap reg !! preferenceId = Some p ->
       (IsEnabledForScope p OrgAllowedScope = true ->
          fst (UpdateOrgPreference reg db ctx preferenceId v orgId)
          = Returns (Failed (ErrorNotInRange p))) /\
       (IsEnabledForScope p UserAllowedScope = true ->
          fst (UpdateUserPreference reg db ctx preferenceId v)
          = Returns (Failed (ErrorNotInRange p))) /\
       snd (UpdateOrgPreference reg db ctx preferenceId v orgId) = db /\
       snd (UpdateUserPreference reg db ctx preferenceId v) = db).
Proof.
  intros Ht Hd Hz. pose proof (IsValidValue_integer_range p v z Ht Hd Hz) as Hv.
  split.
  - rewrite Hv. destruct ((z <? Min (PRange p)) || (z >? Max (PRange p))) eqn:E.
    + split; [discriminate | lia].
    + split; [lia | reflexivity].
  - intros Hout.
    assert (IsValidValue p v = Returns (Some (ErrorNotInRange p))) as Hrej.
    { rewrite Hv. destruct ((z <? Min (PRange p)) || (z >? Max (PRange p))) eqn:E;
        [reflexivity | lia]. }
    split; [exact Hrej |]. split; [reflexivity |].
    intros reg db ctx preferenceId orgId Hp. repeat split.
    + intros He. by rewrite (UpdateOrgPreference_rejected _ _ _ _ _ _ _ _ Hp He Hrej).
    + intros He. by rewrite (UpdateUserPreference_rejected _ _ _ _ _ _ _ Hp He Hrej).
    + unfold UpdateOrgPreference. rewrite Hp, Hrej.
      by destruct (IsEnabledForScope p OrgAllowedScope).
    + unfold UpdateUserPreference. rewrite Hp, Hrej.
      by destruct (IsEnabledForScope p UserAllowedScope).
Qed.

Lemma integer_range_is_inclusive_witness :
  ValueType maxAlerts = PreferenceValueTypeInteger /\
  IsDescreteValues maxAlerts = false /\
  integer_of_value (VInt64 150) = Some 150 /\
  ~ (Min (PRange maxAlerts) <= 150 <= Max (PRange maxAlerts)) /\
  (preferenceMap sample_registry !! "MAX_ALERTS") = Some maxAlerts /\
  IsEnabledForScope maxAlerts OrgAllowedScope = true /\
  fst (UpdateOrgPreference sample_registry sample_db sample_ctx "MAX_ALERTS"
         (VInt64 150) "org-1")
  = Returns (Failed (ErrorNotInRange maxAlerts)) /\
  snd (UpdateOrgPreference sample_registry sample_db sample_ctx "MAX_ALERTS"
         (VInt64 150) "org-1") = sample_db.
Proof.
  assert (~ (Min (PRange maxAlerts) <= 150 <= Max (PRange maxAlerts))) as Hout
    by (cbn; lia).
  assert ((preferenceMap sample_registry !! "MAX_ALERTS") = Some maxAlerts) as Hp
    by (vm_compute; reflexivity).
  destruct (integer_range_is_inclusive maxAlerts (VInt64 150) 150 eq_refl eq_refl eq_refl)
    as [_ H].
  destruct (H Hout) as (_ & _ & Hset).
  destruct (Hset sample_registry sample_db sample_ctx "MAX_ALERTS" "org-1" Hp)
    as (Horg & _ & Hdb & _).
  split; [reflexivity |]. split; [reflexivity |]. split; [reflexivity |].
  split; [exact Hout |]. split; [exact Hp |]. split; [reflexivity |].
  split; [exact (Horg eq_refl) | exact Hdb].
Defined.

Lemma exact_int64_Some (f : float64) (z : Z) :
  exact_int64 f = Some z <->
  is_integral f = true /\ float_trunc f = Some z /\ int64_min <= z <= int64_max.
Proof.
  unfold exact_int64, in_int64. destruct (is_integral f).
  - destruct (float_trunc f) as [z' |].
    + destruct ((int64_min <=? z') && (z' <=? int64_max)) eqn:Hr.
      * split; [intros [= <-]; repeat split; lia | intros (_ & [= <-] & _); reflexivity].
      * split; [discriminate | intros (_ & [= <-] & ?); lia].
    + split; [discriminate | intros (_ & ? & _); discriminate].
  - split; [discriminate | intros (? & _); discriminate].
Qed.

Lemma go_eq_float_candidate (a : value) (f : float64) :
  go_eq a (VFloat64 f) = Some true <-> exists g, a = VFloat64 g /\ float64_eqb g f = true.
Proof.
  destruct a; cbn; split; try discriminate; try (intros (g & ? & _); discriminate).
  - intros [= H]. by eexists.
  - intros (g & [= <-] & H). by rewrite H.
Qed.

(** What the type check makes of the float [2^63] is the platform's:
    amd64 refuses it, a saturating conversion takes it for the largest
    [int64]. *)
Example float_2p63_by_platform :
  @integer_of_value amd64 (VFloat64 float_2p63) = None /\
  @integer_of_value saturating (VFloat64 float_2p63) = Some int64_max.
Proof. vm_compute. split; reflexivity. Qed.

(** C3 (as stated, refuted): (1) [float_2p64], the float 2^64, has no
    fractional part, yet the integer-typed [maxAlerts] refuses it as a
    type mismatch, on amd64 and with a saturating conversion alike;
    (2) the accepted float 4.0 is returned as that float, which is not
    Go-equal to the integer 4, and the row written reads back "4.0"
    where the integer 4 would read back "4"; (3) [batchSize], whose
    allowed values are the floats 4.0 and 8.0, accepts the float 4.0 and
    refuses the integer 4: the candidate is compared as submitted. *)
Lemma integral_float_is_not_stored_as_integer :
  (is_binary64 float_2p64 = true /\ is_integral float_2p64 = true /\
   IsValidValue maxAlerts (VFloat64 float_2p64)
   = Returns (Some (ErrorValueTypeMismatch maxAlerts)) /\
   @IsValidValue saturating maxAlerts (VFloat64 float_2p64)
   = Returns (Some (ErrorValueTypeMismatch maxAlerts))) /\
  (fst (UpdateOrgPreference sample_registry empty_db sample_ctx "MAX_ALERTS"
          (VFloat64 float_4) "org-1")
   = Returns (Ok (mkKV "MAX_ALERTS" (VFloat64 float_4))) /\
   go_eq (VFloat64 float_4) (VInt64 4) = Some false /\
   org_preference
     (snd (UpdateOrgPreference sample_registry empty_db sample_ctx "MAX_ALERTS"
             (VFloat64 float_4) "org-1")) !! ("MAX_ALERTS", "org-1")
   = Some (VString "4.0") /\
   db_bind empty_db (VInt64 4) = inr (VString "4")) /\
  (IsValidValue batchSize (VFloat64 float_4) = Returns None /\
   IsValidValue batchSize (VInt64 4)
   = Returns (Some (ErrorNotInAllowedValues batchSize))).
Proof. vm_compute. repeat split; reflexivity. Qed.

(** C3 (amended): for an integer-typed preference, a float candidate
    that has no fractional part and fits [int64] passes the type check
    as the integer it denotes, and every other float fails it with the
    type-mismatch error, save the float 2^63, whose conversion Go leaves
    to the platform.  That integer is what the range check tests.  The
    allowed-values check accepts the candidate exactly when some allowed
    value is a [float64] numerically equal to it, and a successful setter
    returns the candidate as submitted and binds that same candidate to
    the store.  A candidate that is neither an [int64] nor a [float64]
    fails with the type-mismatch error, which names the expected type. *)
Theorem integer_accepts_exact_floats {arch : Platform} (p : Preference) :
  ValueType p = PreferenceValueTypeInteger ->
  (forall f, is_binary64 f = true ->
     (forall z,
        is_integral f = true -> float_trunc f = Some z -> int64_min <= z <= int64_max ->
        integer_of_value (VFloat64 f) = Some z /\
        (IsDescreteValues p = false ->
           (IsValidValue p (VFloat64 f) = Returns None <->
              Min (PRange p) <= z <= Max (PRange p))) /\
        (IsDescreteValues p = true -> AllowedValues p = SliceNil ->
           IsValidValue p (VFloat64 f) = Returns None) /\
        (forall l, IsDescreteValues p = true -> AllowedValues p = SliceOf l ->
           (IsValidValue p (VFloat64 f) = Returns None <->
              exists g, VFloat64 g ∈ l /\ float64_eqb g f = true) /\
           (~ (exists g, VFloat64 g ∈ l /\ float64_eqb g f = true) ->
              IsValidValue p (VFloat64 f)
              = Returns (Some (ErrorNotInAllowedValues p))))) /\
     (~ (is_integral f = true /\
         exists z, float_trunc f = Some z /\ int64_min <= z <= int64_max) ->
      float64_eqb f float_2p63 = false ->
      IsValidValue p (VFloat64 f) = Returns (Some (ErrorValueTypeMismatch p)))) /\
  (forall v, type_of v <> TInt64 -> type_of v <> TFloat64 ->
     IsValidValue p v = Returns (Some (ErrorValueTypeMismatch p)) /\
     err_args (Err (ErrorValueTypeMismatch p)) = [ArgString (ValueType p)]) /\
  (forall reg db ctx preferenceId v orgId kv db',
     UpdateOrgPreference reg db ctx preferenceId v orgId = (Returns (Ok kv), db') ->
     kv = mkKV preferenceId v /\
     exists column, db_bind db v = inr column /\
       org_preference db' !! (preferenceId, orgId) = Some column) /\
  (forall reg db ctx preferenceId v kv db',
     UpdateUserPreference reg db ctx preferenceId v = (Returns (Ok kv), db') ->
     kv = mkKV preferenceId v /\
     exists column, db_bind db v = inr column /\
       user_preference db' !! (preferenceId, UserId ctx) = Some column).
Proof.
  intros Ht. split; [| split; [| split]].
  - intros f Hf. split.
    + intros z Hi Htr Hr.
      assert (integer_of_value (VFloat64 f) = Some z) as Hc.
      { rewrite (integer_of_float64_in_range f z Hf Htr), Hi; [reflexivity |].
        unfold in_int64. lia. }
      assert (type_switch p (VFloat64 f) =
                if negb (IsDescreteValues p) then
                  if (z <? Min (PRange p)) || (z >? Max (PRange p))
                  then Some (ErrorNotInRange p) else None
                else None) as Hsw
        by (by rewrite (type_switch_integer _ _ Ht), Hc).
      split; [exact Hc |]. split; [| split].
      * intros Hd. rewrite (IsValidValue_integer_range p (VFloat64 f) z Ht Hd Hc).
        destruct ((z <? Min (PRange p)) || (z >? Max (PRange p))) eqn:E.
        -- split; [discriminate | lia].
        -- split; [lia | reflexivity].
      * intros Hd Hnil. rewrite Hd in Hsw. rewrite (IsValidValue_passed _ _ Hsw).
        unfold allowed_check. by rewrite Hd, Hnil.
      * intros l Hd Hl. rewrite Hd in Hsw. rewrite (IsValidValue_passed _ _ Hsw).
        unfold allowed_check. rewrite Hd, Hl. cbn [is_nil negb].
        destruct (checkIfInAllowedValues_spec (VFloat64 f) p) as (b & -> & Hb).
        { intros a _. by apply go_eq_comparable. }
        rewrite Hl in Hb. cbn [elems_of] in Hb.
        assert (b = true <-> exists g, VFloat64 g ∈ l /\ float64_eqb g f = true) as Hb'.
        { rewrite Hb. split.
          - intros (a & Ha & Hav). apply go_eq_float_candidate in Hav as (g & -> & Hg).
            by exists g.
          - intros (g & Hg & Hgf). exists (VFloat64 g). split; [exact Hg |].
            apply go_eq_float_candidate. by exists g. }
        split.
        -- rewrite <- Hb'. destruct b; cbn; split; congruence.
        -- intros Hno. destruct b; [| reflexivity]. exfalso. by apply Hno, Hb'.
    + intros Hno H63. apply IsValidValue_rejected.
      rewrite (type_switch_integer _ _ Ht).
      destruct (float_trunc f) as [z |] eqn:Htr.
      * destruct (in_int64 z) eqn:Hin.
        -- rewrite (integer_of_float64_in_range f z Hf Htr Hin).
           destruct (is_integral f) eqn:Hi; [| reflexivity].
           exfalso. apply Hno. split; [reflexivity |]. exists z.
           split; [reflexivity |]. unfold in_int64 in Hin. lia.
        -- rewrite integer_of_float64_overflow; [reflexivity | exact Hf | | exact H63].
           intros z' Hz'. rewrite Htr in Hz'. by injection Hz' as <-.
      * rewrite integer_of_float64_overflow; [reflexivity | exact Hf | | exact H63].
        intros z' Hz'. rewrite Htr in Hz'. discriminate.
  - intros v Hi Hf. split; [| reflexivity]. apply IsValidValue_rejected.
    rewrite (type_switch_integer _ _ Ht). destruct v; try reflexivity; contradiction.
  - intros reg db ctx preferenceId v orgId kv db' Hu.
    destruct (UpdateOrgPreference_store reg db ctx preferenceId v orgId)
      as [(column & Hb & Hr & Hs) | [Hr _]]; rewrite Hu in Hr; cbn in Hr.
    + rewrite Hu in Hs. cbn in Hs. subst db'. split; [congruence |].
      exists column. split; [exact Hb |]. cbn. apply lookup_insert_eq.
    + by destruct (Hr kv).
  - intros reg db ctx preferenceId v kv db' Hu.
    destruct (UpdateUserPreference_store reg db ctx preferenceId v)
      as [(column & Hb & Hr & Hs) | [Hr _]]; rewrite Hu in Hr; cbn in Hr.
    + rewrite Hu in Hs. cbn in Hs. subst db'. split; [congruence |].
      exists column. split; [exact Hb |]. cbn. apply lookup_insert_eq.
    + by destruct (Hr kv).
Qed.

Lemma integer_accepts_exact_floats_witness :
  ValueType maxAlerts = PreferenceValueTypeInteger /\
  is_binary64 float_4 = true /\
  is_integral float_4 = true /\ float_trunc float_4 = Some 4 /\
  int64_min <= 4 <= int64_max /\
  IsDescreteValues maxAlerts = false /\
  Min (PRange maxAlerts) <= 4 <= Max (PRange maxAlerts) /\
  IsValidValue maxAlerts (VFloat64 float_4) = Returns None.
Proof.
  assert (Min (PRange maxAlerts) <= 4 <= Max (PRange maxAlerts)) as Hr by (cbn; lia).
  assert (int64_min <= 4 <= int64_max) as Hb by (unfold int64_min, int64_max; lia).
  destruct (integer_accepts_exact_floats maxAlerts eq_refl) as (Hfloat & _).
  destruct (Hfloat float_4 eq_refl) as (Hz & _).
  destruct (Hz 4 eq_refl eq_refl Hb) as (_ & Hrange & _).
  split; [reflexivity |]. split; [reflexivity |]. split; [reflexivity |].
  split; [reflexivity |]. split; [exact Hb |]. split; [reflexivity |].
  split; [exact Hr |].
  apply (proj2 (Hrange eq_refl)). exact Hr.
Defined.

(** ** Getters *)

Lemma GetOrgPreference_value reg db ctx preferenceId orgId p :
  preferenceMap reg !! preferenceId = Some p ->
  IsEnabledForScope p OrgAllowedScope = true ->
  db_fault db = None ->
  GetOrgPreference reg db ctx preferenceId orgId =
    Ok (mkKV preferenceId
          match org_preference db !! (preferenceId, orgId) with
          | Some o => SanitizeValue p o
          | None => DefaultValue p
          end).
Proof.
  intros Hp He Hf. unfold GetOrgPreference, db_get. rewrite Hp, He, Hf. cbn [negb].
  by destruct (org_preference db !! (preferenceId, orgId)).
Qed.

Lemma GetUserPreference_value reg db ctx preferenceId orgId p :
  preferenceMap reg !! preferenceId = Some p ->
  IsEnabledForScope p UserAllowedScope = true ->
  db_fault db = None ->
  GetUserPreference reg db ctx preferenceId orgId =
    Ok (mkKV preferenceId
          (SanitizeValue p
             (precedence p
                (if IsEnabledForScope p OrgAllowedScope
                 then org_preference db !! (preferenceId, orgId) else None)
                (user_preference db !! (preferenceId, UserId ctx))))).
Proof.
  intros Hp He Hf. unfold GetUserPreference, db_get, precedence.
  rewrite Hp, He, Hf. cbn [negb].
  destruct (IsEnabledForScope p OrgAllowedScope);
    [destruct (org_preference db !! (preferenceId, orgId)) |];
    by destruct (user_preference db !! (preferenceId, UserId ctx)).
Qed.

Lemma GetUserPreference_forbidden reg db ctx preferenceId orgId p :
  preferenceMap reg !! preferenceId = Some p ->
  IsEnabledForScope p UserAllowedScope = false ->
  GetUserPreference reg db ctx preferenceId orgId
  = Failed (ErrNotEnabledAtUser preferenceId).
Proof. intros Hp He. unfold GetUserPreference. rewrite Hp, He. reflexivity. Qed.

Lemma GetOrgPreference_forbidden reg db ctx preferenceId orgId p :
  preferenceMap reg !! preferenceId = Some p ->
  IsEnabledForScope p OrgAllowedScope = false ->
  GetOrgPreference reg db ctx preferenceId orgId
  = Failed (ErrNotEnabledAtOrg preferenceId).
Proof. intros Hp He. unfold GetOrgPreference. rewrite Hp, He. reflexivity. Qed.

(** C1: for a definition enabled at both scopes and a store that
    answers, [GetUserPreference] returns the sanitised value of the
    user row if there is one, else of the org row if there is one, else
    of the default. *)
Theorem GetUserPreference_precedence (reg : Registry) (db : DB) (ctx : Context)
    (preferenceId orgId : string) (p : Preference) :
  preferenceMap reg !! preferenceId = Some p ->
  UserAllowedScope ∈ elems_of (AllowedScopes p) ->
  OrgAllowedScope ∈ elems_of (AllowedScopes p) ->
  db_fault db = None ->
  GetUserPreference reg db ctx preferenceId orgId =
    Ok (mkKV preferenceId
          (SanitizeValue p
             match user_preference db !! (preferenceId, UserId ctx) with
             | Some userValue => userValue
             | None =>
                 match org_preference db !! (preferenceId, orgId) with
                 | Some orgValue => orgValue
                 | None => DefaultValue p
                 end
             end)).
Proof.
  intros Hp Hu Ho Hf.
  apply IsEnabledForScope_spec in Hu, Ho.
  rewrite (GetUserPreference_value _ _ _ _ _ _ Hp Hu Hf), Ho. reflexivity.
Qed.

Lemma GetUserPreference_precedence_witness :
  (preferenceMap sample_registry !! "DARK_MODE") = Some darkMode /\
  (UserAllowedScope ∈ elems_of (AllowedScopes darkMode)) /\
  (OrgAllowedScope ∈ elems_of (AllowedScopes darkMode)) /\
  db_fault sample_db = None /\
  (org_preference sample_db !! ("DARK_MODE", "org-1")) = Some (VString "0") /\
  (user_preference sample_db !! ("DARK_MODE", "user-1")) = Some (VString "1") /\
  GetUserPreference sample_registry sample_db sample_ctx "DARK_MODE" "org-1"
  = Ok (mkKV "DARK_MODE" (VBool true)).
Proof.
  assert (UserAllowedScope ∈ elems_of (AllowedScopes darkMode)) as Hu
    by (apply IsEnabledForScope_spec; reflexivity).
  assert (OrgAllowedScope ∈ elems_of (AllowedScopes darkMode)) as Ho
    by (apply IsEnabledForScope_spec; reflexivity).
  split; [vm_compute; reflexivity |]. split; [exact Hu |]. split; [exact Ho |].
  split; [reflexivity |].
  split; [vm_compute; reflexivity |]. split; [vm_compute; reflexivity |].
  rewrite (GetUserPreference_precedence sample_registry sample_db sample_ctx
             "DARK_MODE" "org-1" darkMode ltac:(vm_compute; reflexivity) Hu Ho eq_refl).
  vm_compute. reflexivity.
Defined.

(** With no row, the org getter hands back the default as it is. *)
Lemma GetOrgPreference_no_row reg db ctx preferenceId orgId p :
  preferenceMap reg !! preferenceId = Some p ->
  IsEnabledForScope p OrgAllowedScope = true ->
  db_fault db = None ->
  org_preference db !! (preferenceId, orgId) = None ->
  GetOrgPreference reg db ctx preferenceId orgId
  = Ok (mkKV preferenceId (DefaultValue p)).
Proof.
  intros Hp He Hf Hn. by rewrite (GetOrgPreference_value _ _ _ _ _ _ Hp He Hf), Hn.
Qed.

(** With no row at either scope, the user getter hands back the
    sanitised default, which is the default itself unless the preference
    is boolean-typed with a default other than [false]. *)
Lemma GetUserPreference_no_rows reg db ctx preferenceId orgId p :
  preferenceMap reg !! preferenceId = Some p ->
  IsEnabledForScope p UserAllowedScope = true ->
  db_fault db = None ->
  org_preference db !! (preferenceId, orgId) = None ->
  user_preference db !! (preferenceId, UserId ctx) = None ->
  GetUserPreference reg db ctx preferenceId orgId
  = Ok (mkKV preferenceId (SanitizeValue p (DefaultValue p))) /\
  (ValueType p <> PreferenceValueTypeBoolean \/ DefaultValue p = VBool false ->
   SanitizeValue p (DefaultValue p) = DefaultValue p).
Proof.
  intros Hp He Hf Ho Hu. split.
  - rewrite (GetUserPreference_value _ _ _ _ _ _ Hp He Hf), Ho, Hu.
    by destruct (IsEnabledForScope p OrgAllowedScope).
  - intros [Hnb | Hd]; [by apply SanitizeValue_other |].
    unfold SanitizeValue. rewrite Hd. cbn.
    by destruct (String.eqb (ValueType p) PreferenceValueTypeBoolean).
Qed.

Example sample_registry_loaded :
  InitDB [maxAlerts; retryCount; darkMode; theme; layout] = inr sample_registry.
Proof. vm_compute. reflexivity. Qed.

(** C2 (the code departs from it): [darkMode] is boolean-typed with
    default [true]; on an empty store the org getter returns that
    default, but the user getter returns [false]. *)
Theorem user_getter_loses_true_default :
  preferenceMap sample_registry !! "DARK_MODE" = Some darkMode /\
  DefaultValue darkMode = VBool true /\
  org_preference empty_db = ∅ /\ user_preference empty_db = ∅ /\
  GetOrgPreference sample_registry empty_db sample_ctx "DARK_MODE" "org-1"
  = Ok (mkKV "DARK_MODE" (VBool true)) /\
  GetUserPreference sample_registry empty_db sample_ctx "DARK_MODE" "org-1"
  = Ok (mkKV "DARK_MODE" (VBool false)).
Proof. vm_compute. repeat split; reflexivity. Qed.

(** The range example: no row gives the default, 150 is out of range,
    50 is acknowledged as submitted and reads back from the text column
    as the string "50". *)
Example max_alerts_scenario :
  GetOrgPreference sample_registry empty_db sample_ctx "MAX_ALERTS" "org-1"
  = Ok (mkKV "MAX_ALERTS" (DefaultValue maxAlerts)) /\
  fst (UpdateOrgPreference sample_registry empty_db sample_ctx "MAX_ALERTS"
         (VInt64 150) "org-1")
  = Returns (Failed (ErrorNotInRange maxAlerts)) /\
  (let '(r, db) := UpdateOrgPreference sample_registry empty_db sample_ctx
                     "MAX_ALERTS" (VInt64 50) "org-1" in
   r = Returns (Ok (mkKV "MAX_ALERTS" (VInt64 50))) /\
   GetOrgPreference sample_registry db sample_ctx "MAX_ALERTS" "org-1"
   = Ok (mkKV "MAX_ALERTS" (VString "50"))).
Proof. vm_compute. repeat split; reflexivity. Qed.

(** ** Registry and bulk listings *)

Lemma fill_preferenceMap_keeps prefs (m m' : gmap string Preference) k x :
  fill_preferenceMap prefs m = inr m' -> m !! k = Some x -> m' !! k = Some x.
Proof.
  revert m. induction prefs as [| q rest IH]; intros m Hfill Hk; cbn in Hfill.
  - congruence.
  - destruct (m !! Key q) eqn:Hq; [discriminate |].
    apply (IH _ Hfill). rewrite lookup_insert_ne; [exact Hk | congruence].
Qed.

(** A registry that loaded maps every listed definition's key to that
    definition. *)
Lemma InitDB_lookup (decoded : list Preference) (reg : Registry) (p : Preference) :
  InitDB decoded = inr reg -> p ∈ preferences reg ->
  preferenceMap reg !! Key p = Some p.
Proof.
  unfold InitDB. destruct (fill_preferenceMap decoded ∅) as [e | m] eqn:Hfill;
    [discriminate |].
  intros [= <-]. cbn. clear -Hfill. revert Hfill. generalize (∅ : gmap string Preference).
  induction decoded as [| q rest IH]; intros m0 Hfill Hin; [inversion Hin |].
  cbn in Hfill. destruct (m0 !! Key q) eqn:Hq; [discriminate |].
  apply elem_of_cons in Hin as [-> | Hin].
  - apply (fill_preferenceMap_keeps _ _ _ _ _ Hfill). apply lookup_insert_eq.
  - by apply (IH _ Hfill).
Qed.

Lemma elem_of_db_select (table : gmap (string * string) value) (owner : string)
    (rows : list PreferenceKV) (kv : PreferenceKV) :
  db_select None table owner = inr rows ->
  kv ∈ rows <-> table !! (PreferenceId kv, owner) = Some (PreferenceValue kv).
Proof.
  intros [= <-]. rewrite list_elem_of_omap. split.
  - intros ([[k o] v] & Hin & Hf). apply elem_of_map_to_list in Hin.
    destruct (String.eqb_spec o owner) as [-> | _]; [| discriminate].
    by injection Hf as <-.
  - intros Hl. exists ((PreferenceId kv, owner), PreferenceValue kv). split.
    + by apply elem_of_map_to_list.
    + rewrite String.eqb_refl. by destruct kv.
Qed.

Lemma db_select_NoDup (table : gmap (string * string) value) (owner : string)
    (rows : list PreferenceKV) :
  db_select None table owner = inr rows -> NoDup (PreferenceId <$> rows).
Proof.
  intros Hsel. pose proof (elem_of_db_select table owner rows) as Hin.
  injection Hsel as <-.
  pose proof (NoDup_fst_map_to_list table) as Hnd.
  set (f := fun '((preferenceId, o, v) : string * string * value) =>
              if String.eqb o owner then Some (mkKV preferenceId v) else None) in *.
  assert (forall l kv, kv ∈ omap f l -> (PreferenceId kv, owner) ∈ l.*1) as Hsub.
  { intros l kv. rewrite list_elem_of_omap. intros ([[k o] v] & Hl & Hf). cbn in Hf.
    destruct (String.eqb_spec o owner) as [-> | _]; [| discriminate].
    injection Hf as <-. cbn. apply list_elem_of_fmap. by exists ((k, owner), v). }
  clear Hin. induction (map_to_list table) as [| [[k o] v] l IH]; [constructor |].
  cbn in Hnd. apply NoDup_cons in Hnd as [Hfresh Hnd].
  assert (omap f ((k, o, v) :: l)
          = if String.eqb o owner then mkKV k v :: omap f l else omap f l) as ->.
  { cbn. by destruct (String.eqb o owner). }
  destruct (String.eqb_spec o owner) as [-> | _]; [| by apply IH].
  cbn [fmap list_fmap]. apply NoDup_cons. split; [| by apply IH].
  intros Hk. apply list_elem_of_fmap in Hk as (kv & Hid & Hkv).
  apply Hfresh. apply Hsub in Hkv. cbn in Hid. by rewrite Hid.
Qed.

Lemma value_map_foldl (rows : list PreferenceKV) (m : gmap string value)
    (k : string) (v : value) :
  NoDup (PreferenceId <$> rows) ->
  (foldl (fun m kv => <[PreferenceId kv := PreferenceValue kv]> m) m rows !! k) = Some v
  <-> mkKV k v ∈ rows \/ ((k ∉ PreferenceId <$> rows) /\ m !! k = Some v).
Proof.
  revert m. induction rows as [| [i x] rows IH]; intros m Hnd.
  - cbn. split; [intros H; right; split; [by intros H' %elem_of_nil | exact H] |].
    intros [H %elem_of_nil | [_ H]]; [contradiction | exact H].
  - cbn in Hnd. apply NoDup_cons in Hnd as [Hfresh Hnd].
    cbn [foldl PreferenceId PreferenceValue]. rewrite (IH _ Hnd). cbn [fmap list_fmap].
    rewrite elem_of_cons, not_elem_of_cons. cbn [PreferenceId].
    assert (forall y, mkKV i y ∉ rows) as Hfresh'.
    { intros y Hy. apply Hfresh. apply list_elem_of_fmap. by exists (mkKV i y). }
    destruct (decide (k = i)) as [-> | Hne].
    + rewrite lookup_insert_eq. split.
      * intros [Hin | [_ [= <-]]]; [by destruct (Hfresh' v) | by left; left].
      * intros [[[= <-] | Hin] | [[Hc _] _]];
          [right; by split | by destruct (Hfresh' v) | by destruct Hc].
    + rewrite lookup_insert_ne by congruence. split.
      * intros [Hin | [Hk Hm]]; [left; by right | right; by repeat split].
      * intros [[[= -> _] | Hin] | [[_ Hk] Hm]];
          [by destruct Hne | by left | right; by split].
Qed.

(** The map a listing builds from the fetched rows reads the table at
    the owner's keys. *)
Lemma value_map_select (table : gmap (string * string) value) (owner : string)
    (rows : list PreferenceKV) (k : string) :
  db_select None table owner = inr rows ->
  value_map rows !! k = table !! (k, owner).
Proof.
  intros Hsel. apply option_eq. intros v. unfold value_map.
  rewrite (value_map_foldl rows ∅ k v (db_select_NoDup _ _ _ Hsel)).
  rewrite (elem_of_db_select _ _ _ (mkKV k v) Hsel). cbn.
  rewrite lookup_empty. split; [intros [H | [_ H]]; [exact H | discriminate] | by left].
Qed.

Lemma foldl_org_list_step (db : DB) (orgId : string) (m : gmap string value)
    (acc : list View.AllPreferences) (prefs : list Preference) :
  (forall k, m !! k = org_preference db !! (k, orgId)) ->
  foldl (org_list_step m) acc prefs = (acc ++ omap (org_row db orgId) prefs)%list.
Proof.
  intros Hm. revert acc. induction prefs as [| p prefs IH]; intros acc.
  - cbn. by rewrite app_nil_r.
  - cbn [foldl]. rewrite IH. unfold org_list_step.
    change (omap (org_row db orgId) (p :: prefs))
      with (match org_row db orgId p with
            | Some r => r :: omap (org_row db orgId) prefs
            | None => omap (org_row db orgId) prefs
            end).
    unfold org_row at 2. rewrite Hm.
    destruct (IsEnabledForScope p OrgAllowedScope); [| reflexivity].
    rewrite <- app_assoc.
    by destruct (org_preference db !! (Key p, orgId)).
Qed.

Lemma foldl_user_list_step (db : DB) (ctx : Context) (orgId : string)
    (mo mu : gmap string value)
    (acc : list View.AllPreferences) (prefs : list Preference) :
  (forall k, mo !! k = org_preference db !! (k, orgId)) ->
  (forall k, mu !! k = user_preference db !! (k, UserId ctx)) ->
  foldl (user_list_step mo mu) acc prefs
  = (acc ++ omap (user_row db ctx orgId) prefs)%list.
Proof.
  intros Hmo Hmu. revert acc. induction prefs as [| p prefs IH]; intros acc.
  - cbn. by rewrite app_nil_r.
  - cbn [foldl]. rewrite IH. unfold user_list_step.
    change (omap (user_row db ctx orgId) (p :: prefs))
      with (match user_row db ctx orgId p with
            | Some r => r :: omap (user_row db ctx orgId) prefs
            | None => omap (user_row db ctx orgId) prefs
            end).
    unfold user_row at 2, precedence. rewrite Hmo, Hmu. cbv zeta.
    destruct (IsEnabledForScope p UserAllowedScope); [| reflexivity].
    rewrite <- app_assoc.
    destruct (user_preference db !! (Key p, UserId ctx)); [reflexivity |].
    destruct (IsEnabledForScope p OrgAllowedScope); [| reflexivity].
    by destruct (org_preference db !! (Key p, orgId)).
Qed.

(** The org listing: one row per definition enabled at org scope, in the
    order of [preferences], none for the others. *)
Lemma GetAllOrgPreferences_rows (reg : Registry) (db : DB) (ctx : Context)
    (orgId : string) :
  db_fault db = None ->
  GetAllOrgPreferences reg db ctx orgId
  = Ok (omap (org_row db orgId) (preferences reg)).
Proof.
  intros Hf. unfold GetAllOrgPreferences. rewrite Hf.
  destruct (db_select None (org_preference db) orgId) as [e | rows] eqn:Hsel;
    [discriminate |].
  rewrite (foldl_org_list_step db orgId); [reflexivity |].
  intros k. by apply value_map_select.
Qed.

(** The user listing, likewise. *)
Lemma GetAllUserPreferences_rows (reg : Registry) (db : DB) (ctx : Context)
    (orgId : string) :
  db_fault db = None ->
  GetAllUserPreferences reg db ctx orgId
  = Ok (omap (user_row db ctx orgId) (preferences reg)).
Proof.
  intros Hf. unfold GetAllUserPreferences. rewrite Hf.
  destruct (db_select None (org_preference db) orgId) as [e | orows] eqn:Hosel;
    [discriminate |].
  destruct (db_select None (user_preference db) (UserId ctx)) as [e | urows] eqn:Husel;
    [discriminate |].
  rewrite (foldl_user_list_step db ctx orgId); [reflexivity | |];
    intros k; by apply value_map_select.
Qed.

(** Each row of the user listing carries the value the user getter
    returns for that key, and a definition has a row exactly when the
    getter succeeds. *)
Lemma user_row_matches_getter (decoded : list Preference) (reg : Registry) (db : DB)
    (ctx : Context) (orgId : string) (p : Preference) :
  InitDB decoded = inr reg -> db_fault db = None -> p ∈ preferences reg ->
  user_row db ctx orgId p =
    match GetUserPreference reg db ctx (Key p) orgId with
    | Ok kv => Some (view_of p (PreferenceValue kv))
    | Failed _ => None
    end.
Proof.
  intros Hinit Hf Hin. pose proof (InitDB_lookup _ _ _ Hinit Hin) as Hp.
  unfold user_row. destruct (IsEnabledForScope p UserAllowedScope) eqn:He.
  - by rewrite (GetUserPreference_value _ _ _ _ _ _ Hp He Hf).
  - by rewrite (GetUserPreference_forbidden _ _ _ _ _ _ Hp He).
Qed.

(** Each row of the org listing carries the value the org getter
    returns when the org has a row for the key; without one the listing
    carries the sanitised default where the getter returns the default
    itself. *)
Lemma org_row_matches_getter (decoded : list Preference) (reg : Registry) (db : DB)
    (ctx : Context) (orgId : string) (p : Preference) :
  InitDB decoded = inr reg -> db_fault db = None -> p ∈ preferences reg ->
  org_row db orgId p =
    match GetOrgPreference reg db ctx (Key p) orgId with
    | Ok kv =>
        Some (view_of p
                match org_preference db !! (Key p, orgId) with
                | Some _ => PreferenceValue kv
                | None => SanitizeValue p (PreferenceValue kv)
                end)
    | Failed _ => None
    end.
Proof.
  intros Hinit Hf Hin. pose proof (InitDB_lookup _ _ _ Hinit Hin) as Hp.
  unfold org_row. destruct (IsEnabledForScope p OrgAllowedScope) eqn:He.
  - rewrite (GetOrgPreference_value _ _ _ _ _ _ Hp He Hf).
    by destruct (org_preference db !! (Key p, orgId)).
  - by rewrite (GetOrgPreference_forbidden _ _ _ _ _ _ Hp He).
Qed.

(** C8 (the code departs from it): on an empty store the org listing of
    the sample registry has one row for each of the four definitions
    enabled at org scope and none for [theme]; its row for [darkMode]
    carries [false], while [GetOrgPreference] returns [true] for the same
    key and store. *)
Theorem org_listing_differs_from_getter :
  InitDB [maxAlerts; retryCount; darkMode; theme; layout] = inr sample_registry /\
  (View.Key <$> default [] (match GetAllOrgPreferences sample_registry empty_db
                                    sample_ctx "org-1" with
                            | Ok rows => Some rows
                            | Failed _ => None
                            end))
  = ["MAX_ALERTS"; "RETRY_COUNT"; "DARK_MODE"; "LAYOUT"] /\
  (exists rows,
     GetAllOrgPreferences sample_registry empty_db sample_ctx "org-1" = Ok rows /\
     view_of darkMode (VBool false) ∈ rows) /\
  GetOrgPreference sample_registry empty_db sample_ctx "DARK_MODE" "org-1"
  = Ok (mkKV "DARK_MODE" (VBool true)).
Proof.
  split; [vm_compute; reflexivity |]. split; [vm_compute; reflexivity |].
  split; [| vm_compute; reflexivity].
  eexists. split; [vm_compute; reflexivity |].
  do 2 apply list_elem_of_further. apply list_elem_of_here.
Qed.

(** * Further properties of the package *)

(** ** Loading the registry *)

Lemma fill_preferenceMap_inr (prefs : list Preference) (m m' : gmap string Preference) :
  fill_preferenceMap prefs m = inr m' ->
  NoDup (Key <$> prefs) /\
  (forall p, p ∈ prefs -> m !! Key p = None) /\
  (forall k x, m' !! k = Some x <-> (x ∈ prefs /\ Key x = k) \/ m !! k = Some x).
Proof.
  revert m. induction prefs as [| q rest IH]; intros m Hfill; cbn in Hfill.
  - injection Hfill as <-. split; [constructor |]. split.
    + intros p Hp. inversion Hp.
    + intros k x. split; [by right |]. intros [[Hx _] | H]; [inversion Hx | exact H].
  - destruct (m !! Key q) eqn:Hq; [discriminate |].
    destruct (IH _ Hfill) as (Hnd & Hfree & Hlook).
    assert (forall p, p ∈ rest -> Key p <> Key q /\ m !! Key p = None) as Hrest.
    { intros p Hp. specialize (Hfree p Hp).
      destruct (decide (Key q = Key p)) as [E | E].
      - rewrite E, lookup_insert_eq in Hfree. discriminate.
      - rewrite lookup_insert_ne in Hfree by exact E. split; [congruence | exact Hfree]. }
    split; [| split].
    + cbn. apply NoDup_cons. split; [| exact Hnd].
      intros Hin. apply list_elem_of_fmap in Hin as (p & Hk & Hp).
      destruct (Hrest p Hp) as [Hne _]. congruence.
    + intros p Hp. apply elem_of_cons in Hp as [-> | Hp]; [exact Hq |].
      by destruct (Hrest p Hp).
    + intros k x. rewrite Hlook, elem_of_cons.
      destruct (decide (Key q = k)) as [<- | Hne].
      * rewrite lookup_insert_eq, Hq. split.
        -- intros [[Hx Hk] | [= <-]]; left; [by split; [right |] | by split; [left |]].
        -- intros [[[-> | Hx] Hk] | H]; [by right | left; by split | discriminate].
      * rewrite lookup_insert_ne by exact Hne. split.
        -- intros [[Hx Hk] | H]; [left; by split; [right |] | by right].
        -- intros [[[-> | Hx] Hk] | H]; [by destruct Hne | left; by split | by right].
Qed.

Lemma fill_preferenceMap_total (prefs : list Preference) (m : gmap string Preference) :
  NoDup (Key <$> prefs) -> (forall p, p ∈ prefs -> m !! Key p = None) ->
  exists m', fill_preferenceMap prefs m = inr m'.
Proof.
  revert m. induction prefs as [| q rest IH]; intros m Hnd Hfree; cbn.
  - by exists m.
  - cbn in Hnd. apply NoDup_cons in Hnd as [Hq Hnd].
    rewrite (Hfree q) by (by left). apply IH; [exact Hnd |].
    intros p Hp. rewrite lookup_insert_ne.
    + apply Hfree. by right.
    + intros E. apply Hq. rewrite E. apply list_elem_of_fmap. by exists p.
Qed.

Lemma fill_preferenceMap_duplicate (l1 l2 : list Preference) (p : Preference)
    (m : gmap string Preference) :
  NoDup (Key <$> l1) -> (forall q, q ∈ l1 -> m !! Key q = None) ->
  Key p ∈ (Key <$> l1) \/ is_Some (m !! Key p) ->
  fill_preferenceMap (l1 ++ p :: l2) m
  = inl (Errorf "duplicate preference key in the preferences: %s" [ArgString (Key p)]).
Proof.
  revert m. induction l1 as [| q l1 IH]; intros m Hnd Hfree Hdup; cbn.
  - destruct Hdup as [Hin | [x Hx]]; [inversion Hin |]. by rewrite Hx.
  - cbn in Hnd. apply NoDup_cons in Hnd as [Hq Hnd].
    rewrite (Hfree q) by (by left). apply IH; [exact Hnd | |].
    + intros r Hr. rewrite lookup_insert_ne.
      * apply Hfree. by right.
      * intros E. apply Hq. rewrite E. apply list_elem_of_fmap. by exists r.
    + destruct (decide (Key q = Key p)) as [E | E].
      * right. rewrite E, lookup_insert_eq. by eexists.
      * rewrite lookup_insert_ne by exact E.
        destruct Hdup as [Hin | Hm]; [| by right].
        cbn in Hin. apply elem_of_cons in Hin as [Hin | Hin]; [congruence | by left].
Qed.

(** X1: the registry loads exactly when no two definitions share a key. *)
Theorem InitDB_loads_iff_keys_distinct (decoded : list Preference) :
  (exists reg, InitDB decoded = inr reg) <-> NoDup (Key <$> decoded).
Proof.
  unfold InitDB. split.
  - intros [reg H]. destruct (fill_preferenceMap decoded ∅) as [e | m] eqn:Hfill;
      [discriminate |].
    by destruct (fill_preferenceMap_inr _ _ _ Hfill) as (Hnd & _).
  - intros Hnd. destruct (fill_preferenceMap_total decoded ∅ Hnd) as [m ->].
    + intros p _. apply lookup_empty.
    + by eexists.
Qed.

(** X2: a loaded registry keeps the definitions in file order, and its
    map sends a key to a definition exactly when that definition is
    listed under that key. *)
Theorem InitDB_map_is_the_list (decoded : list Preference) (reg : Registry) :
  InitDB decoded = inr reg ->
  preferences reg = decoded /\
  forall k p, preferenceMap reg !! k = Some p <-> p ∈ decoded /\ Key p = k.
Proof.
  unfold InitDB. destruct (fill_preferenceMap decoded ∅) as [e | m] eqn:Hfill;
    [discriminate |].
  intros [= <-]. cbn. split; [reflexivity |].
  destruct (fill_preferenceMap_inr _ _ _ Hfill) as (_ & _ & Hlook).
  intros k p. rewrite Hlook, lookup_empty. split.
  - intros [H | H]; [exact H | discriminate].
  - intros H. by left.
Qed.

Lemma InitDB_map_is_the_list_witness :
  InitDB [maxAlerts; retryCount; darkMode; theme; layout] = inr sample_registry /\
  (preferenceMap sample_registry !! "THEME") = Some theme.
Proof.
  assert (InitDB [maxAlerts; retryCount; darkMode; theme; layout] = inr sample_registry)
    as Hload by (vm_compute; reflexivity).
  split; [exact Hload |].
  apply (proj2 (InitDB_map_is_the_list _ _ Hload)). split; [| reflexivity].
  do 3 apply list_elem_of_further. apply list_elem_of_here.
Defined.

(** X3: the load stops at the first definition whose key has been seen
    before and reports that key. *)
Theorem InitDB_reports_first_duplicate (l1 l2 : list Preference) (p : Preference) :
  NoDup (Key <$> l1) -> Key p ∈ (Key <$> l1) ->
  InitDB (l1 ++ p :: l2)
  = inl (Errorf "duplicate preference key in the preferences: %s" [ArgString (Key p)]).
Proof.
  intros Hnd Hin. unfold InitDB.
  rewrite (fill_preferenceMap_duplicate l1 l2 p ∅ Hnd); [reflexivity | | by left].
  intros q _. apply lookup_empty.
Qed.

Lemma InitDB_reports_first_duplicate_witness :
  NoDup (Key <$> [maxAlerts; darkMode]) /\
  (Key darkMode ∈ (Key <$> [maxAlerts; darkMode])) /\
  InitDB ([maxAlerts; darkMode] ++ darkMode :: [theme; theme])
  = inl (Errorf "duplicate preference key in the preferences: %s" [ArgString "DARK_MODE"]).
Proof.
  assert (NoDup (Key <$> [maxAlerts; darkMode])) as Hnd.
  { cbn. apply NoDup_cons. split; [| apply NoDup_singleton].
    rewrite list_elem_of_singleton. discriminate. }
  assert (Key darkMode ∈ (Key <$> [maxAlerts; darkMode])) as Hin.
  { cbn. apply list_elem_of_further, list_elem_of_here. }
  split; [exact Hnd |]. split; [exact Hin |].
  exact (InitDB_reports_first_duplicate [maxAlerts; darkMode] [theme; theme] darkMode
           Hnd Hin).
Defined.

(** ** More on the validator *)

(** X4: a preference is enabled for a scope exactly when the scope is
    one of its [AllowedScopes]; a [nil] slice enables nothing. *)
Theorem scope_enabled_iff_listed (p : Preference) (scope : string) :
  (IsEnabledForScope p scope = true <-> scope ∈ elems_of (AllowedScopes p)) /\
  (AllowedScopes p = SliceNil -> IsEnabledForScope p scope = false).
Proof.
  split; [apply IsEnabledForScope_spec |].
  intros Hnil. unfold IsEnabledForScope. by rewrite Hnil.
Qed.

Lemma allowed_check_cases (p : Preference) (v : value) :
  (forall a, a ∈ elems_of (AllowedValues p) -> go_eq a v <> None) ->
  allowed_check p v = Returns None \/
  allowed_check p v = Returns (Some (ErrorNotInAllowedValues p)).
Proof.
  intros Hnp. unfold allowed_check.
  destruct (IsDescreteValues p); [| by left].
  destruct (negb (is_nil (AllowedValues p))); [| by left].
  destruct (checkIfInAllowedValues_spec v p Hnp) as (b & -> & _).
  destruct b; [by left | by right].
Qed.

(** X5: for a definition of one of the four known value types the
    validator always returns, and so do both setters: no candidate and no
    allowed-values list makes them panic. *)
Theorem known_value_types_never_panic {arch : Platform} (p : Preference) (v : value) :
  ValueType p = PreferenceValueTypeInteger \/ ValueType p = PreferenceValueTypeFloat \/
  ValueType p = PreferenceValueTypeString \/ ValueType p = PreferenceValueTypeBoolean ->
  IsValidValue p v <> Panics /\
  forall reg db ctx preferenceId orgId,
    preferenceMap reg !! preferenceId = Some p ->
    fst (UpdateOrgPreference reg db ctx preferenceId v orgId) <> Panics /\
    fst (UpdateUserPreference reg db ctx preferenceId v) <> Panics.
Proof.
  intros Hty.
  assert (IsValidValue p v <> Panics) as Hv.
  { unfold IsValidValue. destruct (type_switch p v) as [e |] eqn:Hsw; [discriminate |].
    pose proof (type_switch_comparable p v Hty Hsw) as Hc.
    destruct (allowed_check_cases p v) as [-> | ->]; try discriminate.
    intros a _. by apply go_eq_comparable. }
  split; [exact Hv |].
  intros reg db ctx preferenceId orgId Hp. split.
  - unfold UpdateOrgPreference. rewrite Hp.
    destruct (IsEnabledForScope p OrgAllowedScope); cbn [negb]; [| discriminate].
    destruct (IsValidValue p v) as [[e |] |]; [discriminate | | by destruct Hv].
    destruct (db_fault db); [discriminate |]. destruct (db_bind db v); discriminate.
  - unfold UpdateUserPreference. rewrite Hp.
    destruct (IsEnabledForScope p UserAllowedScope); cbn [negb]; [| discriminate].
    destruct (IsValidValue p v) as [[e |] |]; [discriminate | | by destruct Hv].
    destruct (db_fault db); [discriminate |]. destruct (db_bind db v); discriminate.
Qed.

Lemma known_value_types_never_panic_witness :
  ValueType retryCount = PreferenceValueTypeInteger /\
  IsValidValue retryCount (VSlice [VInt64 2]) <> Panics.
Proof.
  split; [reflexivity |].
  apply (known_value_types_never_panic retryCount (VSlice [VInt64 2])). by left.
Defined.

(** X6: the validator panics exactly when the candidate falls out of the
    type switch, [IsDescreteValues] is on, and some allowed value has the
    candidate's dynamic type, that type being a slice or a map.  A setter
    that reaches such a validation panics too, with the store as it
    was. *)
Theorem validator_panics_iff {arch : Platform} (p : Preference) (v : value) :
  (IsValidValue p v = Panics <->
     type_switch p v = None /\ IsDescreteValues p = true /\
     exists a, a ∈ elems_of (AllowedValues p) /\
               type_of a = type_of v /\ comparable v = false) /\
  (forall reg db ctx preferenceId orgId,
     IsValidValue p v = Panics ->
     preferenceMap reg !! preferenceId = Some p ->
     (IsEnabledForScope p OrgAllowedScope = true ->
        UpdateOrgPreference reg db ctx preferenceId v orgId = (Panics, db)) /\
     (IsEnabledForScope p UserAllowedScope = true ->
        UpdateUserPreference reg db ctx preferenceId v = (Panics, db))).
Proof.
  split.
  - unfold IsValidValue. destruct (type_switch p v) as [e |] eqn:Hsw.
    { split; [discriminate | intros [H _]; discriminate]. }
    unfold allowed_check. destruct (IsDescreteValues p).
    2:{ split; [discriminate | intros (_ & H & _); discriminate]. }
    destruct (allowed_values_panic_dec v (elems_of (AllowedValues p))) as [Hex | Hnp].
    + assert (checkIfInAllowedValues v p = Panics) as Hp
        by (by apply foldl_allowed_step_exists_panic).
      destruct (AllowedValues p) as [| l] eqn:Hl.
      { destruct Hex as (a & Ha & _). inversion Ha. }
      cbn [is_nil negb]. rewrite Hp. split; [| reflexivity].
      intros _. split; [reflexivity |]. split; [reflexivity |].
      destruct Hex as (a & Ha & Hav). exists a. split; [exact Ha |].
      by apply go_eq_None.
    + destruct (checkIfInAllowedValues_spec v p Hnp) as (b & Hb & _).
      split.
      * intros H. exfalso. destruct (negb (is_nil (AllowedValues p))); [| discriminate].
        rewrite Hb in H. by destruct b.
      * intros (_ & _ & a & Ha & Hty). exfalso. apply (Hnp a Ha). by apply go_eq_None.
  - intros reg db ctx preferenceId orgId Hv Hp. split; intros He.
    + unfold UpdateOrgPreference. by rewrite Hp, He, Hv.
    + unfold UpdateUserPreference. by rewrite Hp, He, Hv.
Qed.

Lemma validator_panics_iff_witness :
  IsValidValue widgets (VSlice [VString "mem"]) = Panics /\
  (preferenceMap widgets_registry !! "WIDGETS") = Some widgets /\
  IsEnabledForScope widgets OrgAllowedScope = true /\
  UpdateOrgPreference widgets_registry sample_db sample_ctx "WIDGETS"
    (VSlice [VString "mem"]) "org-1" = (Panics, sample_db).
Proof.
  assert (IsValidValue widgets (VSlice [VString "mem"]) = Panics) as Hv.
  { apply (proj1 (validator_panics_iff widgets (VSlice [VString "mem"]))).
    split; [reflexivity |]. split; [reflexivity |].
    exists (VSlice [VString "cpu"]). split; [| by split].
    apply list_elem_of_further, list_elem_of_here. }
  assert ((preferenceMap widgets_registry !! "WIDGETS") = Some widgets) as Hp
    by (vm_compute; reflexivity).
  split; [exact Hv |]. split; [exact Hp |]. split; [reflexivity |].
  apply (proj2 (validator_panics_iff widgets (VSlice [VString "mem"]))
           widgets_registry sample_db sample_ctx "WIDGETS" "org-1" Hv Hp).
  reflexivity.
Defined.

Lemma allowed_check_not_mismatch (p : Preference) (v : value) :
  allowed_check p v <> Returns (Some (ErrorValueTypeMismatch p)).
Proof.
  unfold allowed_check. destruct (IsDescreteValues p); [| discriminate].
  destruct (negb (is_nil (AllowedValues p))); [| discriminate].
  destruct (checkIfInAllowedValues v p) as [[|] |]; discriminate.
Qed.

(** X7: for a string-, float- or boolean-typed preference the validator
    answers with the type-mismatch error exactly when the candidate's
    dynamic type is not [string], [float64] or [bool] respectively; in
    particular a float-typed preference refuses an [int64]. *)
Theorem type_mismatch_iff_wrong_dynamic_type {arch : Platform} (p : Preference) (v : value) :
  (ValueType p = PreferenceValueTypeString ->
     (IsValidValue p v = Returns (Some (ErrorValueTypeMismatch p)) <->
        type_of v <> TString)) /\
  (ValueType p = PreferenceValueTypeFloat ->
     (IsValidValue p v = Returns (Some (ErrorValueTypeMismatch p)) <->
        type_of v <> TFloat64)) /\
  (ValueType p = PreferenceValueTypeBoolean ->
     (IsValidValue p v = Returns (Some (ErrorValueTypeMismatch p)) <->
        type_of v <> TBool)).
Proof.
  pose proof (allowed_check_not_mismatch p v) as Hac.
  split; [| split]; intros Ht; unfold IsValidValue.
  - rewrite (type_switch_string _ _ Ht).
    destruct v; cbn; split; try congruence; try (intros; reflexivity); tauto.
  - rewrite (type_switch_float _ _ Ht).
    destruct v; cbn; split; try congruence; try (intros; reflexivity); tauto.
  - rewrite (type_switch_boolean _ _ Ht).
    destruct v; cbn; split; try congruence; try (intros; reflexivity); tauto.
Qed.

Lemma type_mismatch_iff_wrong_dynamic_type_witness :
  ValueType darkMode = PreferenceValueTypeBoolean /\
  type_of (VString "true") <> TBool /\
  IsValidValue darkMode (VString "true")
  = Returns (Some (ErrorValueTypeMismatch darkMode)).
Proof.
  split; [reflexivity |]. split; [discriminate |].
  destruct (type_mismatch_iff_wrong_dynamic_type darkMode (VString "true"))
    as (_ & _ & Hb).
  apply (Hb eq_refl). discriminate.
Defined.

(** X8: the range of a definition is consulted only for an integer-typed
    preference with [IsDescreteValues] off; in every other case the
    verdict is the same whatever the range.  In particular an
    integer-typed preference with [IsDescreteValues] on and no
    allowed-values list accepts every integer. *)
Theorem range_matters_only_for_plain_integers {arch : Platform} (p : Preference) (r : Range) (v : value) :
  IsDescreteValues p = true \/ ValueType p <> PreferenceValueTypeInteger ->
  IsValidValue (with_range p r) v = IsValidValue p v /\
  (ValueType p = PreferenceValueTypeInteger -> AllowedValues p = SliceNil ->
     forall z, IsValidValue p (VInt64 z) = Returns None).
Proof.
  intros Hcase. split.
  - unfold IsValidValue, type_switch, allowed_check, checkIfInAllowedValues,
      ErrorValueTypeMismatch, ErrorNotInAllowedValues, ErrorNotInRange, with_range.
    cbn [ValueType IsDescreteValues AllowedValues PRange].
    destruct (String.eqb_spec (ValueType p) PreferenceValueTypeInteger) as [Hi | Hi];
      [| reflexivity].
    destruct Hcase as [Hd | Hn]; [| contradiction].
    rewrite Hd. reflexivity.
  - intros Ht Hnil z. destruct Hcase as [Hd | Hn]; [| contradiction].
    unfold IsValidValue. rewrite (type_switch_integer _ _ Ht). cbn.
    rewrite Hd. cbn. unfold allowed_check. by rewrite Hd, Hnil.
Qed.

Lemma range_matters_only_for_plain_integers_witness :
  IsDescreteValues retryCount = true /\
  IsValidValue (with_range retryCount (mkRange 10 20)) (VInt64 4)
  = IsValidValue retryCount (VInt64 4) /\
  IsValidValue retryCount (VInt64 4) = Returns None.
Proof.
  split; [reflexivity |]. split; [| reflexivity].
  exact (proj1 (range_matters_only_for_plain_integers retryCount (mkRange 10 20)
                  (VInt64 4) (or_introl eq_refl))).
Defined.

Lemma checkIfInAllowedValues_result (v : value) (p q : Preference) :
  (forall a, a ∈ elems_of (AllowedValues p) <-> a ∈ elems_of (AllowedValues q)) ->
  checkIfInAllowedValues v p = checkIfInAllowedValues v q.
Proof.
  intros Hsame.
  destruct (allowed_values_panic_dec v (elems_of (AllowedValues p))) as [Hex | Hnp].
  - unfold checkIfInAllowedValues.
    rewrite !foldl_allowed_step_exists_panic; [reflexivity | | exact Hex].
    destruct Hex as (a & Ha & Hav). exists a. split; [by apply Hsame | exact Hav].
  - assert (forall a, a ∈ elems_of (AllowedValues q) -> go_eq a v <> None) as Hnq.
    { intros a Ha. apply Hnp. by apply Hsame. }
    destruct (checkIfInAllowedValues_spec v p Hnp) as (b & -> & Hb).
    destruct (checkIfInAllowedValues_spec v q Hnq) as (b' & -> & Hb').
    f_equal. apply eq_true_iff_eq. rewrite Hb, Hb'. split.
    + intros (a & Ha & Hav). exists a. split; [by apply Hsame | exact Hav].
    + intros (a & Ha & Hav). exists a. split; [by apply Hsame | exact Hav].
Qed.

(** X9: the membership test looks at every allowed value and at nothing
    else: two definitions whose allowed-values lists hold the same
    elements, in any order and with any repetition, give the same
    answer (or the same panic) for every candidate. *)
Theorem allowed_values_order_is_irrelevant (v : value) (p q : Preference) :
  (forall a, a ∈ elems_of (AllowedValues p) <-> a ∈ elems_of (AllowedValues q)) ->
  checkIfInAllowedValues v p = checkIfInAllowedValues v q /\
  (checkIfInAllowedValues v p = Returns true <->
     (forall a, a ∈ elems_of (AllowedValues p) -> go_eq a v <> None) /\
     exists a, a ∈ elems_of (AllowedValues p) /\ go_eq a v = Some true).
Proof.
  intros Hsame. split; [by apply checkIfInAllowedValues_result |].
  destruct (allowed_values_panic_dec v (elems_of (AllowedValues p))) as [Hex | Hnp].
  - unfold checkIfInAllowedValues. rewrite foldl_allowed_step_exists_panic by exact Hex.
    split; [discriminate |]. intros [Hnp _]. destruct Hex as (a & Ha & Hav).
    by destruct (Hnp a Ha).
  - destruct (checkIfInAllowedValues_spec v p Hnp) as (b & -> & Hb). split.
    + intros [= ->]. split; [exact Hnp | by apply Hb].
    + intros [_ Hex]. f_equal. by apply Hb.
Qed.

Lemma allowed_values_order_is_irrelevant_witness :
  (forall a, a ∈ elems_of (AllowedValues retryCount)
             <-> a ∈ elems_of (AllowedValues
                                 (mkPreference "R" "" "" "integer" VNil
                                    (SliceOf [VInt64 4; VInt64 2; VInt64 4]) true
                                    (mkRange 0 0) SliceNil))) /\
  checkIfInAllowedValues (VInt64 2) retryCount
  = checkIfInAllowedValues (VInt64 2)
      (mkPreference "R" "" "" "integer" VNil
         (SliceOf [VInt64 4; VInt64 2; VInt64 4]) true (mkRange 0 0) SliceNil).
Proof.
  assert (forall a, a ∈ elems_of (AllowedValues retryCount)
             <-> a ∈ elems_of (AllowedValues
                                 (mkPreference "R" "" "" "integer" VNil
                                    (SliceOf [VInt64 4; VInt64 2; VInt64 4]) true
                                    (mkRange 0 0) SliceNil))) as Hsame.
  { intros a. cbn. rewrite !elem_of_cons. rewrite !elem_of_nil. tauto. }
  split; [exact Hsame |].
  exact (proj1 (allowed_values_order_is_irrelevant (VInt64 2) retryCount _ Hsame)).
Defined.

(** ** More on the setters and getters *)

Lemma UpdateOrgPreference_cases {arch : Platform} reg db ctx preferenceId v orgId :
  UpdateOrgPreference reg db ctx preferenceId v orgId =
    match preferenceMap reg !! preferenceId with
    | None => (Returns (Failed (ErrNoSuchPreference preferenceId)), db)
    | Some p =>
        if IsEnabledForScope p OrgAllowedScope then
          match IsValidValue p v with
          | Panics => (Panics, db)
          | Returns (Some err) => (Returns (Failed err), db)
          | Returns None =>
              match db_fault db with
              | Some dberr =>
                  (Returns (Failed (ErrExec "error in setting the preference value: %s"
                                      dberr)), db)
              | None =>
                  match db_bind db v with
                  | inl dberr =>
                      (Returns (Failed (ErrExec "error in setting the preference value: %s"
                                          dberr)), db)
                  | inr column =>
                      (Returns (Ok (mkKV preferenceId v)),
                       with_org_table db
                         (<[(preferenceId, orgId) := column]> (org_preference db)))
                  end
              end
          end
        else (Returns (Failed (ErrNotEnabledAtOrg preferenceId)), db)
    end.
Proof.
  unfold UpdateOrgPreference. destruct (preferenceMap reg !! preferenceId); [| reflexivity].
  by destruct (IsEnabledForScope _ OrgAllowedScope).
Qed.

Lemma UpdateUserPreference_cases {arch : Platform} reg db ctx preferenceId v :
  UpdateUserPreference reg db ctx preferenceId v =
    match preferenceMap reg !! preferenceId with
    | None => (Returns (Failed (ErrNoSuchPreference preferenceId)), db)
    | Some p =>
        if IsEnabledForScope p UserAllowedScope then
          match IsValidValue p v with
          | Panics => (Panics, db)
          | Returns (Some err) => (Returns (Failed err), db)
          | Returns None =>
              match db_fault db with
              | Some dberr =>
                  (Returns (Failed (ErrExec "error in setting the preference value: %s"
                                      dberr)), db)
              | None =>
                  match db_bind db v with
                  | inl dberr =>
                      (Returns (Failed (ErrExec "error in setting the preference value: %s"
                                          dberr)), db)
                  | inr column =>
                      (Returns (Ok (mkKV preferenceId v)),
                       with_user_table db
                         (<[(preferenceId, UserId ctx) := column]> (user_preference db)))
                  end
              end
          end
        else (Returns (Failed (ErrNotEnabledAtUser preferenceId)), db)
    end.
Proof.
  unfold UpdateUserPreference. destruct (preferenceMap reg !! preferenceId); [| reflexivity].
  by destruct (IsEnabledForScope _ UserAllowedScope).
Qed.

(** X10: a setter returns its key/value pair exactly when the key is
    registered, its scope is enabled, the candidate validates, the store
    is reachable and its driver can bind the candidate to the value
    column; the pair carries the candidate as submitted, and the new
    store is the old one with that one row upserted to the column value
    the driver made of the candidate. *)
Theorem setter_succeeds_iff {arch : Platform} (reg : Registry) (db : DB) (ctx : Context)
    (preferenceId : string) (v : value) (orgId : string)
    (kv : PreferenceKV) (db' : DB) :
  (UpdateOrgPreference reg db ctx preferenceId v orgId = (Returns (Ok kv), db') <->
     exists p column, preferenceMap reg !! preferenceId = Some p /\
       IsEnabledForScope p OrgAllowedScope = true /\
       IsValidValue p v = Returns None /\ db_fault db = None /\
       db_bind db v = inr column /\
       kv = mkKV preferenceId v /\
       db' = with_org_table db
               (<[(preferenceId, orgId) := column]> (org_preference db))) /\
  (UpdateUserPreference reg db ctx preferenceId v = (Returns (Ok kv), db') <->
     exists p column, preferenceMap reg !! preferenceId = Some p /\
       IsEnabledForScope p UserAllowedScope = true /\
       IsValidValue p v = Returns None /\ db_fault db = None /\
       db_bind db v = inr column /\
       kv = mkKV preferenceId v /\
       db' = with_user_table db
               (<[(preferenceId, UserId ctx) := column]> (user_preference db))).
Proof.
  split.
  - rewrite UpdateOrgPreference_cases. split.
    + destruct (preferenceMap reg !! preferenceId) as [p |]; [| discriminate].
      destruct (IsEnabledForScope p OrgAllowedScope) eqn:He; [| discriminate].
      destruct (IsValidValue p v) as [[e |] |] eqn:Hv; try discriminate.
      destruct (db_fault db) eqn:Hf; [discriminate |].
      destruct (db_bind db v) as [dberr | column] eqn:Hb; [discriminate |].
      intros [= <- <-]. by exists p, column.
    + intros (p & column & -> & -> & -> & -> & -> & -> & ->). reflexivity.
  - rewrite UpdateUserPreference_cases. split.
    + destruct (preferenceMap reg !! preferenceId) as [p |]; [| discriminate].
      destruct (IsEnabledForScope p UserAllowedScope) eqn:He; [| discriminate].
      destruct (IsValidValue p v) as [[e |] |] eqn:Hv; try discriminate.
      destruct (db_fault db) eqn:Hf; [discriminate |].
      destruct (db_bind db v) as [dberr | column] eqn:Hb; [discriminate |].
      intros [= <- <-]. by exists p, column.
    + intros (p & column & -> & -> & -> & -> & -> & -> & ->). reflexivity.
Qed.

(** The sample store's driver at work: the validated integer 50 is
    acknowledged as submitted and held as the text "50"; [layout]
    validates any candidate, but a map cannot be bound, and the setter
    reports the driver's refusal and writes nothing. *)
Example setter_and_driver :
  fst (UpdateOrgPreference sample_registry empty_db sample_ctx "MAX_ALERTS"
         (VInt64 50) "org-1")
  = Returns (Ok (mkKV "MAX_ALERTS" (VInt64 50))) /\
  org_preference (snd (UpdateOrgPreference sample_registry empty_db sample_ctx
                         "MAX_ALERTS" (VInt64 50) "org-1"))
  = <[("MAX_ALERTS", "org-1") := VString "50"]> ∅ /\
  IsValidValue layout (VMap [("cols", VInt64 2)]) = Returns None /\
  fst (UpdateUserPreference sample_registry empty_db sample_ctx "LAYOUT"
         (VMap [("cols", VInt64 2)]))
  = Returns (Failed (ErrExec "error in setting the preference value: %s"
      "sql: converting argument $2 type: unsupported type map[string]interface {}, a map")) /\
  user_preference (snd (UpdateUserPreference sample_registry empty_db sample_ctx "LAYOUT"
                          (VMap [("cols", VInt64 2)])))
  = ∅.
Proof. vm_compute. repeat split; reflexivity. Qed.

Lemma setter_frame {arch : Platform} (reg : Registry) (db : DB) (ctx : Context)
    (preferenceId : string) (v : value) (orgId : string) :
  (user_preference (snd (UpdateOrgPreference reg db ctx preferenceId v orgId))
   = user_preference db /\
   forall k, k <> (preferenceId, orgId) ->
     org_preference (snd (UpdateOrgPreference reg db ctx preferenceId v orgId)) !! k
     = org_preference db !! k) /\
  (org_preference (snd (UpdateUserPreference reg db ctx preferenceId v))
   = org_preference db /\
   forall k, k <> (preferenceId, UserId ctx) ->
     user_preference (snd (UpdateUserPreference reg db ctx preferenceId v)) !! k
     = user_preference db !! k).
Proof.
  split.
  - destruct (UpdateOrgPreference_store reg db ctx preferenceId v orgId)
      as [(column & _ & _ & ->) | [_ ->]]; cbn; split; try reflexivity.
    intros k Hk. by apply lookup_insert_ne.
  - destruct (UpdateUserPreference_store reg db ctx preferenceId v)
      as [(column & _ & _ & ->) | [_ ->]]; cbn; split; try reflexivity.
    intros k Hk. by apply lookup_insert_ne.
Qed.

(** X11: whatever its outcome, the org setter leaves the user table and
    every org row other than its own [(preferenceId, orgId)] untouched;
    the user setter likewise leaves the org table and every other user
    row untouched. *)
Theorem setter_touches_one_row {arch : Platform} (reg : Registry) (db : DB) (ctx : Context)
    (preferenceId : string) (v : value) (orgId : string) :
  (user_preference (snd (UpdateOrgPreference reg db ctx preferenceId v orgId))
   = user_preference db /\
   forall k, k <> (preferenceId, orgId) ->
     org_preference (snd (UpdateOrgPreference reg db ctx preferenceId v orgId)) !! k
     = org_preference db !! k) /\
  (org_preference (snd (UpdateUserPreference reg db ctx preferenceId v))
   = org_preference db /\
   forall k, k <> (preferenceId, UserId ctx) ->
     user_preference (snd (UpdateUserPreference reg db ctx preferenceId v)) !! k
     = user_preference db !! k).
Proof.
  destruct (setter_frame reg db ctx preferenceId v orgId) as [Horg Huser].
  split; [exact Horg | exact Huser].
Qed.

Lemma setter_keeps_fault {arch : Platform} reg db ctx preferenceId v orgId :
  db_fault (snd (UpdateOrgPreference reg db ctx preferenceId v orgId)) = db_fault db /\
  db_fault (snd (UpdateUserPreference reg db ctx preferenceId v)) = db_fault db.
Proof.
  split.
  - by destruct (UpdateOrgPreference_store reg db ctx preferenceId v orgId)
      as [(column & _ & _ & ->) | [_ ->]].
  - by destruct (UpdateUserPreference_store reg db ctx preferenceId v)
      as [(column & _ & _ & ->) | [_ ->]].
Qed.

Lemma GetOrgPreference_ext reg db1 db2 ctx1 ctx2 preferenceId orgId :
  db_fault db1 = db_fault db2 ->
  org_preference db1 !! (preferenceId, orgId) = org_preference db2 !! (preferenceId, orgId) ->
  GetOrgPreference reg db1 ctx1 preferenceId orgId
  = GetOrgPreference reg db2 ctx2 preferenceId orgId.
Proof. intros Hf Ho. unfold GetOrgPreference, db_get. by rewrite Hf, Ho. Qed.

Lemma GetUserPreference_ext reg db1 db2 ctx preferenceId orgId :
  db_fault db1 = db_fault db2 ->
  org_preference db1 !! (preferenceId, orgId) = org_preference db2 !! (preferenceId, orgId) ->
  user_preference db1 !! (preferenceId, UserId ctx)
  = user_preference db2 !! (preferenceId, UserId ctx) ->
  GetUserPreference reg db1 ctx preferenceId orgId
  = GetUserPreference reg db2 ctx preferenceId orgId.
Proof. intros Hf Ho Hu. unfold GetUserPreference, db_get. by rewrite Hf, Ho, Hu. Qed.

(** X12: a write at user scope is invisible to every org-scope read,
    and to the user-scope read of any other key or any other user. *)
Theorem user_write_is_invisible_elsewhere {arch : Platform} (reg : Registry) (db : DB) (ctx : Context)
    (preferenceId : string) (v : value) :
  let db' := snd (UpdateUserPreference reg db ctx preferenceId v) in
  (forall ctx' preferenceId' orgId,
     GetOrgPreference reg db' ctx' preferenceId' orgId
     = GetOrgPreference reg db ctx' preferenceId' orgId) /\
  (forall ctx' orgId,
     GetAllOrgPreferences reg db' ctx' orgId = GetAllOrgPreferences reg db ctx' orgId) /\
  (forall ctx' preferenceId' orgId,
     (preferenceId', UserId ctx') <> (preferenceId, UserId ctx) ->
     GetUserPreference reg db' ctx' preferenceId' orgId
     = GetUserPreference reg db ctx' preferenceId' orgId).
Proof.
  intros db'.
  destruct (setter_frame reg db ctx preferenceId v "") as (_ & Horg & Huser).
  destruct (setter_keeps_fault reg db ctx preferenceId v "") as (_ & Hf).
  fold db' in Horg, Huser, Hf. split; [| split].
  - intros ctx' preferenceId' orgId. apply GetOrgPreference_ext; [exact Hf |].
    by rewrite Horg.
  - intros ctx' orgId. unfold GetAllOrgPreferences. by rewrite Hf, Horg.
  - intros ctx' preferenceId' orgId Hne. apply GetUserPreference_ext; [exact Hf | |].
    + by rewrite Horg.
    + by apply Huser.
Qed.

(** X13: an org-scope write changes no read of another key or another
    organisation, at either scope. *)
Theorem org_write_is_invisible_elsewhere {arch : Platform} (reg : Registry) (db : DB) (ctx : Context)
    (preferenceId : string) (v : value) (orgId : string) :
  let db' := snd (UpdateOrgPreference reg db ctx preferenceId v orgId) in
  forall ctx' preferenceId' orgId',
    (preferenceId', orgId') <> (preferenceId, orgId) ->
    GetOrgPreference reg db' ctx' preferenceId' orgId'
    = GetOrgPreference reg db ctx' preferenceId' orgId' /\
    GetUserPreference reg db' ctx' preferenceId' orgId'
    = GetUserPreference reg db ctx' preferenceId' orgId'.
Proof.
  intros db' ctx' preferenceId' orgId' Hne.
  destruct (setter_frame reg db ctx preferenceId v orgId) as ((Huser & Horg) & _).
  destruct (setter_keeps_fault reg db ctx preferenceId v orgId) as (Hf & _).
  fold db' in Horg, Huser, Hf. split.
  - apply GetOrgPreference_ext; [exact Hf | by apply Horg].
  - apply GetUserPreference_ext; [exact Hf | by apply Horg | by rewrite Huser].
Qed.

Lemma org_write_is_invisible_elsewhere_witness :
  ("DARK_MODE", "org-2") <> ("DARK_MODE", "org-1") /\
  GetUserPreference sample_registry
    (snd (UpdateOrgPreference sample_registry empty_db sample_ctx "DARK_MODE"
            (VBool true) "org-1"))
    sample_ctx "DARK_MODE" "org-2"
  = GetUserPreference sample_registry empty_db sample_ctx "DARK_MODE" "org-2".
Proof.
  assert (("DARK_MODE", "org-2") <> ("DARK_MODE", "org-1")) as Hne by discriminate.
  split; [exact Hne |].
  exact (proj2 (org_write_is_invisible_elsewhere sample_registry empty_db sample_ctx
                  "DARK_MODE" (VBool true) "org-1" sample_ctx "DARK_MODE" "org-2" Hne)).
Defined.

Lemma user_write_is_invisible_elsewhere_witness :
  ("DARK_MODE", UserId (mkContext "user-2")) <> ("DARK_MODE", UserId sample_ctx) /\
  GetUserPreference sample_registry
    (snd (UpdateUserPreference sample_registry empty_db sample_ctx "DARK_MODE"
            (VBool true)))
    (mkContext "user-2") "DARK_MODE" "org-1"
  = GetUserPreference sample_registry empty_db (mkContext "user-2") "DARK_MODE" "org-1".
Proof.
  assert (("DARK_MODE", UserId (mkContext "user-2")) <> ("DARK_MODE", UserId sample_ctx))
    as Hne by discriminate.
  split; [exact Hne |].
  destruct (user_write_is_invisible_elsewhere sample_registry empty_db sample_ctx
              "DARK_MODE" (VBool true)) as (_ & _ & Huser).
  exact (Huser (mkContext "user-2") "DARK_MODE" "org-1" Hne).
Defined.

(** X14: the last write wins.  When a write of [v2] would succeed, doing
    it after any other write to the same row, successful or not, leaves
    the same store as doing it alone, and that row then holds the column
    value the store's driver made of [v2]. *)
Theorem last_write_wins {arch : Platform} (reg : Registry) (db : DB) (ctx : Context)
    (preferenceId : string) (v1 v2 : value) (orgId : string) :
  (fst (UpdateOrgPreference reg db ctx preferenceId v2 orgId)
   = Returns (Ok (mkKV preferenceId v2)) ->
   let db1 := snd (UpdateOrgPreference reg db ctx preferenceId v1 orgId) in
   UpdateOrgPreference reg db1 ctx preferenceId v2 orgId
   = UpdateOrgPreference reg db ctx preferenceId v2 orgId /\
   exists column, db_bind db v2 = inr column /\
     org_preference (snd (UpdateOrgPreference reg db1 ctx preferenceId v2 orgId))
       !! (preferenceId, orgId) = Some column) /\
  (fst (UpdateUserPreference reg db ctx preferenceId v2)
   = Returns (Ok (mkKV preferenceId v2)) ->
   let db1 := snd (UpdateUserPreference reg db ctx preferenceId v1) in
   UpdateUserPreference reg db1 ctx preferenceId v2
   = UpdateUserPreference reg db ctx preferenceId v2 /\
   exists column, db_bind db v2 = inr column /\
     user_preference (snd (UpdateUserPreference reg db1 ctx preferenceId v2))
       !! (preferenceId, UserId ctx) = Some column).
Proof.
  split.
  - intros Hok db1.
    assert (UpdateOrgPreference reg db1 ctx preferenceId v2 orgId
            = UpdateOrgPreference reg db ctx preferenceId v2 orgId) as Heq.
    { unfold db1. revert Hok. rewrite !UpdateOrgPreference_cases.
      destruct (preferenceMap reg !! preferenceId) as [p |]; [| discriminate].
      destruct (IsEnabledForScope p OrgAllowedScope); [| discriminate].
      destruct (IsValidValue p v2) as [[e |] |]; try discriminate.
      destruct (db_fault db) eqn:Hf; [discriminate |].
      destruct (db_bind db v2) as [dberr | c2] eqn:Hb2; [discriminate |]. intros _.
      destruct (IsValidValue p v1) as [[e |] |]; cbn; rewrite ?Hf, ?Hb2; try reflexivity.
      destruct (db_bind db v1) as [dberr | c1]; cbn; rewrite ?Hf, ?Hb2; [reflexivity |].
      unfold with_org_table. cbn. by rewrite insert_insert_eq. }
    split; [exact Heq |]. rewrite Heq.
    destruct (UpdateOrgPreference_store reg db ctx preferenceId v2 orgId)
      as [(column & Hb & _ & ->) | [Hno _]].
    + exists column. split; [exact Hb |]. cbn. apply lookup_insert_eq.
    + by destruct (Hno _ Hok).
  - intros Hok db1.
    assert (UpdateUserPreference reg db1 ctx preferenceId v2
            = UpdateUserPreference reg db ctx preferenceId v2) as Heq.
    { unfold db1. revert Hok. rewrite !UpdateUserPreference_cases.
      destruct (preferenceMap reg !! preferenceId) as [p |]; [| discriminate].
      destruct (IsEnabledForScope p UserAllowedScope); [| discriminate].
      destruct (IsValidValue p v2) as [[e |] |]; try discriminate.
      destruct (db_fault db) eqn:Hf; [discriminate |].
      destruct (db_bind db v2) as [dberr | c2] eqn:Hb2; [discriminate |]. intros _.
      destruct (IsValidValue p v1) as [[e |] |]; cbn; rewrite ?Hf, ?Hb2; try reflexivity.
      destruct (db_bind db v1) as [dberr | c1]; cbn; rewrite ?Hf, ?Hb2; [reflexivity |].
      unfold with_user_table. cbn. by rewrite insert_insert_eq. }
    split; [exact Heq |]. rewrite Heq.
    destruct (UpdateUserPreference_store reg db ctx preferenceId v2)
      as [(column & Hb & _ & ->) | [Hno _]].
    + exists column. split; [exact Hb |]. cbn. apply lookup_insert_eq.
    + by destruct (Hno _ Hok).
Qed.

Lemma last_write_wins_witness :
  fst (UpdateOrgPreference sample_registry empty_db sample_ctx "MAX_ALERTS"
         (VInt64 50) "org-1")
  = Returns (Ok (mkKV "MAX_ALERTS" (VInt64 50))) /\
  db_bind empty_db (VInt64 50) = inr (VString "50") /\
  org_preference
    (snd (UpdateOrgPreference sample_registry
            (snd (UpdateOrgPreference sample_registry empty_db sample_ctx "MAX_ALERTS"
                    (VInt64 7) "org-1"))
            sample_ctx "MAX_ALERTS" (VInt64 50) "org-1"))
    !! ("MAX_ALERTS", "org-1") = Some (VString "50").
Proof.
  assert (fst (UpdateOrgPreference sample_registry empty_db sample_ctx "MAX_ALERTS"
                 (VInt64 50) "org-1")
          = Returns (Ok (mkKV "MAX_ALERTS" (VInt64 50)))) as Hok
    by (vm_compute; reflexivity).
  split; [exact Hok |]. split; [vm_compute; reflexivity |].
  destruct (proj2 (proj1 (last_write_wins sample_registry empty_db sample_ctx "MAX_ALERTS"
                            (VInt64 7) (VInt64 50) "org-1") Hok))
    as (column & Hb & Hrow).
  vm_compute in Hb. injection Hb as <-. exact Hrow.
Defined.

(** X15: for a key that is not registered, the two getters and the two
    setters all answer with the same bad-data error, whatever the store,
    the scope and the candidate, and the setters write nothing. *)
Theorem unknown_key_is_bad_data {arch : Platform} (reg : Registry) (db : DB) (ctx : Context)
    (preferenceId : string) (v : value) (orgId : string) :
  preferenceMap reg !! preferenceId = None ->
  GetOrgPreference reg db ctx preferenceId orgId
  = Failed (ErrNoSuchPreference preferenceId) /\
  GetUserPreference reg db ctx preferenceId orgId
  = Failed (ErrNoSuchPreference preferenceId) /\
  UpdateOrgPreference reg db ctx preferenceId v orgId
  = (Returns (Failed (ErrNoSuchPreference preferenceId)), db) /\
  UpdateUserPreference reg db ctx preferenceId v
  = (Returns (Failed (ErrNoSuchPreference preferenceId)), db) /\
  Typ (ErrNoSuchPreference preferenceId) = ErrorBadData.
Proof.
  intros Hn. unfold GetOrgPreference, GetUserPreference, UpdateOrgPreference,
    UpdateUserPreference. rewrite Hn. repeat split.
Qed.

Lemma unknown_key_is_bad_data_witness :
  (preferenceMap sample_registry !! "NO_SUCH_KEY") = None /\
  UpdateUserPreference sample_registry faulty_db sample_ctx "NO_SUCH_KEY" (VInt64 1)
  = (Returns (Failed (ErrNoSuchPreference "NO_SUCH_KEY")), faulty_db).
Proof.
  assert ((preferenceMap sample_registry !! "NO_SUCH_KEY") = None) as Hn
    by (vm_compute; reflexivity).
  split; [exact Hn |].
  destruct (unknown_key_is_bad_data sample_registry faulty_db sample_ctx "NO_SUCH_KEY"
              (VInt64 1) "org-1" Hn) as (_ & _ & _ & Hu & _).
  exact Hu.
Defined.

(** X16: when the store is failing, both listings fail with an
    execution error whatever the registry holds; a getter fails with an
    execution error once its scope check has passed; a setter reports a
    validation error first, and otherwise the store's error, and in
    neither case writes. *)
Theorem store_fault_is_exec_error {arch : Platform} (reg : Registry) (db : DB) (ctx : Context)
    (msg : string) (orgId : string) :
  db_fault db = Some msg ->
  GetAllOrgPreferences reg db ctx orgId
  = Failed (ErrExec "error in getting all org preference values: %s" msg) /\
  GetAllUserPreferences reg db ctx orgId
  = Failed (ErrExec "error in getting all org preference values: %s" msg) /\
  forall preferenceId p, preferenceMap reg !! preferenceId = Some p ->
    (IsEnabledForScope p OrgAllowedScope = true ->
       GetOrgPreference reg db ctx preferenceId orgId
       = Failed (ErrExec "error in fetching the org preference: %s" msg)) /\
    (IsEnabledForScope p UserAllowedScope = true ->
       GetUserPreference reg db ctx preferenceId orgId
       = Failed (ErrExec (if IsEnabledForScope p OrgAllowedScope
                          then "error in getting org preference values: %s"
                          else "error in getting user preference values: %s") msg)) /\
    (forall v, IsEnabledForScope p OrgAllowedScope = true ->
       UpdateOrgPreference reg db ctx preferenceId v orgId =
         (match IsValidValue p v with
          | Panics => Panics
          | Returns (Some err) => Returns (Failed err)
          | Returns None =>
              Returns (Failed (ErrExec "error in setting the preference value: %s" msg))
          end, db)) /\
    (forall v, IsEnabledForScope p UserAllowedScope = true ->
       UpdateUserPreference reg db ctx preferenceId v =
         (match IsValidValue p v with
          | Panics => Panics
          | Returns (Some err) => Returns (Failed err)
          | Returns None =>
              Returns (Failed (ErrExec "error in setting the preference value: %s" msg))
          end, db)).
Proof.
  intros Hf. split; [| split].
  - unfold GetAllOrgPreferences, db_select. by rewrite Hf.
  - unfold GetAllUserPreferences, db_select. by rewrite Hf.
  - intros preferenceId p Hp. repeat split.
    + intros He. unfold GetOrgPreference, db_get. by rewrite Hp, He, Hf.
    + intros He. unfold GetUserPreference, db_get. rewrite Hp, He, Hf. cbn.
      by destruct (IsEnabledForScope p OrgAllowedScope).
    + intros v He. rewrite UpdateOrgPreference_cases, Hp, He, Hf.
      by destruct (IsValidValue p v) as [[e |] |].
    + intros v He. rewrite UpdateUserPreference_cases, Hp, He, Hf.
      by destruct (IsValidValue p v) as [[e |] |].
Qed.

Lemma store_fault_is_exec_error_witness :
  db_fault faulty_db = Some "database is locked" /\
  GetAllUserPreferences sample_registry faulty_db sample_ctx "org-1"
  = Failed (ErrExec "error in getting all org preference values: %s"
              "database is locked").
Proof.
  split; [reflexivity |].
  destruct (store_fault_is_exec_error sample_registry faulty_db sample_ctx
              "database is locked" "org-1" eq_refl) as (_ & Hu & _).
  exact Hu.
Defined.

(** X17: for a definition that is not enabled at org scope, the
    user-scope read does not look at the org table: it returns the same
    result whatever that table holds. *)
Theorem user_read_skips_org_table_when_org_disabled (reg : Registry) (db : DB)
    (ctx : Context) (preferenceId orgId : string) (p : Preference)
    (t : gmap (string * string) value) :
  preferenceMap reg !! preferenceId = Some p ->
  OrgAllowedScope ∉ elems_of (AllowedScopes p) ->
  GetUserPreference reg (with_org_table db t) ctx preferenceId orgId
  = GetUserPreference reg db ctx preferenceId orgId.
Proof.
  intros Hp Ho. unfold GetUserPreference. rewrite Hp.
  by rewrite (IsEnabledForScope_false _ _ Ho).
Qed.

Lemma user_read_skips_org_table_when_org_disabled_witness :
  (preferenceMap sample_registry !! "THEME") = Some theme /\
  (OrgAllowedScope ∉ elems_of (AllowedScopes theme)) /\
  GetUserPreference sample_registry
    (with_org_table empty_db (<[("THEME", "org-1") := VString "dark"]> ∅))
    sample_ctx "THEME" "org-1"
  = GetUserPreference sample_registry empty_db sample_ctx "THEME" "org-1".
Proof.
  assert ((preferenceMap sample_registry !! "THEME") = Some theme) as Hp
    by (vm_compute; reflexivity).
  assert (OrgAllowedScope ∉ elems_of (AllowedScopes theme)) as Ho.
  { cbn. rewrite list_elem_of_singleton. discriminate. }
  split; [exact Hp |]. split; [exact Ho |].
  exact (user_read_skips_org_table_when_org_disabled sample_registry empty_db sample_ctx
           "THEME" "org-1" theme _ Hp Ho).
Defined.

(** X18: a getter whose scope is not among the definition's
    [AllowedScopes] answers with the Forbidden error before it queries
    the store: the answer is the same for every store, failing or not. *)
Theorem getter_outside_allowed_scopes (reg : Registry) (db : DB) (ctx : Context)
    (preferenceId orgId : string) (p : Preference) :
  preferenceMap reg !! preferenceId = Some p ->
  (OrgAllowedScope ∉ elems_of (AllowedScopes p) ->
     GetOrgPreference reg db ctx preferenceId orgId
     = Failed (ErrNotEnabledAtOrg preferenceId)) /\
  (UserAllowedScope ∉ elems_of (AllowedScopes p) ->
     GetUserPreference reg db ctx preferenceId orgId
     = Failed (ErrNotEnabledAtUser preferenceId)) /\
  Typ (ErrNotEnabledAtOrg preferenceId) = ErrorForbidden /\
  Typ (ErrNotEnabledAtUser preferenceId) = ErrorForbidden.
Proof.
  intros Hp. repeat split.
  - intros Hs. by apply (GetOrgPreference_forbidden _ _ _ _ _ p), IsEnabledForScope_false.
  - intros Hs. by apply (GetUserPreference_forbidden _ _ _ _ _ p), IsEnabledForScope_false.
Qed.

Lemma getter_outside_allowed_scopes_witness :
  (preferenceMap sample_registry !! "MAX_ALERTS") = Some maxAlerts /\
  (UserAllowedScope ∉ elems_of (AllowedScopes maxAlerts)) /\
  GetUserPreference sample_registry faulty_db sample_ctx "MAX_ALERTS" "org-1"
  = Failed (ErrNotEnabledAtUser "MAX_ALERTS").
Proof.
  assert ((preferenceMap sample_registry !! "MAX_ALERTS") = Some maxAlerts) as Hp
    by (vm_compute; reflexivity).
  assert (UserAllowedScope ∉ elems_of (AllowedScopes maxAlerts)) as Hs.
  { cbn. rewrite list_elem_of_singleton. discriminate. }
  split; [exact Hp |]. split; [exact Hs |].
  destruct (getter_outside_allowed_scopes sample_registry faulty_db sample_ctx
              "MAX_ALERTS" "org-1" maxAlerts Hp) as (_ & Hu & _).
  exact (Hu Hs).
Defined.

(** ** More on the listings *)

Lemma listing_keys (row : Preference -> option View.AllPreferences) (scope : string)
    (prefs : list Preference) :
  (forall p, row p = if IsEnabledForScope p scope
                     then Some (view_of p (default VNil (View.Value <$> row p)))
                     else None) ->
  View.Key <$> omap row prefs
  = Key <$> filter (fun p => IsEnabledForScope p scope = true) prefs /\
  Forall (fun r => exists p, p ∈ prefs /\ IsEnabledForScope p scope = true /\
                             r = view_of p (View.Value r)) (omap row prefs).
Proof.
  intros Hrow. induction prefs as [| p prefs [IHk IHf]]; [by split |].
  assert (omap row (p :: prefs)
          = match row p with Some r => r :: omap row prefs | None => omap row prefs end)
    as -> by reflexivity.
  assert (Forall (fun r => exists q, q ∈ p :: prefs /\ IsEnabledForScope q scope = true /\
                                     r = view_of q (View.Value r)) (omap row prefs)) as IHf'.
  { eapply Forall_impl; [exact IHf |]. intros r (q & Hq & He & Hr).
    exists q. split; [by right | by split]. }
  rewrite filter_cons. rewrite (Hrow p).
  destruct (IsEnabledForScope p scope) eqn:He.
  - rewrite decide_True by reflexivity. split; [cbn; by rewrite IHk |].
    constructor; [| exact IHf'].
    exists p. split; [by left | by split].
  - rewrite decide_False by discriminate. by split.
Qed.

(** X19: on a store that answers, each listing returns, in registry
    order, one row per definition enabled at its scope and none for the
    others, and every row repeats the fields of its definition. *)
Theorem listing_rows_follow_registry (reg : Registry) (db : DB) (ctx : Context)
    (orgId : string) :
  db_fault db = None ->
  exists orgRows userRows,
    GetAllOrgPreferences reg db ctx orgId = Ok orgRows /\
    GetAllUserPreferences reg db ctx orgId = Ok userRows /\
    View.Key <$> orgRows
    = Key <$> filter (fun p => IsEnabledForScope p OrgAllowedScope = true)
                (preferences reg) /\
    View.Key <$> userRows
    = Key <$> filter (fun p => IsEnabledForScope p UserAllowedScope = true)
                (preferences reg) /\
    Forall (fun r => exists p, p ∈ preferences reg /\
                      IsEnabledForScope p OrgAllowedScope = true /\
                      r = view_of p (View.Value r)) orgRows /\
    Forall (fun r => exists p, p ∈ preferences reg /\
                      IsEnabledForScope p UserAllowedScope = true /\
                      r = view_of p (View.Value r)) userRows.
Proof.
  intros Hf. eexists. eexists.
  split; [by apply GetAllOrgPreferences_rows |].
  split; [by apply GetAllUserPreferences_rows |].
  destruct (listing_keys (org_row db orgId) OrgAllowedScope (preferences reg)) as [Hok Hof].
  { intros p. unfold org_row. by destruct (IsEnabledForScope p OrgAllowedScope). }
  destruct (listing_keys (user_row db ctx orgId) UserAllowedScope (preferences reg))
    as [Huk Huf].
  { intros p. unfold user_row. by destruct (IsEnabledForScope p UserAllowedScope). }
  by repeat split.
Qed.

Lemma listing_rows_follow_registry_witness :
  db_fault sample_db = None /\
  exists userRows,
    GetAllUserPreferences sample_registry sample_db sample_ctx "org-1" = Ok userRows /\
    View.Key <$> userRows = ["RETRY_COUNT"; "DARK_MODE"; "THEME"; "LAYOUT"].
Proof.
  split; [reflexivity |].
  destruct (listing_rows_follow_registry sample_registry sample_db sample_ctx "org-1"
              eq_refl) as (orgRows & userRows & _ & Hu & _ & Hk & _).
  exists userRows. split; [exact Hu |]. rewrite Hk. vm_compute. reflexivity.
Defined.

Lemma omap_ext_in {A B} (f g : A -> option B) (l : list A) :
  (forall x, x ∈ l -> f x = g x) -> omap f l = omap g l.
Proof.
  induction l as [| x l IH]; intros H; [reflexivity |].
  assert (forall h : A -> option B,
            omap h (x :: l) = match h x with Some y => y :: omap h l | None => omap h l end)
    as Hc by reflexivity.
  rewrite !Hc, (H x) by (by left). rewrite IH; [reflexivity |].
  intros y Hy. apply H. by right.
Qed.

(** X20: for a loaded registry and a store that answers, the user
    listing is the user getter run on each definition in turn: a row for
    each key on which the getter succeeds, carrying the getter's value,
    and no row where it fails. *)
Theorem user_listing_is_the_getter_mapped (decoded : list Preference) (reg : Registry)
    (db : DB) (ctx : Context) (orgId : string) :
  InitDB decoded = inr reg -> db_fault db = None ->
  GetAllUserPreferences reg db ctx orgId =
    Ok (omap (fun p => match GetUserPreference reg db ctx (Key p) orgId with
                       | Ok kv => Some (view_of p (PreferenceValue kv))
                       | Failed _ => None
                       end) (preferences reg)).
Proof.
  intros Hinit Hf. rewrite (GetAllUserPreferences_rows _ _ _ _ Hf). f_equal.
  apply omap_ext_in. intros p Hp. by apply (user_row_matches_getter decoded).
Qed.

Lemma user_listing_is_the_getter_mapped_witness :
  InitDB [maxAlerts; retryCount; darkMode; theme; layout] = inr sample_registry /\
  db_fault sample_db = None /\
  GetAllUserPreferences sample_registry sample_db sample_ctx "org-1" =
    Ok (omap (fun p => match GetUserPreference sample_registry sample_db sample_ctx
                               (Key p) "org-1" with
                       | Ok kv => Some (view_of p (PreferenceValue kv))
                       | Failed _ => None
                       end) (preferences sample_registry)).
Proof.
  assert (InitDB [maxAlerts; retryCount; darkMode; theme; layout] = inr sample_registry)
    as Hload by (vm_compute; reflexivity).
  split; [exact Hload |]. split; [reflexivity |].
  exact (user_listing_is_the_getter_mapped _ sample_registry sample_db sample_ctx "org-1"
           Hload eq_refl).
Defined.

(** X21: for a loaded registry and a store that answers, a definition
    enabled at org scope whose key has a stored org row appears in the
    org listing with exactly the value the org getter returns for it,
    the sanitised stored value. *)
Theorem org_listing_agrees_on_stored_rows (decoded : list Preference) (reg : Registry)
    (db : DB) (ctx : Context) (orgId : string) (p : Preference) (stored : value) :
  InitDB decoded = inr reg -> db_fault db = None ->
  p ∈ preferences reg ->
  IsEnabledForScope p OrgAllowedScope = true ->
  org_preference db !! (Key p, orgId) = Some stored ->
  GetOrgPreference reg db ctx (Key p) orgId
  = Ok (mkKV (Key p) (SanitizeValue p stored)) /\
  exists rows, GetAllOrgPreferences reg db ctx orgId = Ok rows /\
               view_of p (SanitizeValue p stored) ∈ rows.
Proof.
  intros Hinit Hf Hin He Hrow.
  pose proof (InitDB_lookup _ _ _ Hinit Hin) as Hp. split.
  - by rewrite (GetOrgPreference_value _ _ _ _ _ _ Hp He Hf), Hrow.
  - eexists. split; [by apply GetAllOrgPreferences_rows |].
    apply list_elem_of_omap. exists p. split; [exact Hin |].
    unfold org_row. by rewrite He, Hrow.
Qed.

Lemma org_listing_agrees_on_stored_rows_witness :
  InitDB [maxAlerts; retryCount; darkMode; theme; layout] = inr sample_registry /\
  (org_preference sample_db !! (Key darkMode, "org-1")) = Some (VString "0") /\
  GetOrgPreference sample_registry sample_db sample_ctx (Key darkMode) "org-1"
  = Ok (mkKV (Key darkMode) (SanitizeValue darkMode (VString "0"))).
Proof.
  assert (InitDB [maxAlerts; retryCount; darkMode; theme; layout] = inr sample_registry)
    as Hload by (vm_compute; reflexivity).
  assert ((org_preference sample_db !! (Key darkMode, "org-1")) = Some (VString "0"))
    as Hrow by (vm_compute; reflexivity).
  assert (darkMode ∈ preferences sample_registry) as Hin.
  { cbn. do 2 apply list_elem_of_further. apply list_elem_of_here. }
  split; [exact Hload |]. split; [exact Hrow |].
  exact (proj1 (org_listing_agrees_on_stored_rows _ sample_registry sample_db sample_ctx
                  "org-1" darkMode (VString "0") Hload eq_refl Hin eq_refl Hrow)).
Defined.

(** X22: for a loaded registry, no key appears twice in a listing. *)
Theorem listing_keys_are_distinct (decoded : list Preference) (reg : Registry)
    (db : DB) (ctx : Context) (orgId : string) (rows : list View.AllPreferences) :
  InitDB decoded = inr reg ->
  GetAllOrgPreferences reg db ctx orgId = Ok rows \/
  GetAllUserPreferences reg db ctx orgId = Ok rows ->
  NoDup (View.Key <$> rows).
Proof.
  intros Hinit Hrows.
  assert (NoDup (Key <$> preferences reg)) as Hnd.
  { revert Hinit. unfold InitDB.
    destruct (fill_preferenceMap decoded ∅) as [e | m] eqn:Hfill; [discriminate |].
    intros [= <-]. cbn. by destruct (fill_preferenceMap_inr _ _ _ Hfill) as (Hnd & _). }
  assert (db_fault db = None) as Hf.
  { destruct (db_fault db) as [msg |] eqn:Hf; [| reflexivity]. exfalso.
    destruct Hrows as [H | H]; revert H.
    - unfold GetAllOrgPreferences, db_select. by rewrite Hf.
    - unfold GetAllUserPreferences, db_select. by rewrite Hf. }
  pose proof (GetAllOrgPreferences_rows reg db ctx orgId Hf) as Ho.
  pose proof (GetAllUserPreferences_rows reg db ctx orgId Hf) as Hu.
  destruct (listing_keys (org_row db orgId) OrgAllowedScope (preferences reg)) as [Hok _].
  { intros q. unfold org_row. by destruct (IsEnabledForScope q OrgAllowedScope). }
  destruct (listing_keys (user_row db ctx orgId) UserAllowedScope (preferences reg))
    as [Huk _].
  { intros q. unfold user_row. by destruct (IsEnabledForScope q UserAllowedScope). }
  assert (forall P `{forall x : Preference, Decision (P x)},
            NoDup (Key <$> filter P (preferences reg))) as Hsub.
  { intros P HP. eapply sublist_NoDup; [exact Hnd |].
    apply fmap_sublist, sublist_filter. }
  destruct Hrows as [H | H].
  - rewrite Ho in H. injection H as <-. rewrite Hok. apply Hsub.
  - rewrite Hu in H. injection H as <-. rewrite Huk. apply Hsub.
Qed.

Lemma listing_keys_are_distinct_witness :
  InitDB [maxAlerts; retryCount; darkMode; theme; layout] = inr sample_registry /\
  (exists rows, GetAllOrgPreferences sample_registry sample_db sample_ctx "org-1"
                = Ok rows /\ NoDup (View.Key <$> rows)).
Proof.
  assert (InitDB [maxAlerts; retryCount; darkMode; theme; layout] = inr sample_registry)
    as Hload by (vm_compute; reflexivity).
  split; [exact Hload |].
  destruct (GetAllOrgPreferences sample_registry sample_db sample_ctx "org-1")
    as [rows | e] eqn:Hrows; [| vm_compute in Hrows; discriminate].
  exists rows. split; [reflexivity |].
  exact (listing_keys_are_distinct _ sample_registry sample_db sample_ctx "org-1" rows
           Hload (or_introl Hrows)).
Defined.

(** X23: every read of a boolean-typed preference that goes through
    [SanitizeValue] yields a boolean, [true] exactly when the value it
    selected is the string "1": the user getter always, the org getter
    when the org has a row, and every row of both listings, where the
    value selected is the org's row or else the default in the org
    listing, and the user's row, else the org's row when org scope is
    enabled, else the default in the user listing. *)
Theorem boolean_reads_are_booleans (reg : Registry) (db : DB) (ctx : Context)
    (preferenceId orgId : string) (p : Preference) :
  preferenceMap reg !! preferenceId = Some p ->
  ValueType p = PreferenceValueTypeBoolean ->
  db_fault db = None ->
  (IsEnabledForScope p UserAllowedScope = true ->
     exists b, GetUserPreference reg db ctx preferenceId orgId
               = Ok (mkKV preferenceId (VBool b)) /\
       (b = true <->
          precedence p
            (if IsEnabledForScope p OrgAllowedScope
             then org_preference db !! (preferenceId, orgId) else None)
            (user_preference db !! (preferenceId, UserId ctx)) = VString "1")) /\
  (IsEnabledForScope p OrgAllowedScope = true ->
     forall stored, org_preference db !! (preferenceId, orgId) = Some stored ->
       GetOrgPreference reg db ctx preferenceId orgId
       = Ok (mkKV preferenceId (VBool (go_eq_string stored "1")))) /\
  (forall rows, GetAllOrgPreferences reg db ctx orgId = Ok rows ->
     Forall (fun r =>
               View.ValueType r = PreferenceValueTypeBoolean ->
               exists q b, q ∈ preferences reg /\
                 IsEnabledForScope q OrgAllowedScope = true /\
                 r = view_of q (VBool b) /\
                 (b = true <->
                    default (DefaultValue q) (org_preference db !! (Key q, orgId))
                    = VString "1")) rows) /\
  (forall rows, GetAllUserPreferences reg db ctx orgId = Ok rows ->
     Forall (fun r =>
               View.ValueType r = PreferenceValueTypeBoolean ->
               exists q b, q ∈ preferences reg /\
                 IsEnabledForScope q UserAllowedScope = true /\
                 r = view_of q (VBool b) /\
                 (b = true <->
                    precedence q
                      (if IsEnabledForScope q OrgAllowedScope
                       then org_preference db !! (Key q, orgId) else None)
                      (user_preference db !! (Key q, UserId ctx))
                    = VString "1")) rows).
Proof.
  intros Hp Ht Hf. split; [| split; [| split]].
  - intros He. rewrite (GetUserPreference_value _ _ _ _ _ _ Hp He Hf).
    rewrite (SanitizeValue_boolean _ _ Ht). eexists. split; [reflexivity |].
    apply go_eq_string_1.
  - intros He stored Hrow.
    by rewrite (GetOrgPreference_value _ _ _ _ _ _ Hp He Hf), Hrow,
      (SanitizeValue_boolean _ _ Ht).
  - intros rows H.
    rewrite (GetAllOrgPreferences_rows _ _ _ _ Hf) in H. injection H as <-.
    apply Forall_forall. intros r Hr.
    apply list_elem_of_omap in Hr as (q & Hq & Hrow). unfold org_row in Hrow.
    destruct (IsEnabledForScope q OrgAllowedScope) eqn:He; [| discriminate].
    injection Hrow as <-. cbn. intros Hb.
    rewrite (SanitizeValue_boolean _ _ Hb). eexists q, _.
    split; [exact Hq |]. split; [exact He |]. split; [reflexivity |].
    apply go_eq_string_1.
  - intros rows H.
    rewrite (GetAllUserPreferences_rows _ _ _ _ Hf) in H. injection H as <-.
    apply Forall_forall. intros r Hr.
    apply list_elem_of_omap in Hr as (q & Hq & Hrow). unfold user_row in Hrow.
    destruct (IsEnabledForScope q UserAllowedScope) eqn:He; [| discriminate].
    injection Hrow as <-. cbn. intros Hb.
    rewrite (SanitizeValue_boolean _ _ Hb). eexists q, _.
    split; [exact Hq |]. split; [exact He |]. split; [reflexivity |].
    apply go_eq_string_1.
Qed.

Lemma boolean_reads_are_booleans_witness :
  (preferenceMap sample_registry !! "DARK_MODE") = Some darkMode /\
  ValueType darkMode = PreferenceValueTypeBoolean /\
  db_fault sample_db = None /\
  IsEnabledForScope darkMode OrgAllowedScope = true /\
  (org_preference sample_db !! ("DARK_MODE", "org-1")) = Some (VString "0") /\
  GetOrgPreference sample_registry sample_db sample_ctx "DARK_MODE" "org-1"
  = Ok (mkKV "DARK_MODE" (VBool false)).
Proof.
  assert ((preferenceMap sample_registry !! "DARK_MODE") = Some darkMode) as Hp
    by (vm_compute; reflexivity).
  assert ((org_preference sample_db !! ("DARK_MODE", "org-1")) = Some (VString "0"))
    as Hrow by (vm_compute; reflexivity).
  split; [exact Hp |]. split; [reflexivity |]. split; [reflexivity |].
  split; [reflexivity |]. split; [exact Hrow |].
  destruct (boolean_reads_are_booleans sample_registry sample_db sample_ctx "DARK_MODE"
              "org-1" darkMode Hp eq_refl eq_refl) as (_ & Horg & _).
  exact (Horg eq_refl (VString "0") Hrow).
Defined.

(** ** The earlier revision *)

Lemma legacy_update_cases pm db ctx preferenceId v p :
  pm !! preferenceId = Some p -> Legacy.enabled_at_org p = true ->
  Legacy.UpdateOrgPreference pm db ctx preferenceId v =
    if String.eqb (Legacy.typeOfValue v) (Legacy.ValueType p) then
      match Legacy.domain_check p v with
      | Panics => (Panics, db)
      | Returns (Some err) => (Returns (Legacy.Failed err), db)
      | Returns None =>
          match Legacy.db_fault db with
          | Some msg =>
              (Returns (Legacy.Failed
                          (Legacy.ErrExec "error in setting the preference value: %s" msg)),
               db)
          | None =>
              (Returns (Legacy.Ok (Legacy.mkKV preferenceId v)),
               Legacy.mkDB (<[(preferenceId, Legacy.OrgId ctx) := v]>
                              (Legacy.org_preference db))
                           (Legacy.db_fault db))
          end
      end
    else (Returns (Legacy.Failed (Legacy.ErrTypeMismatch p)), db).
Proof.
  intros Hp He. unfold Legacy.UpdateOrgPreference. rewrite Hp, He. cbn [negb].
  by destruct (String.eqb (Legacy.typeOfValue v) (Legacy.ValueType p)).
Qed.

(** X24: in the earlier revision, a preference without an allowed-values
    list can be set only with a Go [int] inside the range, and only if it
    is integer-typed; every other candidate that passes the type check
    (an [int64], a string for a string-typed preference, ...) makes the
    setter panic on the assertion to [int], with nothing written. *)
Theorem legacy_range_branch_needs_int (pm : gmap string Legacy.Preference)
    (db : Legacy.DB) (ctx : Legacy.Context) (preferenceId : string)
    (v : Legacy.value) (p : Legacy.Preference) :
  pm !! preferenceId = Some p ->
  Legacy.enabled_at_org p = true ->
  Legacy.AllowedValues p = SliceNil ->
  (fst (Legacy.UpdateOrgPreference pm db ctx preferenceId v)
   = Returns (Legacy.Ok (Legacy.mkKV preferenceId v)) <->
     exists z, v = Legacy.VInteger Legacy.Tint z /\
       Legacy.ValueType p = "integer" /\
       Legacy.Min (Legacy.PRange p) <= z <= Legacy.Max (Legacy.PRange p) /\
       Legacy.db_fault db = None) /\
  (Legacy.UpdateOrgPreference pm db ctx preferenceId v = (Panics, db) <->
     Legacy.typeOfValue v = Legacy.ValueType p /\
     forall z, v <> Legacy.VInteger Legacy.Tint z).
Proof.
  intros Hp He Hnil. rewrite (legacy_update_cases _ _ _ _ _ _ Hp He).
  unfold Legacy.domain_check. rewrite Hnil.
  destruct (String.eqb_spec (Legacy.typeOfValue v) (Legacy.ValueType p)) as [Ht | Ht].
  - destruct v as [| b | t z | f | f | s | l | l];
      try (split; [split; [discriminate | intros (z & Hz & _); discriminate]
                  | split; [intros _; split; [exact Ht | intros z; discriminate]
                           | reflexivity]]).
    destruct t;
      try (split; [split; [discriminate | intros (z' & Hz & _); discriminate]
                  | split; [intros _; split; [exact Ht | intros z'; discriminate]
                           | reflexivity]]).
    cbn in Ht. split.
    + destruct ((z <? Legacy.Min (Legacy.PRange p)) || (z >? Legacy.Max (Legacy.PRange p)))
        eqn:Hr.
      * split; [discriminate |]. intros (z' & [= <-] & _ & Hin & _). lia.
      * destruct (Legacy.db_fault db) eqn:Hf.
        -- split; [discriminate |]. intros (z' & _ & _ & _ & Hn). discriminate.
        -- split; [| reflexivity]. intros _. exists z.
           split; [reflexivity |]. split; [by symmetry |]. split; [lia | reflexivity].
    + split.
      * destruct ((z <? _) || (z >? _)); [discriminate |].
        destruct (Legacy.db_fault db); discriminate.
      * intros [_ Hno]. by destruct (Hno z).
  - split.
    + split; [discriminate |]. intros (z & -> & Hi & _). cbn in Ht. congruence.
    + split; [discriminate |]. intros [Hty _]. contradiction.
Qed.

Lemma legacy_range_branch_needs_int_witness :
  (Legacy.sample_map !! "BANNER") = Some Legacy.banner /\
  Legacy.enabled_at_org Legacy.banner = true /\
  Legacy.AllowedValues Legacy.banner = SliceNil /\
  Legacy.typeOfValue (Legacy.VString "hello") = Legacy.ValueType Legacy.banner /\
  Legacy.UpdateOrgPreference Legacy.sample_map Legacy.sample_db (Legacy.mkContext "org-1")
    "BANNER" (Legacy.VString "hello") = (Panics, Legacy.sample_db).
Proof.
  assert ((Legacy.sample_map !! "BANNER") = Some Legacy.banner) as Hp
    by (vm_compute; reflexivity).
  split; [exact Hp |]. split; [reflexivity |]. split; [reflexivity |].
  split; [reflexivity |].
  apply (proj2 (legacy_range_branch_needs_int Legacy.sample_map Legacy.sample_db
                  (Legacy.mkContext "org-1") "BANNER" (Legacy.VString "hello")
                  Legacy.banner Hp eq_refl eq_refl)).
  split; [reflexivity | discriminate].
Defined.

(** X25: in the earlier revision the type check compares the label of
    the candidate's dynamic type with [ValueType]: the setter answers
    with the type-mismatch error exactly when the two differ, so an
    integer-typed preference turns down every [float64], whole or not,
    and with it every number decoded from JSON. *)
Theorem legacy_type_check_is_by_label (pm : gmap string Legacy.Preference)
    (db : Legacy.DB) (ctx : Legacy.Context) (preferenceId : string)
    (v : Legacy.value) (p : Legacy.Preference) :
  pm !! preferenceId = Some p ->
  Legacy.enabled_at_org p = true ->
  (Legacy.UpdateOrgPreference pm db ctx preferenceId v
   = (Returns (Legacy.Failed (Legacy.ErrTypeMismatch p)), db) <->
     Legacy.typeOfValue v <> Legacy.ValueType p) /\
  (Legacy.ValueType p = "integer" -> forall f, v = Legacy.VFloat64 f ->
     Legacy.UpdateOrgPreference pm db ctx preferenceId v
     = (Returns (Legacy.Failed (Legacy.ErrTypeMismatch p)), db)).
Proof.
  intros Hp He.
  assert (Legacy.UpdateOrgPreference pm db ctx preferenceId v
          = (Returns (Legacy.Failed (Legacy.ErrTypeMismatch p)), db) <->
          Legacy.typeOfValue v <> Legacy.ValueType p) as Hiff.
  { rewrite (legacy_update_cases _ _ _ _ _ _ Hp He).
    destruct (String.eqb_spec (Legacy.typeOfValue v) (Legacy.ValueType p)) as [Ht | Ht];
      [| split; [by intros _ | reflexivity]].
    split; [| by intros H]. intros H. exfalso. revert H.
    unfold Legacy.domain_check. destruct (Legacy.AllowedValues p) as [| l].
    - destruct v as [| b | t z | f | f | s | l | l]; try discriminate.
      destruct t; try discriminate.
      destruct ((z <? _) || (z >? _)); [discriminate |].
      destruct (Legacy.db_fault db); discriminate.
    - destruct (foldl (Legacy.allowed_step v) (Returns false) l) as [[|] |];
        cbn; try discriminate.
      destruct (Legacy.db_fault db); discriminate. }
  split; [exact Hiff |].
  intros Hi f ->. apply Hiff. cbn. rewrite Hi. discriminate.
Qed.

Lemma legacy_type_check_is_by_label_witness :
  (Legacy.sample_map !! "PAGE_SIZE") = Some Legacy.pageSize /\
  Legacy.enabled_at_org Legacy.pageSize = true /\
  Legacy.ValueType Legacy.pageSize = "integer" /\
  Legacy.UpdateOrgPreference Legacy.sample_map Legacy.sample_db (Legacy.mkContext "org-1")
    "PAGE_SIZE" (Legacy.VFloat64 float_4)
  = (Returns (Legacy.Failed (Legacy.ErrTypeMismatch Legacy.pageSize)), Legacy.sample_db).
Proof.
  assert ((Legacy.sample_map !! "PAGE_SIZE") = Some Legacy.pageSize) as Hp
    by (vm_compute; reflexivity).
  split; [exact Hp |]. split; [reflexivity |]. split; [reflexivity |].
  exact (proj2 (legacy_type_check_is_by_label Legacy.sample_map Legacy.sample_db
                  (Legacy.mkContext "org-1") "PAGE_SIZE" (Legacy.VFloat64 float_4)
                  Legacy.pageSize Hp eq_refl) eq_refl float_4 eq_refl).
Defined.




Lemma legacy_enabled_foldl (l : list string) (b : bool) :
  foldl (fun acc scope => if String.eqb scope "org" then true else acc) b l
  = b || bool_decide ("org" ∈ l).
Proof.
  revert b. induction l as [| a l IH]; intros b.
  - cbn. rewrite bool_decide_eq_false_2 by (intros H; inversion H).
    by rewrite orb_false_r.
  - cbn [foldl]. rewrite IH. destruct (String.eqb_spec a "org") as [-> | Hne].
    + rewrite (bool_decide_eq_true_2 ("org" ∈ "org" :: l)) by (by left).
      by rewrite orb_true_r.
    + destruct b; [reflexivity |]. cbn. apply bool_decide_ext.
      rewrite elem_of_cons. split; [tauto | intros [E | E]; [congruence | exact E]].
Qed.

(** X27: in the earlier revision both org functions are gated on "org"
    being one of the definition's [AllowedScopes]: when it is not, the
    getter and the setter answer with the Forbidden error whatever the
    store and the candidate, and nothing is written; when it is, and the
    store answers, the getter returns the stored value as fetched, or the
    default when there is no row. *)
Theorem legacy_org_scope_gate (pm : gmap string Legacy.Preference)
    (db : Legacy.DB) (ctx : Legacy.Context) (preferenceId : string)
    (p : Legacy.Preference) :
  pm !! preferenceId = Some p ->
  ("org" ∉ elems_of (Legacy.AllowedScopes p) ->
     Legacy.GetOrgPreference pm db ctx preferenceId
     = Legacy.Failed (Legacy.ErrNotEnabledAtOrg preferenceId) /\
     forall v, Legacy.UpdateOrgPreference pm db ctx preferenceId v
               = (Returns (Legacy.Failed (Legacy.ErrNotEnabledAtOrg preferenceId)), db)) /\
  ("org" ∈ elems_of (Legacy.AllowedScopes p) -> Legacy.db_fault db = None ->
     Legacy.GetOrgPreference pm db ctx preferenceId
     = Legacy.Ok (Legacy.mkKV preferenceId
                    (default (Legacy.DefaultValue p)
                       (Legacy.org_preference db !! (preferenceId, Legacy.OrgId ctx))))).
Proof.
  intros Hp.
  assert (Legacy.enabled_at_org p = bool_decide ("org" ∈ elems_of (Legacy.AllowedScopes p)))
    as He by apply legacy_enabled_foldl.
  split.
  - intros Hs. rewrite bool_decide_eq_false_2 in He by exact Hs.
    unfold Legacy.GetOrgPreference, Legacy.UpdateOrgPreference. rewrite Hp, He. by split.
  - intros Hs Hf. rewrite bool_decide_eq_true_2 in He by exact Hs.
    unfold Legacy.GetOrgPreference. rewrite Hp, He, Hf. cbn [negb].
    by destruct (Legacy.org_preference db !! (preferenceId, Legacy.OrgId ctx)).
Qed.

Lemma legacy_org_scope_gate_witness :
  (Legacy.sample_map !! "BANNER") = Some Legacy.banner /\
  ("org" ∈ elems_of (Legacy.AllowedScopes Legacy.banner)) /\
  Legacy.db_fault Legacy.sample_db = None /\
  Legacy.GetOrgPreference Legacy.sample_map Legacy.sample_db (Legacy.mkContext "org-1")
    "BANNER" = Legacy.Ok (Legacy.mkKV "BANNER" (Legacy.VString "1")).
Proof.
  assert ((Legacy.sample_map !! "BANNER") = Some Legacy.banner) as Hp
    by (vm_compute; reflexivity).
  assert ("org" ∈ elems_of (Legacy.AllowedScopes Legacy.banner)) as Hs
    by apply list_elem_of_here.
  split; [exact Hp |]. split; [exact Hs |]. split; [reflexivity |].
  rewrite (proj2 (legacy_org_scope_gate Legacy.sample_map Legacy.sample_db
                    (Legacy.mkContext "org-1") "BANNER" Legacy.banner Hp) Hs eq_refl).
  vm_compute. reflexivity.
Defined.
